(** * Care escalation system: triage scoring, referral lifecycle, broadcaster

    A shallow embedding of the backend services of the emergency referral
    application:

    - [app/services/triage_service.py]       (class [TriageService]),
    - [app/services/referral_service.py]     (class [ReferralService]),
    - [app/websocket/manager.py]             (class [ConnectionManager]),
    - [app/services/notification_service.py] (class [NotificationService]),
    - [app/api/routes/triage.py]             (route [assess_triage]),

    with the SQLAlchemy models of [app/models/] as records, the database
    session as an explicit state, and exceptions as results. *)

From Stdlib Require Import ZArith List String Bool Lia PrimFloat DecimalString.
From Stdlib Require Import Sorted Permutation.
#[local] Set Warnings "-inexact-float".
Import ListNotations.
Local Open Scope string_scope.
Local Open Scope Z_scope.

(** ** Data model ([app/models/]) *)

(** [datetime] values are instants on the UTC time line, counted in
    microseconds. *)
Definition datetime := Z.

(** [models/health_center.py]: [center_type] is a free [String] column whose
    intended values are ["Centre de Santé"] and ["CHU"]. *)
Record HealthCenter := mkHealthCenter {
  hc_id : Z;
  hc_name : string;
  center_type : string;
  hc_address : option string;
  hc_city : option string;
  hc_phone : option string
}.

(** [models/patient.py].  Nullable columns are options; the two [Float]
    columns are IEEE binary64 values, as Python floats are. *)
Record Patient := mkPatient {
  p_id : Z;
  first_name : string;
  last_name : string;
  oxygen_saturation : option float;
  heart_rate : option Z;
  blood_pressure_systolic : option Z;
  blood_pressure_diastolic : option Z;
  temperature : option float;
  chest_pain : option bool;
  triage_level : option string;
  health_center_id : Z;
  registered_by : Z
}.

(** [models/referral.py]. *)
Record Referral := mkReferral {
  r_id : Z;
  patient_id : Z;
  from_center_id : Z;
  to_center_id : Z;
  status : string;
  priority : string;
  reason : option string;
  clinical_notes : option string;
  created_at : option datetime;
  sent_at : option datetime;
  accepted_at : option datetime;
  transferred_at : option datetime;
  created_by : Z;
  accepted_by : option Z
}.

(** ** Python values *)

(** Truthiness of an [Optional[bool]]: [None] and [False] are falsy. *)
Definition truthy_bool (b : option bool) : bool :=
  match b with Some true => true | _ => false end.

(** [x or d] on an [Optional[str]] with a string default: [None] and the
    empty string are falsy. *)
Definition str_or (s : option string) (d : string) : string :=
  match s with
  | Some (String a t) => String a t
  | _ => d
  end.

(** [str(n)] for a Python [int]. *)
Definition str_int (n : Z) : string := NilZero.string_of_int (Z.to_int n).

(** [str(x)] for an [Optional[str]], as an f-string renders it. *)
Definition str_opt (s : option string) : string :=
  match s with Some x => x | None => "None" end.

(** ** The database session *)

(** The three tables the services read and write, each in storage order:
    [query(...).filter(...).first()] returns the first row that satisfies
    the filter. *)
Record Session := mkSession {
  patients : list Patient;
  health_centers : list HealthCenter;
  referrals : list Referral
}.

Definition with_referrals (db : Session) (rs : list Referral) : Session :=
  {| patients := patients db;
     health_centers := health_centers db;
     referrals := rs |}.

Definition query_patient (db : Session) (id : Z) : option Patient :=
  find (fun p => p_id p =? id) (patients db).

Definition query_health_center (db : Session) (id : Z) : option HealthCenter :=
  find (fun h => hc_id h =? id) (health_centers db).

Definition query_referral (db : Session) (id : Z) : option Referral :=
  find (fun r => r_id r =? id) (referrals db).

(** [query(HealthCenter).filter(HealthCenter.center_type == t).first()] *)
Definition query_center_of_type (db : Session) (t : string) : option HealthCenter :=
  find (fun h => String.eqb (center_type h) t) (health_centers db).

(** The integer primary key a newly inserted row receives (SQLite row id:
    one more than the largest key in the table). *)
Definition next_id (rs : list Referral) : Z :=
  1 + fold_right Z.max 0 (map r_id rs).

(** [db.add(referral); db.commit()] for a new object. *)
Definition insert_referral (db : Session) (r : Referral) : Session :=
  with_referrals db (referrals db ++ [r]).

(** Writing back a loaded row: the row that the query returned (the first one
    with that key) is replaced. *)
Fixpoint replace_row (id : Z) (r' : Referral) (rs : list Referral) : list Referral :=
  match rs with
  | [] => []
  | r :: rest => if r_id r =? id then r' :: rest else r :: replace_row id r' rest
  end.

Definition commit_referral (db : Session) (r' : Referral) : Session :=
  with_referrals db (replace_row (r_id r') r' (referrals db)).

(** ** Exceptions *)

Inductive Exception :=
| ValueError (msg : string)
| HTTPException (status_code : Z) (detail : string)
| RuntimeError (msg : string).

Inductive result (A : Type) :=
| Return (a : A)
| Raise (e : Exception).
Arguments Return {A} a.
Arguments Raise {A} e.

(** A call on a session yields its outcome and the session afterwards; a
    raised exception leaves the session as it was at the [raise]. *)
Definition call (A : Type) := (result A * Session)%type.

(** ** TriageService ([app/services/triage_service.py]) *)

Module TriageService.

Definition CRITICAL_OXYGEN_THRESHOLD : float := 90.0%float.

(** [assess_triage_level]: four guarded early returns, then the default. *)
Definition assess_triage_level (patient : Patient) : string :=
  if truthy_bool (chest_pain patient) then "CRITICAL"
  else if match oxygen_saturation patient with
          | Some spo2 => PrimFloat.ltb spo2 CRITICAL_OXYGEN_THRESHOLD
          | None => false
          end then "CRITICAL"
  else if match heart_rate patient with
          | Some hr => (hr >? 150) || (hr <? 40)
          | None => false
          end then "CRITICAL"
  else if match blood_pressure_systolic patient with
          | Some bp => (bp >? 180) || (bp <? 80)
          | None => false
          end then "CRITICAL"
  else "URGENT".

(** [should_create_referral]: reads the session, never writes it. *)
Definition should_create_referral (patient : Patient) (db : Session) : bool :=
  if negb (match triage_level patient with
           | Some l => String.eqb l "CRITICAL"
           | None => false
           end) then false
  else match query_health_center db (health_center_id patient) with
       | None => false
       | Some health_center =>
           if String.eqb (center_type health_center) "Centre de Santé"
           then true else false
       end.

End TriageService.

(** ** ReferralService ([app/services/referral_service.py]) *)

(** Every call that stamps a row takes [now], the value [datetime.utcnow()]
    returns during that call. *)
Module ReferralService.

(** Attribute assignments on a loaded [Referral]. *)
Definition set_sent (r : Referral) (now : datetime) : Referral :=
  {| r_id := r_id r; patient_id := patient_id r;
     from_center_id := from_center_id r; to_center_id := to_center_id r;
     status := "SENT"; priority := priority r; reason := reason r;
     clinical_notes := clinical_notes r; created_at := created_at r;
     sent_at := Some now; accepted_at := accepted_at r;
     transferred_at := transferred_at r; created_by := created_by r;
     accepted_by := accepted_by r |}.

Definition set_accepted (r : Referral) (now : datetime) (by_user : Z) : Referral :=
  {| r_id := r_id r; patient_id := patient_id r;
     from_center_id := from_center_id r; to_center_id := to_center_id r;
     status := "ACCEPTED"; priority := priority r; reason := reason r;
     clinical_notes := clinical_notes r; created_at := created_at r;
     sent_at := sent_at r; accepted_at := Some now;
     transferred_at := transferred_at r; created_by := created_by r;
     accepted_by := Some by_user |}.

Definition set_transferred (r : Referral) (now : datetime) : Referral :=
  {| r_id := r_id r; patient_id := patient_id r;
     from_center_id := from_center_id r; to_center_id := to_center_id r;
     status := "TRANSFERRED"; priority := priority r; reason := reason r;
     clinical_notes := clinical_notes r; created_at := created_at r;
     sent_at := sent_at r; accepted_at := accepted_at r;
     transferred_at := Some now; created_by := created_by r;
     accepted_by := accepted_by r |}.

(** [create_referral].  [now] is the clock reading at the insert, which
    the column default [datetime.utcnow] stores in [created_at]. *)
Definition create_referral (db : Session) (patient_id to_center_id created_by : Z)
    (reason clinical_notes : option string) (now : datetime) : call Referral :=
  match query_patient db patient_id with
  | None =>
      (Raise (ValueError ("Patient with ID " ++ str_int patient_id ++ " not found")), db)
  | Some patient =>
      let from_center := query_health_center db (health_center_id patient) in
      let to_center := query_health_center db to_center_id in
      match from_center, to_center with
      | Some from_center, Some to_center =>
          if negb (String.eqb (center_type to_center) "CHU")
          then (Raise (ValueError "Destination must be a CHU"), db)
          else
            let priority := str_or (triage_level patient) "CRITICAL" in
            let referral :=
              {| r_id := next_id (referrals db);
                 patient_id := patient_id;
                 from_center_id := hc_id from_center;
                 to_center_id := to_center_id;
                 status := "CREATED";
                 priority := priority;
                 reason := Some (str_or reason "Critical case requiring CHU care");
                 clinical_notes := clinical_notes;
                 created_at := Some now;
                 sent_at := None;
                 accepted_at := None;
                 transferred_at := None;
                 created_by := created_by;
                 accepted_by := None |} in
            (Return referral, insert_referral db referral)
      | _, _ => (Raise (ValueError "Invalid health center ID"), db)
      end
  end.

(** [auto_create_referral_for_critical_patient] *)
Definition auto_create_referral_for_critical_patient (db : Session)
    (patient_id created_by : Z) (now : datetime) : call (option Referral) :=
  match query_patient db patient_id with
  | None => (Return None, db)
  | Some patient =>
      if negb (TriageService.should_create_referral patient db) then (Return None, db)
      else match query_center_of_type db "CHU" with
           | None => (Return None, db)
           | Some chu =>
               match create_referral db patient_id (hc_id chu) created_by
                       (Some "Auto-referral: Critical case from Centre de Santé")
                       (Some ("Patient triage level: " ++ str_opt (triage_level patient)))
                       now with
               | (Return r, db') => (Return (Some r), db')
               | (Raise e, db') => (Raise e, db')
               end
           end
  end.

(** [send_referral] *)
Definition send_referral (db : Session) (referral_id : Z) (now : datetime)
    : call Referral :=
  match query_referral db referral_id with
  | None =>
      (Raise (ValueError ("Referral with ID " ++ str_int referral_id ++ " not found")), db)
  | Some referral =>
      if negb (String.eqb (status referral) "CREATED")
      then (Raise (ValueError ("Cannot send referral with status " ++ status referral)), db)
      else let referral' := set_sent referral now in
           (Return referral', commit_referral db referral')
  end.

(** [accept_referral] *)
Definition accept_referral (db : Session) (referral_id accepted_by : Z)
    (now : datetime) : call Referral :=
  match query_referral db referral_id with
  | None =>
      (Raise (ValueError ("Referral with ID " ++ str_int referral_id ++ " not found")), db)
  | Some referral =>
      if negb (existsb (String.eqb (status referral)) ["CREATED"; "SENT"])
      then (Raise (ValueError ("Cannot accept referral with status " ++ status referral)), db)
      else let referral' := set_accepted referral now accepted_by in
           (Return referral', commit_referral db referral')
  end.

(** [mark_transferred] *)
Definition mark_transferred (db : Session) (referral_id : Z) (now : datetime)
    : call Referral :=
  match query_referral db referral_id with
  | None =>
      (Raise (ValueError ("Referral with ID " ++ str_int referral_id ++ " not found")), db)
  | Some referral =>
      if negb (String.eqb (status referral) "ACCEPTED")
      then (Raise (ValueError ("Cannot transfer referral with status " ++ status referral)), db)
      else let referral' := set_transferred referral now in
           (Return referral', commit_referral db referral')
  end.

End ReferralService.

(** ** ConnectionManager ([app/websocket/manager.py]) *)

(** A [WebSocket] object is compared by identity. *)
Definition WebSocket := Z.

(** The [Dict[str, Any]] payloads handed to [send_json]. *)
#[local] Set Warnings "-register-all".
Inductive Json :=
| JNull
| JInt (n : Z)
| JStr (s : string)
| JObj (fields : list (string * Json)).
#[local] Set Warnings "register-all".

(** [x in xs] and [xs.remove(x)] on a Python list: membership, and removal
    of the first occurrence only. *)
Definition list_contains (x : WebSocket) (xs : list WebSocket) : bool :=
  existsb (Z.eqb x) xs.

Fixpoint list_remove (x : WebSocket) (xs : list WebSocket) : list WebSocket :=
  match xs with
  | [] => []
  | y :: rest => if x =? y then rest else y :: list_remove x rest
  end.

(** One call of [send_json] as seen from outside: the connection, the
    payload, and whether it went through. *)
Record Attempt := mkAttempt {
  att_conn : WebSocket;
  att_payload : Json;
  att_delivered : bool
}.

(** The manager's only attribute, next to the record of what was put on
    the wire. *)
Record Manager := mkManager {
  active_connections : list WebSocket;
  wire : list Attempt
}.

(** Stateful code that may raise: the state survives an exception. *)
Definition M (A : Type) := Manager -> result A * Manager.

Definition ret {A} (a : A) : M A := fun s => (Return a, s).

Definition raise {A} (e : Exception) : M A := fun s => (Raise e, s).

Definition bind {A B} (m : M A) (k : A -> M B) : M B :=
  fun s => match m s with
           | (Return a, s') => k a s'
           | (Raise e, s') => (Raise e, s')
           end.

(** [try: body  except Exception as e: handler(e)] *)
Definition try_except {A} (body : M A) (handler : Exception -> M A) : M A :=
  fun s => match body s with
           | (Return a, s') => (Return a, s')
           | (Raise e, s') => handler e s'
           end.

Notation "x <- m ;; k" := (bind m (fun x => k))
  (at level 61, m at next level, right associativity).
Notation "m ;;; k" := (bind m (fun _ => k))
  (at level 61, right associativity).

(** [for x in xs: acc = body(x, acc)], with the loop's local variable
    threaded through. *)
Fixpoint for_in {X B} (xs : list X) (body : X -> B -> M B) (acc : B) : M B :=
  match xs with
  | [] => ret acc
  | x :: rest => acc' <- body x acc ;; for_in rest body acc'
  end.

Module ConnectionManager.
Section Transport.

(** The far ends of the connections: whether [accept] and [send_json]
    on a given connection go through, or which exception they raise. *)
Variable accept_fails : WebSocket -> option Exception.
Variable send_fails : WebSocket -> Json -> option Exception.

Definition accept (websocket : WebSocket) : M unit :=
  match accept_fails websocket with
  | None => ret tt
  | Some e => raise e
  end.

Definition send_json (websocket : WebSocket) (message : Json) : M unit :=
  fun s =>
    match send_fails websocket message with
    | None =>
        (Return tt,
         {| active_connections := active_connections s;
            wire := wire s ++ [mkAttempt websocket message true] |})
    | Some e =>
        (Raise e,
         {| active_connections := active_connections s;
            wire := wire s ++ [mkAttempt websocket message false] |})
    end.

(** [__init__] *)
Definition init : Manager := {| active_connections := []; wire := [] |}.

(** [connect] *)
Definition connect (websocket : WebSocket) : M unit :=
  accept websocket ;;;
  fun s => (Return tt,
            {| active_connections := active_connections s ++ [websocket];
               wire := wire s |}).

(** [disconnect] *)
Definition disconnect (websocket : WebSocket) : M unit :=
  fun s =>
    if list_contains websocket (active_connections s)
    then (Return tt,
          {| active_connections := list_remove websocket (active_connections s);
             wire := wire s |})
    else (Return tt, s).

(** [send_personal_message] *)
Definition send_personal_message (message : Json) (websocket : WebSocket) : M unit :=
  try_except (send_json websocket message)
             (fun e => disconnect websocket ;;; raise e).

(** [broadcast] *)
Definition broadcast (message : Json) : M unit :=
  fun self =>
    (disconnected <-
       for_in (active_connections self)
         (fun connection disconnected =>
            try_except (send_json connection message ;;; ret disconnected)
                       (fun _ => ret (disconnected ++ [connection])%list))
         [] ;;
     for_in disconnected (fun connection _ => disconnect connection) tt) self.

End Transport.
End ConnectionManager.

(** ** NotificationService ([app/services/notification_service.py]) *)

Module NotificationService.
Section Transport.

Variable send_fails : WebSocket -> Json -> option Exception.

Definition notify_new_referral (referral_data : list (string * Json)) : M unit :=
  ConnectionManager.broadcast send_fails
    (JObj [("event", JStr "new_referral"); ("data", JObj referral_data)]).

Definition notify_referral_accepted (referral_data : list (string * Json)) : M unit :=
  ConnectionManager.broadcast send_fails
    (JObj [("event", JStr "referral_accepted"); ("data", JObj referral_data)]).

End Transport.
End NotificationService.

(** ** The triage route ([app/api/routes/triage.py]) *)

(** The process: the database session and the global [websocket_manager]. *)
Record App := mkApp {
  session : Session;
  manager : Manager
}.

(** [patient.triage_level = triage_level] *)
Definition set_triage_level (p : Patient) (l : string) : Patient :=
  {| p_id := p_id p; first_name := first_name p; last_name := last_name p;
     oxygen_saturation := oxygen_saturation p; heart_rate := heart_rate p;
     blood_pressure_systolic := blood_pressure_systolic p;
     blood_pressure_diastolic := blood_pressure_diastolic p;
     temperature := temperature p; chest_pain := chest_pain p;
     triage_level := Some l;
     health_center_id := health_center_id p; registered_by := registered_by p |}.

Fixpoint replace_patient (id : Z) (p' : Patient) (ps : list Patient) : list Patient :=
  match ps with
  | [] => []
  | p :: rest => if p_id p =? id then p' :: rest else p :: replace_patient id p' rest
  end.

(** [db.commit()] after an assignment on a loaded patient. *)
Definition commit_patient (db : Session) (p' : Patient) : Session :=
  {| patients := replace_patient (p_id p') p' (patients db);
     health_centers := health_centers db;
     referrals := referrals db |}.

Module TriageRoutes.
Section Transport.

Variable send_fails : WebSocket -> Json -> option Exception.

(** [assess_triage], for an authenticated nurse or doctor [current_user].
    The [try] covers the automatic creation and the notification; its
    handler only prints. *)
Definition assess_triage (app : App) (patient_id current_user : Z) (now : datetime)
    : result Patient * App :=
  match query_patient (session app) patient_id with
  | None =>
      (Raise (HTTPException 404
                ("Patient with ID " ++ str_int patient_id ++ " not found")),
       app)
  | Some patient =>
      let triage_level := TriageService.assess_triage_level patient in
      let patient := set_triage_level patient triage_level in
      let db := commit_patient (session app) patient in
      if TriageService.should_create_referral patient db then
        match ReferralService.auto_create_referral_for_critical_patient
                db (p_id patient) current_user now with
        | (Return (Some referral), db') =>
            let (_, manager') :=
              NotificationService.notify_new_referral send_fails
                [("referral_id", JInt (r_id referral));
                 ("patient_id", JInt (p_id patient));
                 ("patient_name",
                  JStr (first_name patient ++ " " ++ last_name patient));
                 ("priority", JStr (priority referral));
                 ("status", JStr (status referral))]
                (manager app) in
            (Return patient, {| session := db'; manager := manager' |})
        | (Return None, db') =>
            (Return patient, {| session := db'; manager := manager app |})
        | (Raise _, db') =>
            (Return patient, {| session := db'; manager := manager app |})
        end
      else (Return patient, {| session := db; manager := manager app |})
  end.

End Transport.
End TriageRoutes.

(** ** TriageService, the writing call ([app/services/triage_service.py]) *)

Module TriageWrites.

(** [TriageService.update_patient_triage] *)
Definition update_patient_triage (db : Session) (patient_id : Z)
    : result Patient * Session :=
  match query_patient db patient_id with
  | None =>
      (Raise (ValueError ("Patient with ID " ++ str_int patient_id ++ " not found")), db)
  | Some patient =>
      let triage_level := TriageService.assess_triage_level patient in
      let patient := set_triage_level patient triage_level in
      (Return patient, commit_patient db patient)
  end.

End TriageWrites.

(** ** ReferralService, the listings ([app/services/referral_service.py]) *)

(** [ORDER BY created_at DESC]: a row comes no later than another when its
    timestamp is not smaller; a missing timestamp is smaller than any
    other.  Rows with equal timestamps are left in storage order (the
    database fixes no order among them). *)
Definition not_smaller (a b : option datetime) : bool :=
  match a, b with
  | _, None => true
  | None, Some _ => false
  | Some x, Some y => y <=? x
  end.

Fixpoint insert_desc (r : Referral) (rs : list Referral) : list Referral :=
  match rs with
  | [] => [r]
  | x :: rest =>
      if not_smaller (created_at r) (created_at x) then r :: x :: rest
      else x :: insert_desc r rest
  end.

Definition order_by_created_at_desc (rs : list Referral) : list Referral :=
  fold_right insert_desc [] rs.

(** Truthiness of an [Optional[str]] and of an [Optional[int]]. *)
Definition truthy_string (s : option string) : bool :=
  match s with
  | Some (String _ _) => true
  | _ => false
  end.

Definition truthy_int (n : option Z) : bool :=
  match n with
  | Some k => negb (k =? 0)
  | None => false
  end.

Module ReferralQueries.

(** [ReferralService.get_referrals_by_status] *)
Definition get_referrals_by_status (db : Session) (status_filter : option string)
    : list Referral :=
  let query := referrals db in
  let query :=
    if truthy_string status_filter
    then filter (fun r => String.eqb (status r) (str_opt status_filter)) query
    else query in
  order_by_created_at_desc query.

(** [ReferralService.get_referrals_for_center] *)
Definition get_referrals_for_center (db : Session) (center_id : Z) (direction : string)
    : list Referral :=
  let query := referrals db in
  let query :=
    if String.eqb direction "to"
    then filter (fun r => to_center_id r =? center_id) query
    else filter (fun r => from_center_id r =? center_id) query in
  order_by_created_at_desc query.

End ReferralQueries.

(** ** AssignmentService ([app/services/assignment_service.py]) *)

Module AssignmentService.

(** [find_available_chu] *)
Definition find_available_chu (db : Session) : option HealthCenter :=
  query_center_of_type db "CHU".

(** [referral.to_center_id = chu_id] *)
Definition set_to_center (r : Referral) (chu_id : Z) : Referral :=
  {| r_id := r_id r; patient_id := patient_id r;
     from_center_id := from_center_id r; to_center_id := chu_id;
     status := status r; priority := priority r; reason := reason r;
     clinical_notes := clinical_notes r; created_at := created_at r;
     sent_at := sent_at r; accepted_at := accepted_at r;
     transferred_at := transferred_at r; created_by := created_by r;
     accepted_by := accepted_by r |}.

(** [assign_referral_to_chu] *)
Definition assign_referral_to_chu (db : Session) (referral_id chu_id : Z)
    : call Referral :=
  match query_referral db referral_id with
  | None =>
      (Raise (ValueError ("Referral with ID " ++ str_int referral_id ++ " not found")), db)
  | Some referral =>
      let chu := query_health_center db chu_id in
      if match chu with
         | None => true
         | Some chu => negb (String.eqb (center_type chu) "CHU")
         end
      then (Raise (ValueError "Destination must be a CHU"), db)
      else let referral' := set_to_center referral chu_id in
           (Return referral', commit_referral db referral')
  end.

End AssignmentService.

(** ** NotificationService, status changes *)

(** A [dict] as the list of its items in insertion order.  Assigning to a
    key that is there keeps its place; a new key goes to the end. *)
Fixpoint dict_set (k : string) (v : Json) (d : list (string * Json))
    : list (string * Json) :=
  match d with
  | [] => [(k, v)]
  | (k', v') :: rest =>
      if String.eqb k' k then (k', v) :: rest else (k', v') :: dict_set k v rest
  end.

(** [{**d, **e}] *)
Definition dict_update (d e : list (string * Json)) : list (string * Json) :=
  fold_left (fun acc kv => dict_set (fst kv) (snd kv) acc) e d.

Module StatusNotifications.
Section Transport.

Variable send_fails : WebSocket -> Json -> option Exception.

(** [NotificationService.notify_referral_status_change] *)
Definition notify_referral_status_change (referral_id : Z) (new_status : string)
    (referral_data : list (string * Json)) : M unit :=
  ConnectionManager.broadcast send_fails
    (JObj [("event", JStr "referral_status_changed");
           ("data",
            JObj (dict_update
                    [("referral_id", JInt referral_id); ("status", JStr new_status)]
                    referral_data))]).

End Transport.
End StatusNotifications.

(** ** The referral routes ([app/api/routes/referrals.py]) *)

(** [models/user.py] *)
Record User := mkUser {
  u_id : Z;
  username : string;
  email : string;
  hashed_password : string;
  full_name : string;
  role : string;
  is_active : option bool;
  u_health_center_id : option Z
}.

(** [.offset(skip).limit(limit)], as SQLite reads them: a negative offset
    is no offset, a negative limit is no limit. *)
Definition offset_limit {A : Type} (skip limit : Z) (rows : list A) : list A :=
  let rows := skipn (Z.to_nat skip) rows in
  if limit <? 0 then rows else firstn (Z.to_nat limit) rows.

(** [schemas/referral.py], [ReferralCreate] *)
Record ReferralCreate := mkReferralCreate {
  rc_patient_id : Z;
  rc_to_center_id : Z;
  rc_reason : option string;
  rc_clinical_notes : option string
}.

(** [column == current_user.health_center_id] *)
Definition eq_centre (x : Z) (centre : option Z) : bool :=
  match centre with
  | Some k => x =? k
  | None => false
  end.

(** The routes run for a [current_user] the security dependency has let
    through. *)
Module ReferralRoutes.
Section Transport.

Variable send_fails : WebSocket -> Json -> option Exception.

(** The [except ValueError as e] clause of the four writing routes. *)
Definition bad_request {A : Type} (e : Exception) (app : App) : result A * App :=
  match e with
  | ValueError msg => (Raise (HTTPException 400 msg), app)
  | _ => (Raise e, app)
  end.

(** What a writing route does once its service call has returned
    [referral]: publish, then return the referral. *)
Definition publish_and_return (notify : M unit) (referral : Referral)
    (db' : Session) (app : App) : result Referral * App :=
  match notify (manager app) with
  | (Return _, manager') =>
      (Return referral, {| session := db'; manager := manager' |})
  | (Raise e, manager') =>
      bad_request e {| session := db'; manager := manager' |}
  end.

(** The payload of the two routes that report a status change. *)
Definition status_change (referral : Referral) : M unit :=
  StatusNotifications.notify_referral_status_change send_fails
    (r_id referral) (status referral)
    [("referral_id", JInt (r_id referral));
     ("patient_id", JInt (patient_id referral));
     ("status", JStr (status referral))].

(** [create_referral] (POST /referrals) *)
Definition create_referral (app : App) (referral_data : ReferralCreate)
    (current_user : User) (now : datetime) : result Referral * App :=
  match ReferralService.create_referral (session app)
          (rc_patient_id referral_data) (rc_to_center_id referral_data)
          (u_id current_user) (rc_reason referral_data)
          (rc_clinical_notes referral_data) now with
  | (Return referral, db') =>
      publish_and_return
        (NotificationService.notify_new_referral send_fails
           [("referral_id", JInt (r_id referral));
            ("patient_id", JInt (patient_id referral));
            ("status", JStr (status referral));
            ("priority", JStr (priority referral))])
        referral db' app
  | (Raise e, db') => bad_request e {| session := db'; manager := manager app |}
  end.

(** [list_referrals] (GET /referrals) *)
Definition list_referrals (app : App) (status_filter : option string)
    (skip limit : Z) (current_user : User) : list Referral :=
  let query := referrals (session app) in
  let centre := u_health_center_id current_user in
  let query :=
    if String.eqb (role current_user) "nurse" && truthy_int centre
    then filter (fun r => eq_centre (from_center_id r) centre) query
    else if String.eqb (role current_user) "doctor" && truthy_int centre
    then filter (fun r => eq_centre (to_center_id r) centre) query
    else query in
  let query :=
    if truthy_string status_filter
    then filter (fun r => String.eqb (status r) (str_opt status_filter)) query
    else query in
  offset_limit skip limit (order_by_created_at_desc query).

(** [get_referral] (GET /referrals/{referral_id}) *)
Definition get_referral (app : App) (referral_id : Z) (current_user : User)
    : result Referral :=
  match query_referral (session app) referral_id with
  | None =>
      Raise (HTTPException 404
               ("Referral with ID " ++ str_int referral_id ++ " not found"))
  | Some referral =>
      let centre := u_health_center_id current_user in
      if String.eqb (role current_user) "nurse" && truthy_int centre then
        if negb (eq_centre (from_center_id referral) centre)
        then Raise (HTTPException 403
                      "Access denied: This referral does not belong to your health center")
        else Return referral
      else if String.eqb (role current_user) "doctor" && truthy_int centre then
        if negb (eq_centre (to_center_id referral) centre)
        then Raise (HTTPException 403 "Access denied: This referral is not for your CHU")
        else Return referral
      else Return referral
  end.

(** [send_referral] (POST /referrals/{referral_id}/send) *)
Definition send_referral (app : App) (referral_id : Z) (current_user : User)
    (now : datetime) : result Referral * App :=
  match ReferralService.send_referral (session app) referral_id now with
  | (Return referral, db') =>
      publish_and_return (status_change referral) referral db' app
  | (Raise e, db') => bad_request e {| session := db'; manager := manager app |}
  end.

(** [accept_referral] (POST /referrals/{referral_id}/accept) *)
Definition accept_referral (app : App) (referral_id : Z) (current_user : User)
    (now : datetime) : result Referral * App :=
  match ReferralService.accept_referral (session app) referral_id
          (u_id current_user) now with
  | (Return referral, db') =>
      publish_and_return
        (NotificationService.notify_referral_accepted send_fails
           [("referral_id", JInt (r_id referral));
            ("patient_id", JInt (patient_id referral));
            ("accepted_by", JStr (full_name current_user));
            ("status", JStr (status referral))])
        referral db' app
  | (Raise e, db') => bad_request e {| session := db'; manager := manager app |}
  end.

(** [mark_transferred] (POST /referrals/{referral_id}/transfer) *)
Definition mark_transferred (app : App) (referral_id : Z) (current_user : User)
    (now : datetime) : result Referral * App :=
  match ReferralService.mark_transferred (session app) referral_id now with
  | (Return referral, db') =>
      publish_and_return (status_change referral) referral db' app
  | (Raise e, db') => bad_request e {| session := db'; manager := manager app |}
  end.

End Transport.
End ReferralRoutes.

(** ** The assignment route ([app/api/routes/assignments.py]) *)

Module AssignmentRoutes.

(** [assign_referral] (POST /assignments/{referral_id}/assign) *)
Definition assign_referral (app : App) (referral_id chu_id : Z) (current_user : User)
    : result Referral * App :=
  match AssignmentService.assign_referral_to_chu (session app) referral_id chu_id with
  | (Return referral, db') =>
      (Return referral, {| session := db'; manager := manager app |})
  | (Raise (ValueError msg), db') =>
      (Raise (HTTPException 400 msg), {| session := db'; manager := manager app |})
  | (Raise e, db') => (Raise e, {| session := db'; manager := manager app |})
  end.

End AssignmentRoutes.

(** * Vocabulary of the properties *)

(** ** Triage rules *)

Module TriageSpec.
Import TriageService.

(** The four rules of [assess_triage_level], as propositions. *)
Definition chest_pain_set (p : Patient) : Prop :=
  chest_pain p = Some true.

Definition oxygen_low (p : Patient) : Prop :=
  exists spo2, oxygen_saturation p = Some spo2
               /\ PrimFloat.ltb spo2 90.0%float = true.

Definition heart_rate_out (p : Patient) : Prop :=
  exists hr, heart_rate p = Some hr /\ (hr > 150 \/ hr < 40).

Definition systolic_out (p : Patient) : Prop :=
  exists bp, blood_pressure_systolic p = Some bp /\ (bp > 180 \/ bp < 80).

Definition any_rule (p : Patient) : Prop :=
  chest_pain_set p \/ oxygen_low p \/ heart_rate_out p \/ systolic_out p.

End TriageSpec.

(** ** Lifecycle outcomes *)

Module LifecycleSpec.
Import ReferralService.

(** The outcome of a transition that is refused: a [ValueError] whose text
    names the operation and the status found, and an untouched session. *)
Definition refused (op : string) (r : Referral) (db : Session) : call Referral :=
  (Raise (ValueError ("Cannot " ++ op ++ " referral with status " ++ status r)), db).

(** The outcome of a transition that goes through: the updated row is
    returned and written back. *)
Definition committed (r' : Referral) (db : Session) : call Referral :=
  (Return r', commit_referral db r').

End LifecycleSpec.

(** ** Creation outcomes *)

Module CreationSpec.
Import ReferralService.

(** The row [create_referral] builds for patient [p]. *)
Definition fresh_referral (db : Session) (p : Patient) (to_id uid : Z)
    (why notes : option string) (now : datetime) : Referral :=
  {| r_id := next_id (referrals db);
     patient_id := p_id p;
     from_center_id := health_center_id p;
     to_center_id := to_id;
     status := "CREATED";
     priority := str_or (triage_level p) "CRITICAL";
     reason := Some (str_or why "Critical case requiring CHU care");
     clinical_notes := notes;
     created_at := Some now;
     sent_at := None;
     accepted_at := None;
     transferred_at := None;
     created_by := uid;
     accepted_by := None |}.

(** The outcome of a creation that goes through: the new row is returned
    and appended to the table. *)
Definition created (db : Session) (r : Referral) : call Referral :=
  (Return r, insert_referral db r).

(** The row automatic creation builds for patient [p] and destination
    [chu]. *)
Definition auto_referral (db : Session) (p : Patient) (chu : HealthCenter)
    (uid : Z) (now : datetime) : Referral :=
  fresh_referral db p (hc_id chu) uid
    (Some "Auto-referral: Critical case from Centre de Santé")
    (Some ("Patient triage level: " ++ str_opt (triage_level p)))
    now.

End CreationSpec.

(** ** Histories of a referral table *)

Module HistorySpec.
Import ReferralService CreationSpec.

(** The calls that write the referral table.  [Intake] stands for the
    patient and health-centre routes, which rewrite the other two tables
    and never touch referrals. *)
Inductive Request :=
| Create (patient_id to_center_id created_by : Z) (why notes : option string)
| AutoCreate (patient_id created_by : Z)
| Send (referral_id : Z)
| Accept (referral_id accepted_by : Z)
| Transfer (referral_id : Z)
| Intake (ps : list Patient) (hcs : list HealthCenter).

(** The session after one request served at clock reading [now], whether
    the call returned or raised. *)
Definition serve (db : Session) (now : datetime) (rq : Request) : Session :=
  match rq with
  | Create pid to_id uid why notes => snd (create_referral db pid to_id uid why notes now)
  | AutoCreate pid uid => snd (auto_create_referral_for_critical_patient db pid uid now)
  | Send id => snd (send_referral db id now)
  | Accept id uid => snd (accept_referral db id uid now)
  | Transfer id => snd (mark_transferred db id now)
  | Intake ps hcs =>
      {| patients := ps; health_centers := hcs; referrals := referrals db |}
  end.

Fixpoint run (db : Session) (history : list (datetime * Request)) : Session :=
  match history with
  | [] => db
  | (now, rq) :: rest => run (serve db now rq) rest
  end.

(** Successive clock readings never go back. *)
Fixpoint nondecreasing (ts : list datetime) : bool :=
  match ts with
  | a :: (b :: _) as rest => (a <=? b) && nondecreasing rest
  | _ => true
  end.

(** A session with no referral yet. *)
Definition start (ps : list Patient) (hcs : list HealthCenter) : Session :=
  {| patients := ps; health_centers := hcs; referrals := [] |}.

(** Position of a status in the chain CREATED, SENT, ACCEPTED, TRANSFERRED. *)
Definition stage_index (s : string) : option nat :=
  if String.eqb s "CREATED" then Some 0%nat
  else if String.eqb s "SENT" then Some 1%nat
  else if String.eqb s "ACCEPTED" then Some 2%nat
  else if String.eqb s "TRANSFERRED" then Some 3%nat
  else None.

(** [reached r stage]: the status of [r] is [stage] or a later one. *)
Definition reached (r : Referral) (stage : string) : Prop :=
  exists i j, stage_index (status r) = Some i /\ stage_index stage = Some j
              /\ (j <= i)%nat.

(** The timestamp that belongs to a stage. *)
Definition stamp (r : Referral) (stage : string) : option datetime :=
  if String.eqb stage "CREATED" then created_at r
  else if String.eqb stage "SENT" then sent_at r
  else if String.eqb stage "ACCEPTED" then accepted_at r
  else if String.eqb stage "TRANSFERRED" then transferred_at r
  else None.

Definition stages : list string := ["CREATED"; "SENT"; "ACCEPTED"; "TRANSFERRED"].

(** [a] is not after [b], when both are there. *)
Definition not_after (a b : option datetime) : Prop :=
  match a, b with
  | Some x, Some y => x <= y
  | _, _ => True
  end.

(** The timestamps that are set are in lifecycle order. *)
Definition ordered (r : Referral) : Prop :=
  not_after (created_at r) (sent_at r)
  /\ not_after (created_at r) (accepted_at r)
  /\ not_after (created_at r) (transferred_at r)
  /\ not_after (sent_at r) (accepted_at r)
  /\ not_after (sent_at r) (transferred_at r)
  /\ not_after (accepted_at r) (transferred_at r).

(** The relation between status and timestamps that every stored referral
    satisfies: the created, accepted and transferred timestamps are set
    exactly from their stage on; the sent timestamp is set on a SENT
    referral and only on one that reached SENT, but may be missing later
    on (acceptance straight from CREATED). *)
Definition stamped (r : Referral) : Prop :=
  In (status r) stages
  /\ (created_at r <> None <-> reached r "CREATED")
  /\ (sent_at r <> None -> reached r "SENT")
  /\ (status r = "SENT" -> sent_at r <> None)
  /\ (accepted_at r <> None <-> reached r "ACCEPTED")
  /\ (transferred_at r <> None <-> reached r "TRANSFERRED").

(** A timestamp that is set in [r] is the same in [r']. *)
Definition keeps_stamps (r r' : Referral) : Prop :=
  r_id r' = r_id r
  /\ forall stage t, stamp r stage = Some t -> stamp r' stage = Some t.

(** What a stored referral looks like at clock reading [t], status by
    status. *)
Definition lifecycle_shape (t : datetime) (r : Referral) : Prop :=
  (status r = "CREATED"
   /\ exists c, created_at r = Some c /\ c <= t
        /\ sent_at r = None /\ accepted_at r = None /\ transferred_at r = None)
  \/ (status r = "SENT"
      /\ exists c s, created_at r = Some c /\ sent_at r = Some s /\ c <= s <= t
           /\ accepted_at r = None /\ transferred_at r = None)
  \/ (status r = "ACCEPTED"
      /\ exists c a, created_at r = Some c /\ accepted_at r = Some a /\ c <= a <= t
           /\ not_after (created_at r) (sent_at r)
           /\ not_after (sent_at r) (accepted_at r)
           /\ transferred_at r = None)
  \/ (status r = "TRANSFERRED"
      /\ exists c a x, created_at r = Some c /\ accepted_at r = Some a
           /\ transferred_at r = Some x /\ c <= a <= x /\ x <= t
           /\ not_after (created_at r) (sent_at r)
           /\ not_after (sent_at r) (accepted_at r)).

(** [new] holds the rows of [old], each with the timestamps it had, and
    possibly further rows after them. *)
Definition table_keeps_stamps (old new : list Referral) : Prop :=
  exists kept added, new = (kept ++ added)%list /\ Forall2 keeps_stamps old kept.

(** The property as first stated: every timestamp is set exactly from its
    stage on. *)
Definition stamped_iff_reached (r : Referral) : Prop :=
  forall stage, In stage stages -> (stamp r stage <> None <-> reached r stage).

(** What a request leaves in the referral table: the table as it was, or
    with one new row appended, or with the row stored under a key replaced
    by its successor in the lifecycle. *)
Inductive effect (db : Session) (now : datetime) : list Referral -> Prop :=
| eff_none : effect db now (referrals db)
| eff_new (p : Patient) (to_id uid : Z) (why notes : option string) :
    effect db now
      (referrals db ++ [fresh_referral db p to_id uid why notes now])
| eff_sent (id : Z) (r : Referral) :
    query_referral db id = Some r -> status r = "CREATED" ->
    effect db now (replace_row id (set_sent r now) (referrals db))
| eff_accepted (id by_user : Z) (r : Referral) :
    query_referral db id = Some r -> status r = "CREATED" \/ status r = "SENT" ->
    effect db now (replace_row id (set_accepted r now by_user) (referrals db))
| eff_transferred (id : Z) (r : Referral) :
    query_referral db id = Some r -> status r = "ACCEPTED" ->
    effect db now (replace_row id (set_transferred r now) (referrals db)).

(** Which timestamps a stored referral has, status by status, whatever the
    clock did. *)
Definition stamps_of_status (r : Referral) : Prop :=
  (status r = "CREATED"
   /\ created_at r <> None
   /\ sent_at r = None /\ accepted_at r = None /\ transferred_at r = None)
  \/ (status r = "SENT"
      /\ created_at r <> None /\ sent_at r <> None
      /\ accepted_at r = None /\ transferred_at r = None)
  \/ (status r = "ACCEPTED"
      /\ created_at r <> None /\ accepted_at r <> None
      /\ transferred_at r = None)
  \/ (status r = "TRANSFERRED"
      /\ created_at r <> None /\ accepted_at r <> None
      /\ transferred_at r <> None).

(** From [r] to [r'], served at clock reading [now]: each of the four
    timestamps is what it was, unless it was unset and [r'] has just
    entered its stage, in which case it is [now]. *)
Definition sets_own_stamp (now : datetime) (r r' : Referral) : Prop :=
  r_id r' = r_id r
  /\ forall stage, In stage stages ->
       stamp r' stage = stamp r stage
       \/ (stamp r stage = None /\ stamp r' stage = Some now
           /\ status r' = stage /\ status r <> stage).

(** [new] holds the rows of [old], each changed at most in the timestamp
    of the stage it has just entered, followed by rows that are CREATED
    with only their created timestamp, set to [now]. *)
Definition table_sets_own_stamps (now : datetime) (old new : list Referral) : Prop :=
  exists kept added,
    new = (kept ++ added)%list
    /\ Forall2 (sets_own_stamp now) old kept
    /\ Forall (fun r => status r = "CREATED" /\ created_at r = Some now
                        /\ sent_at r = None /\ accepted_at r = None
                        /\ transferred_at r = None) added.

End HistorySpec.

(** ** Repeated escalation *)

Module RepeatSpec.

(** One call of [auto_create_referral_for_critical_patient] per clock
    reading, one after the other. *)
Fixpoint auto_create_each (db : Session) (pid uid : Z) (nows : list datetime)
    : Session :=
  match nows with
  | [] => db
  | now :: rest =>
      auto_create_each
        (snd (ReferralService.auto_create_referral_for_critical_patient db pid uid now))
        pid uid rest
  end.

(** One call of the route [assess_triage] per clock reading. *)
Fixpoint assess_each (send_fails : WebSocket -> Json -> option Exception)
    (app : App) (pid uid : Z) (nows : list datetime) : App :=
  match nows with
  | [] => app
  | now :: rest =>
      assess_each send_fails
        (snd (TriageRoutes.assess_triage send_fails app pid uid now)) pid uid rest
  end.

(** The patient's centre is stored and is a Centre de Santé. *)
Definition at_basic_clinic (p : Patient) (db : Session) : Prop :=
  exists h, query_health_center db (health_center_id p) = Some h
            /\ center_type h = "Centre de Santé".

(** [news] are referrals of status CREATED for patient [pid], with keys
    that differ from each other and from every key of [old]. *)
Definition new_created_for (pid : Z) (old news : list Referral) : Prop :=
  Forall (fun r => patient_id r = pid /\ status r = "CREATED"
                   /\ ~ In (r_id r) (map r_id old)) news
  /\ NoDup (map r_id news).

End RepeatSpec.

(** ** Sample data *)

(** The centres of [seed_data.py], with the keys the database gives them,
    and two patients. *)
Module Examples.

Definition centre_ibn_sina : HealthCenter :=
  mkHealthCenter 1 "Centre de Santé Ibn Sina" "Centre de Santé"
    (Some "123 Avenue Mohammed V") (Some "Casablanca") (Some "+212 522-123456").

Definition centre_al_kindi : HealthCenter :=
  mkHealthCenter 2 "Centre de Santé Al Kindi" "Centre de Santé"
    (Some "456 Boulevard Zerktouni") (Some "Casablanca") (Some "+212 522-234567").

Definition chu_ibn_rochd : HealthCenter :=
  mkHealthCenter 3 "CHU Ibn Rochd" "CHU"
    (Some "789 Boulevard de la Corniche") (Some "Casablanca") (Some "+212 522-345678").

Definition chu_mohammed_vi : HealthCenter :=
  mkHealthCenter 4 "CHU Mohammed VI" "CHU"
    (Some "321 Avenue Allal Ben Abdellah") (Some "Rabat") (Some "+212 537-123456").

Definition seeded_centers : list HealthCenter :=
  [centre_ibn_sina; centre_al_kindi; chu_ibn_rochd; chu_mohammed_vi].

(** Chest pain, registered at the first Centre de Santé, assessed. *)
Definition patient_clinic : Patient :=
  {| p_id := 1; first_name := "Youssef"; last_name := "Tazi";
     oxygen_saturation := Some 96.0%float; heart_rate := Some 88;
     blood_pressure_systolic := Some 130; blood_pressure_diastolic := Some 85;
     temperature := Some 37.0%float; chest_pain := Some true;
     triage_level := Some "CRITICAL";
     health_center_id := 1; registered_by := 1 |}.

(** Low oxygen saturation, registered at the first CHU, assessed. *)
Definition patient_chu : Patient :=
  {| p_id := 2; first_name := "Salma"; last_name := "Idrissi";
     oxygen_saturation := Some 85.0%float; heart_rate := Some 110;
     blood_pressure_systolic := None; blood_pressure_diastolic := None;
     temperature := None; chest_pain := Some false;
     triage_level := Some "CRITICAL";
     health_center_id := 3; registered_by := 2 |}.

Definition nurse : Z := 1.
Definition doctor : Z := 2.

Definition demo : Session :=
  {| patients := [patient_clinic; patient_chu];
     health_centers := seeded_centers;
     referrals := [] |}.

(** [demo] after a referral was created for the first patient at clock
    reading 100. *)
Definition demo_created : Session :=
  snd (ReferralService.create_referral demo 1 3 nurse None None 100).

(** A referral created, then accepted without having been sent. *)
Definition history_skipping_send : list (datetime * HistorySpec.Request) :=
  [(100, HistorySpec.Create 1 3 nurse None None);
   (250, HistorySpec.Accept 1 doctor)].

(** A referral created, then sent at a clock reading that lies before the
    one of its creation (the wall clock was set back in between). *)
Definition history_clock_set_back : list (datetime * HistorySpec.Request) :=
  [(100, HistorySpec.Create 1 3 nurse None None);
   (50, HistorySpec.Send 1)].


(** A referral taken through the whole chain. *)
Definition history_full : list (datetime * HistorySpec.Request) :=
  [(100, HistorySpec.AutoCreate 1 nurse);
   (160, HistorySpec.Send 1);
   (250, HistorySpec.Accept 1 doctor);
   (900, HistorySpec.Transfer 1)].

(** The row [demo_created] holds. *)
Definition first_referral : Referral :=
  CreationSpec.fresh_referral demo patient_clinic 3 nurse None None 100.

(** No chest pain, an oxygen saturation of exactly 90.0, nothing else
    measured. *)
Definition patient_borderline : Patient :=
  {| p_id := 3; first_name := "Karim"; last_name := "Bennani";
     oxygen_saturation := Some 90.0%float; heart_rate := None;
     blood_pressure_systolic := None; blood_pressure_diastolic := None;
     temperature := None; chest_pain := Some false;
     triage_level := None;
     health_center_id := 2; registered_by := 1 |}.

(** The nurse of the first Centre de Santé and the doctor of the first
    CHU, as [seed_data.py] creates them. *)
Definition nurse1 : User :=
  mkUser 1 "nurse1" "nurse1@demo.com" "bcrypt-nurse123" "Fatima Alami" "nurse" (Some true) (Some 1).

Definition doctor1 : User :=
  mkUser 2 "doctor1" "doctor1@demo.com" "bcrypt-doctor123" "Dr. Ahmed Benali" "doctor" (Some true) (Some 3).

(** A nurse of the second Centre de Santé. *)
Definition nurse2 : User :=
  mkUser 3 "nurse2" "nurse2@demo.com" "bcrypt-nurse456" "Khadija Amrani" "nurse" (Some true) (Some 2).

(** [demo] after two referrals: one for each patient. *)
Definition demo_two : Session :=
  snd (ReferralService.create_referral demo_created 2 4 doctor None None 180).

End Examples.

(** ** Deliveries *)

Module BroadcastSpec.
Section Transport.

Variable send_fails : WebSocket -> Json -> option Exception.

(** [send_json] on this connection goes through. *)
Definition delivers (message : Json) (c : WebSocket) : bool :=
  match send_fails c message with
  | None => true
  | Some _ => false
  end.

(** The trace one attempted delivery leaves on the wire. *)
Definition attempt_on (message : Json) (c : WebSocket) : Attempt :=
  mkAttempt c message (delivers message c).

End Transport.

(** The registry after [disconnect] was called once, and twice. *)
Definition unsubscribed_once (s : Manager) (w : WebSocket) : Manager :=
  snd (ConnectionManager.disconnect w s).

Definition unsubscribed_twice (s : Manager) (w : WebSocket) : Manager :=
  snd (ConnectionManager.disconnect w (unsubscribed_once s w)).

(** Three subscribers. *)
Definition three_subscribers : Manager :=
  {| active_connections := [11; 12; 13]; wire := [] |}.

(** The second of them is closed. *)
Definition second_closed (c : WebSocket) (_ : Json) : option Exception :=
  if c =? 12 then Some (RuntimeError "Cannot call send once a close message has been sent.")
  else None.

(** The states the manager goes through while the application runs: it
    starts empty; the WebSocket endpoint calls [connect] once for each
    connection it is handed, so never for one that is registered; the
    other methods are called at any time with any argument. *)
Inductive live (accept_fails : WebSocket -> option Exception)
    (send_fails : WebSocket -> Json -> option Exception) : Manager -> Prop :=
| live_init : live accept_fails send_fails ConnectionManager.init
| live_connect (s : Manager) (w : WebSocket) :
    live accept_fails send_fails s ->
    ~ In w (active_connections s) ->
    live accept_fails send_fails (snd (ConnectionManager.connect accept_fails w s))
| live_disconnect (s : Manager) (w : WebSocket) :
    live accept_fails send_fails s ->
    live accept_fails send_fails (snd (ConnectionManager.disconnect w s))
| live_personal (s : Manager) (message : Json) (w : WebSocket) :
    live accept_fails send_fails s ->
    live accept_fails send_fails
      (snd (ConnectionManager.send_personal_message send_fails message w s))
| live_broadcast (s : Manager) (message : Json) :
    live accept_fails send_fails s ->
    live accept_fails send_fails (snd (ConnectionManager.broadcast send_fails message s)).

End BroadcastSpec.

(** ** Case files *)

Module CaseSpec.
Import HistorySpec.

(** [s'] is [s] or a later stage of the chain. *)
Definition forward (s s' : string) : Prop :=
  s' = s
  \/ exists i j, stage_index s = Some i /\ stage_index s' = Some j /\ (i < j)%nat.

(** [r'] is the same case as [r]: what was fixed at creation is as it was,
    and the status has not moved back. *)
Definition same_case (r r' : Referral) : Prop :=
  r_id r' = r_id r
  /\ patient_id r' = patient_id r
  /\ from_center_id r' = from_center_id r
  /\ to_center_id r' = to_center_id r
  /\ priority r' = priority r
  /\ reason r' = reason r
  /\ clinical_notes r' = clinical_notes r
  /\ created_at r' = created_at r
  /\ created_by r' = created_by r
  /\ forward (status r) (status r').

(** [r'] differs from [r] in its destination only. *)
Definition rerouted (r r' : Referral) (chu_id : Z) : Prop :=
  r' = AssignmentService.set_to_center r chu_id
  /\ to_center_id r' = chu_id
  /\ status r' = status r
  /\ priority r' = priority r
  /\ from_center_id r' = from_center_id r
  /\ patient_id r' = patient_id r
  /\ created_at r' = created_at r /\ sent_at r' = sent_at r
  /\ accepted_at r' = accepted_at r /\ transferred_at r' = transferred_at r.

(** A row that is TRANSFERRED is left exactly as it is. *)
Definition closed_case_kept (r r' : Referral) : Prop :=
  status r = "TRANSFERRED" -> r' = r.

End CaseSpec.

(** ** Listings *)

Module ListingSpec.

(** [a] is listed before [b] only if it was not created earlier. *)
Definition newest_first (a b : Referral) : Prop :=
  not_smaller (created_at a) (created_at b) = true.

(** What a user attached to a centre may read: a nurse the referrals that
    leave the centre, a doctor those that arrive there; anyone else,
    everything. *)
Definition visible_to (u : User) (r : Referral) : Prop :=
  match u_health_center_id u with
  | Some k =>
      if k =? 0 then True
      else if String.eqb (role u) "nurse" then from_center_id r = k
      else if String.eqb (role u) "doctor" then to_center_id r = k
      else True
  | None => True
  end.

End ListingSpec.

(** ** Routes *)

Module RouteSpec.

(** How a writing route reports its service call: a referral the service
    returned is returned, with the session the service left and one
    broadcast made, whatever the subscribers do; a [ValueError] becomes a
    400 with the same text, and the process is as it was. *)
Definition reports (service : call Referral)
    (route : (WebSocket -> Json -> option Exception) -> result Referral * App)
    (app : App) : Prop :=
  match service with
  | (Return referral, db') =>
      forall send_fails,
        fst (route send_fails) = Return referral
        /\ session (snd (route send_fails)) = db'
        /\ exists payload,
             manager (snd (route send_fails))
             = snd (ConnectionManager.broadcast send_fails payload (manager app))
  | (Raise (ValueError msg), _) =>
      forall send_fails, route send_fails = (Raise (HTTPException 400 msg), app)
  | (Raise _, _) => False
  end.

(** A service call of the lifecycle either returns, or raises a
    [ValueError] and leaves the session as it was. *)
Definition returns_or_value_error (db : Session) (c : call Referral) : Prop :=
  (exists r' db', c = (Return r', db'))
  \/ (exists msg, c = (Raise (ValueError msg), db)).

End RouteSpec.

(** ** A sample process *)

Module RouteExamples.

(** The process with [Examples.demo_created] as its session and three
    subscribers, the second of which is closed. *)
Definition demo_app : App :=
  {| session := Examples.demo_created; manager := BroadcastSpec.three_subscribers |}.

End RouteExamples.

(** * Properties *)

(** ** Triage rules *)

Module TriageFacts.
Import TriageService TriageSpec.

Lemma truthy_bool_set (b : option bool) : truthy_bool b = true <-> b = Some true.
Proof.
  destruct b as [[|]|]; simpl; split; intro H; try reflexivity; discriminate.
Qed.

Lemma oxygen_rule_spec (p : Patient) :
  match oxygen_saturation p with
  | Some spo2 => PrimFloat.ltb spo2 CRITICAL_OXYGEN_THRESHOLD
  | None => false
  end = true <-> oxygen_low p.
Proof.
  unfold oxygen_low, CRITICAL_OXYGEN_THRESHOLD.
  destruct (oxygen_saturation p) as [x|]; split.
  - intro H. exists x. split; [reflexivity | exact H].
  - intros (y & Hy & Hlt). injection Hy as ->. exact Hlt.
  - discriminate.
  - intros (y & Hy & _). discriminate.
Qed.

Lemma heart_rule_spec (p : Patient) :
  match heart_rate p with
  | Some hr => (hr >? 150) || (hr <? 40)
  | None => false
  end = true <-> heart_rate_out p.
Proof.
  unfold heart_rate_out.
  destruct (heart_rate p) as [h|]; split.
  - intro H. exists h. split; [reflexivity | ].
    apply orb_true_iff in H. destruct H as [H | H]; [left | right]; lia.
  - intros (y & Hy & Hout). injection Hy as ->.
    apply orb_true_iff. destruct Hout; [left | right]; lia.
  - discriminate.
  - intros (y & Hy & _). discriminate.
Qed.

Lemma systolic_rule_spec (p : Patient) :
  match blood_pressure_systolic p with
  | Some bp => (bp >? 180) || (bp <? 80)
  | None => false
  end = true <-> systolic_out p.
Proof.
  unfold systolic_out.
  destruct (blood_pressure_systolic p) as [b|]; split.
  - intro H. exists b. split; [reflexivity | ].
    apply orb_true_iff in H. destruct H as [H | H]; [left | right]; lia.
  - intros (y & Hy & Hout). injection Hy as ->.
    apply orb_true_iff. destruct Hout; [left | right]; lia.
  - discriminate.
  - intros (y & Hy & _). discriminate.
Qed.

(** The function has exactly two values, decided by the rules. *)
Lemma assess_cases (p : Patient) :
  (any_rule p /\ assess_triage_level p = "CRITICAL")
  \/ (~ any_rule p /\ assess_triage_level p = "URGENT").
Proof.
  unfold assess_triage_level, any_rule.
  destruct (truthy_bool (chest_pain p)) eqn:Hc.
  { left. split; [left; apply truthy_bool_set, Hc | reflexivity]. }
  destruct (match oxygen_saturation p with Some _ => _ | None => _ end) eqn:Ho.
  { left. split; [right; left; apply oxygen_rule_spec, Ho | reflexivity]. }
  destruct (match heart_rate p with Some _ => _ | None => _ end) eqn:Hh.
  { left. split; [right; right; left; apply heart_rule_spec, Hh | reflexivity]. }
  destruct (match blood_pressure_systolic p with Some _ => _ | None => _ end) eqn:Hb.
  { left. split; [right; right; right; apply systolic_rule_spec, Hb | reflexivity]. }
  right. split; [ | reflexivity].
  intros [H | [H | [H | H]]].
  - apply truthy_bool_set in H. congruence.
  - apply oxygen_rule_spec in H. congruence.
  - apply heart_rule_spec in H. congruence.
  - apply systolic_rule_spec in H. congruence.
Qed.

(** C2.  [assess_triage_level] returns a value for every patient record:
    ["CRITICAL"] exactly when one of the four rules fires (chest pain set;
    oxygen saturation present and strictly below 90.0; heart rate present
    and above 150 or below 40; systolic pressure present and above 180 or
    below 80), ["URGENT"] exactly when none does, and never ["NORMAL"].
    Absent vitals fire no rule.  The oxygen bound is strict: a reading of
    exactly 90.0 does not fire the oxygen rule, one of 89.9 does, and a
    patient whose only reading is 90.0 is ["URGENT"]. *)
Theorem assess_triage_level_rules (p : Patient) :
  (assess_triage_level p = "CRITICAL" <-> any_rule p)
  /\ (assess_triage_level p = "URGENT" <-> ~ any_rule p)
  /\ assess_triage_level p <> "NORMAL"
  /\ (chest_pain p = None -> ~ chest_pain_set p)
  /\ (oxygen_saturation p = None -> ~ oxygen_low p)
  /\ (heart_rate p = None -> ~ heart_rate_out p)
  /\ (blood_pressure_systolic p = None -> ~ systolic_out p)
  /\ (oxygen_saturation p = Some 90.0%float -> ~ oxygen_low p)
  /\ (oxygen_saturation p = Some 89.9%float -> oxygen_low p)
  /\ (oxygen_saturation p = Some 90.0%float ->
      ~ chest_pain_set p -> ~ heart_rate_out p -> ~ systolic_out p ->
      assess_triage_level p = "URGENT").
Proof.
  assert (Hne : "CRITICAL" <> "URGENT") by discriminate.
  repeat split.
  - intro H. destruct (assess_cases p) as [[Hr _] | [_ Hu]]; [exact Hr | congruence].
  - intro H. destruct (assess_cases p) as [[_ Hc] | [Hn _]]; [exact Hc | contradiction].
  - intros H Hr. destruct (assess_cases p) as [[_ Hc] | [Hn _]]; [congruence | contradiction].
  - intro H. destruct (assess_cases p) as [[Hr _] | [_ Hu]]; [contradiction | exact Hu].
  - destruct (assess_cases p) as [[_ H] | [_ H]]; rewrite H; discriminate.
  - unfold chest_pain_set. congruence.
  - intros H (x & Hx & _). congruence.
  - intros H (x & Hx & _). congruence.
  - intros H (x & Hx & _). congruence.
  - intros H (x & Hx & Hlt). rewrite H in Hx. injection Hx as <-.
    vm_compute in Hlt. discriminate.
  - intro H. exists 89.9%float. split; [exact H | vm_compute; reflexivity].
  - intros H Hc Hh Hb.
    destruct (assess_cases p) as [[Hr _] | [_ Hu]]; [ | exact Hu].
    destruct Hr as [Hr | [(x & Hx & Hlt) | [Hr | Hr]]]; try contradiction.
    rewrite H in Hx. injection Hx as <-. vm_compute in Hlt. discriminate.
Qed.

(** On the sample patients: chest pain is CRITICAL, an oxygen saturation
    of 85.0 is CRITICAL, one of exactly 90.0 with nothing else is URGENT. *)
Lemma assess_triage_level_rules_demo :
  assess_triage_level Examples.patient_clinic = "CRITICAL"
  /\ assess_triage_level Examples.patient_chu = "CRITICAL"
  /\ assess_triage_level Examples.patient_borderline = "URGENT".
Proof.
  destruct (assess_triage_level_rules Examples.patient_clinic) as (Hc1 & _).
  destruct (assess_triage_level_rules Examples.patient_chu) as (Hc2 & _).
  destruct (assess_triage_level_rules Examples.patient_borderline)
    as (_ & _ & _ & _ & _ & Hh & Hb & _ & _ & Hu).
  split; [apply Hc1; left; reflexivity | ].
  split.
  - apply Hc2. right; left. exists 85.0%float. split; reflexivity.
  - apply Hu; [reflexivity | discriminate | apply Hh; reflexivity | apply Hb; reflexivity].
Defined.

End TriageFacts.

(** ** Rows and queries *)

Lemma query_referral_id (db : Session) (id : Z) (r : Referral) :
  query_referral db id = Some r -> r_id r = id.
Proof.
  unfold query_referral. intro H. apply find_some in H. lia.
Qed.

Lemma query_referral_In (db : Session) (id : Z) (r : Referral) :
  query_referral db id = Some r -> In r (referrals db).
Proof.
  unfold query_referral. intro H. apply find_some in H. tauto.
Qed.

Lemma find_replace_row (id : Z) (r r' : Referral) (rs : list Referral) :
  find (fun x => r_id x =? id) rs = Some r ->
  r_id r' = id ->
  find (fun x => r_id x =? id) (replace_row id r' rs) = Some r'.
Proof.
  intros Hf Hid. induction rs as [|x rest IH]; simpl in *; [discriminate | ].
  destruct (r_id x =? id) eqn:E; simpl.
  - rewrite Hid, Z.eqb_refl. reflexivity.
  - rewrite E. apply IH, Hf.
Qed.

(** After the commit the loaded row reads back as it was written. *)
Lemma query_after_commit (db : Session) (id : Z) (r r' : Referral) :
  query_referral db id = Some r ->
  r_id r' = id ->
  query_referral (commit_referral db r') id = Some r'.
Proof.
  intros Hq Hid. unfold query_referral, commit_referral; simpl.
  rewrite Hid. eapply find_replace_row; eassumption.
Qed.

Lemma map_replace_row {A : Type} (f : Referral -> A) (id : Z) (r r' : Referral)
    (rs : list Referral) :
  find (fun x => r_id x =? id) rs = Some r ->
  f r' = f r ->
  map f (replace_row id r' rs) = map f rs.
Proof.
  intros Hf Heq. induction rs as [|x rest IH]; simpl in *; [reflexivity | ].
  destruct (r_id x =? id) eqn:E; simpl.
  - injection Hf as ->. rewrite Heq. reflexivity.
  - rewrite IH by assumption. reflexivity.
Qed.

Lemma Forall_replace_row (P : Referral -> Prop) (id : Z) (r' : Referral)
    (rs : list Referral) :
  Forall P rs -> P r' -> Forall P (replace_row id r' rs).
Proof.
  intros HF Hr. induction HF as [|x rest Hx HF IH]; simpl; [constructor | ].
  destruct (r_id x =? id); constructor; assumption.
Qed.

Lemma query_health_center_id (db : Session) (id : Z) (h : HealthCenter) :
  query_health_center db id = Some h -> hc_id h = id.
Proof.
  unfold query_health_center. intro H. apply find_some in H. lia.
Qed.

Lemma query_patient_id (db : Session) (id : Z) (p : Patient) :
  query_patient db id = Some p -> p_id p = id.
Proof.
  unfold query_patient. intro H. apply find_some in H. lia.
Qed.

Lemma seeded_keys_distinct : NoDup (map hc_id Examples.seeded_centers).
Proof.
  repeat constructor; cbn; intuition discriminate.
Qed.

(** ** Creation *)

Module CreationFacts.
Import ReferralService CreationSpec.

(** What [create_referral] does once its three lookups succeed and the
    destination is a CHU. *)
Lemma create_referral_ok (db : Session) (pid to_id uid : Z)
    (why notes : option string) (now : datetime)
    (p : Patient) (f t : HealthCenter) :
  query_patient db pid = Some p ->
  query_health_center db (health_center_id p) = Some f ->
  query_health_center db to_id = Some t ->
  center_type t = "CHU" ->
  create_referral db pid to_id uid why notes now
  = created db (fresh_referral db p to_id uid why notes now).
Proof.
  intros Hp Hf Ht Hchu. unfold create_referral, created, fresh_referral.
  rewrite Hp, Hf, Ht, Hchu. cbn [String.eqb negb].
  rewrite (query_health_center_id _ _ _ Hf), (query_patient_id _ _ _ Hp).
  reflexivity.
Qed.

(** A creation that raises has written nothing. *)
Lemma create_referral_raise_unchanged (db db' : Session) (pid to_id uid : Z)
    (why notes : option string) (now : datetime) (e : Exception) :
  create_referral db pid to_id uid why notes now = (Raise e, db') -> db' = db.
Proof.
  intro H. unfold create_referral in H.
  destruct (query_patient db pid) as [p|]; [ | injection H as _ <-; auto].
  destruct (query_health_center db (health_center_id p)) as [f|];
    [ | injection H as _ <-; auto].
  destruct (query_health_center db to_id) as [t|]; [ | injection H as _ <-; auto].
  destruct (negb (String.eqb (center_type t) "CHU")); [injection H as _ <-; auto | ].
  discriminate.
Qed.

(** C7.  [create_referral] raises, and leaves the session (so its referral
    table) untouched, in each of these cases, tried in this order:
    the patient is not found ([ValueError] "Patient with ID … not found");
    the patient is found but the patient's own centre or the requested
    destination is not ([ValueError] "Invalid health center ID");
    all three are found but the destination's [center_type] is not ["CHU"]
    ([ValueError] "Destination must be a CHU"). *)
Theorem create_referral_rejections (db : Session) (pid to_id uid : Z)
    (why notes : option string) (now : datetime) :
  (query_patient db pid = None ->
     create_referral db pid to_id uid why notes now
     = (Raise (ValueError ("Patient with ID " ++ str_int pid ++ " not found")), db))
  /\ (forall p, query_patient db pid = Some p ->
        query_health_center db (health_center_id p) = None
        \/ query_health_center db to_id = None ->
        create_referral db pid to_id uid why notes now
        = (Raise (ValueError "Invalid health center ID"), db))
  /\ (forall p f t, query_patient db pid = Some p ->
        query_health_center db (health_center_id p) = Some f ->
        query_health_center db to_id = Some t ->
        center_type t <> "CHU" ->
        create_referral db pid to_id uid why notes now
        = (Raise (ValueError "Destination must be a CHU"), db))
  /\ (forall e db', create_referral db pid to_id uid why notes now = (Raise e, db') ->
        db' = db /\ referrals db' = referrals db).
Proof.
  repeat match goal with |- _ /\ _ => split end.
  - intro Hp. unfold create_referral. rewrite Hp. reflexivity.
  - intros p Hp [Hf | Ht]; unfold create_referral; rewrite Hp.
    + rewrite Hf. reflexivity.
    + rewrite Ht. destruct (query_health_center db (health_center_id p)); reflexivity.
  - intros p f t Hp Hf Ht Hchu. unfold create_referral. rewrite Hp, Hf, Ht.
    destruct (String.eqb_spec (center_type t) "CHU") as [E | E]; [contradiction | ].
    reflexivity.
  - intros e db' H. apply create_referral_raise_unchanged in H. subst db'. auto.
Qed.

(** Every successful creation went through the three lookups. *)
Lemma create_referral_returns (db db' : Session) (pid to_id uid : Z)
    (why notes : option string) (now : datetime) (r : Referral) :
  create_referral db pid to_id uid why notes now = (Return r, db') ->
  exists p f t,
    query_patient db pid = Some p
    /\ query_health_center db (health_center_id p) = Some f
    /\ query_health_center db to_id = Some t
    /\ center_type t = "CHU"
    /\ r = fresh_referral db p to_id uid why notes now
    /\ db' = insert_referral db r.
Proof.
  intro H.
  destruct (query_patient db pid) as [p|] eqn:Hp;
    [ | unfold create_referral in H; rewrite Hp in H; discriminate].
  destruct (query_health_center db (health_center_id p)) as [f|] eqn:Hf;
    [ | unfold create_referral in H; rewrite Hp, Hf in H; discriminate].
  destruct (query_health_center db to_id) as [t|] eqn:Ht;
    [ | unfold create_referral in H; rewrite Hp, Hf, Ht in H; discriminate].
  destruct (String.eqb_spec (center_type t) "CHU") as [E | E].
  - rewrite (create_referral_ok db pid to_id uid why notes now p f t Hp Hf Ht E) in H.
    unfold created in H. injection H as <- <-.
    exists p, f, t. repeat split; assumption.
  - unfold create_referral in H. rewrite Hp, Hf, Ht in H.
    apply String.eqb_neq in E. rewrite E in H. discriminate.
Qed.

(** C4 (as amended).  When the patient, the patient's centre and the
    requested destination are found and the destination is a CHU,
    [create_referral] goes through and appends exactly one row, whose origin
    is the patient's centre and whose destination is the requested one; no
    comparison of the two is made.  Origin and destination of the stored
    row differ exactly when the patient's centre is not the requested
    destination, which is the case whenever the patient's centre is not
    itself a CHU. *)
Theorem create_referral_origin_destination (db : Session) (pid to_id uid : Z)
    (why notes : option string) (now : datetime)
    (p : Patient) (f t : HealthCenter)
    (Hp : query_patient db pid = Some p)
    (Hf : query_health_center db (health_center_id p) = Some f)
    (Ht : query_health_center db to_id = Some t)
    (Hchu : center_type t = "CHU") :
  exists r,
    create_referral db pid to_id uid why notes now = (Return r, insert_referral db r)
    /\ referrals (insert_referral db r) = (referrals db ++ [r])%list
    /\ status r = "CREATED"
    /\ from_center_id r = health_center_id p
    /\ to_center_id r = to_id
    /\ (from_center_id r <> to_center_id r <-> health_center_id p <> to_id)
    /\ (center_type f <> "CHU" -> from_center_id r <> to_center_id r).
Proof.
  exists (fresh_referral db p to_id uid why notes now).
  split; [apply (create_referral_ok db pid to_id uid why notes now p f t); assumption | ].
  cbn [fresh_referral from_center_id to_center_id status insert_referral
       with_referrals referrals].
  repeat split; try tauto.
  intros Hn Heq. apply Hn. rewrite Heq in Hf. congruence.
Qed.

(** C6.  The priority of a newly created referral is the patient's triage
    level when one is set (a non-empty string) and ["CRITICAL"] when it is
    unset ([None], or the empty string, which [or] treats alike); creation
    leaves the priorities of the rows already stored as they were; and
    [send_referral], [accept_referral] and [mark_transferred] leave the
    priority of every stored row, and of the row they return, as it was. *)
Theorem priority_fixed_at_creation :
  (forall db db' pid to_id uid why notes now p r,
      query_patient db pid = Some p ->
      create_referral db pid to_id uid why notes now = (Return r, db') ->
      (forall l, triage_level p = Some l -> l <> "" -> priority r = l)
      /\ (triage_level p = None \/ triage_level p = Some "" -> priority r = "CRITICAL")
      /\ map priority (referrals db') = (map priority (referrals db) ++ [priority r])%list)
  /\ (forall db id by_user now,
        map priority (referrals (snd (send_referral db id now)))
        = map priority (referrals db)
        /\ map priority (referrals (snd (accept_referral db id by_user now)))
           = map priority (referrals db)
        /\ map priority (referrals (snd (mark_transferred db id now)))
           = map priority (referrals db))
  /\ (forall db id by_user now r r',
        query_referral db id = Some r ->
        fst (send_referral db id now) = Return r'
        \/ fst (accept_referral db id by_user now) = Return r'
        \/ fst (mark_transferred db id now) = Return r' ->
        priority r' = priority r).
Proof.
  split; [ | split].
  - intros db db' pid to_id uid why notes now p r Hp Hc.
    apply create_referral_returns in Hc.
    destruct Hc as (p' & f & t & Hp' & _ & _ & _ & -> & ->).
    rewrite Hp in Hp'. injection Hp' as <-.
    cbn [fresh_referral priority insert_referral with_referrals referrals].
    repeat split.
    + intros l Hl Hne. rewrite Hl. destruct l; [contradiction | reflexivity].
    + intros [Hl | Hl]; rewrite Hl; reflexivity.
    + rewrite map_app. reflexivity.
  - intros db id by_user now.
    unfold send_referral, accept_referral, mark_transferred.
    destruct (query_referral db id) as [r|] eqn:Hq; [ | auto].
    repeat split.
    + destruct (negb (String.eqb (status r) "CREATED")); [reflexivity | ].
      cbn [snd commit_referral with_referrals referrals set_sent r_id].
      unfold query_referral in Hq. rewrite (query_referral_id _ _ _ Hq).
      eapply map_replace_row; [exact Hq | reflexivity].
    + destruct (negb (existsb (String.eqb (status r)) ["CREATED"; "SENT"]));
        [reflexivity | ].
      cbn [snd commit_referral with_referrals referrals set_accepted r_id].
      unfold query_referral in Hq. rewrite (query_referral_id _ _ _ Hq).
      eapply map_replace_row; [exact Hq | reflexivity].
    + destruct (negb (String.eqb (status r) "ACCEPTED")); [reflexivity | ].
      cbn [snd commit_referral with_referrals referrals set_transferred r_id].
      unfold query_referral in Hq. rewrite (query_referral_id _ _ _ Hq).
      eapply map_replace_row; [exact Hq | reflexivity].
  - intros db id by_user now r r' Hq H.
    unfold send_referral, accept_referral, mark_transferred in H. rewrite Hq in H.
    destruct H as [H | [H | H]].
    + destruct (negb (String.eqb (status r) "CREATED")); [discriminate | ].
      injection H as <-. reflexivity.
    + destruct (negb (existsb (String.eqb (status r)) ["CREATED"; "SENT"]));
        [discriminate | ].
      injection H as <-. reflexivity.
    + destruct (negb (String.eqb (status r) "ACCEPTED")); [discriminate | ].
      injection H as <-. reflexivity.
Qed.

(** Under the primary key of [health_centers], the row a filter on
    [center_type] returns is the row stored under its own key. *)
Lemma query_center_of_type_by_id (db : Session) (ty : string) (h : HealthCenter) :
  NoDup (map hc_id (health_centers db)) ->
  query_center_of_type db ty = Some h ->
  query_health_center db (hc_id h) = Some h /\ center_type h = ty.
Proof.
  unfold query_center_of_type, query_health_center.
  induction (health_centers db) as [|x rest IH]; simpl; intros Hnd Hfind;
    [discriminate | ].
  inversion Hnd as [|? ? Hnotin Hnd']; subst.
  destruct (String.eqb_spec (center_type x) ty) as [E | E].
  - injection Hfind as <-. rewrite Z.eqb_refl. auto.
  - destruct (hc_id x =? hc_id h) eqn:Eid.
    + exfalso. apply Hnotin. apply Z.eqb_eq in Eid. rewrite Eid.
      apply in_map. apply find_some in Hfind. tauto.
    + apply IH; assumption.
Qed.

Lemma should_create_referral_spec (p : Patient) (db : Session) :
  TriageService.should_create_referral p db = true
  <-> triage_level p = Some "CRITICAL"
      /\ exists h, query_health_center db (health_center_id p) = Some h
                   /\ center_type h = "Centre de Santé".
Proof.
  unfold TriageService.should_create_referral.
  destruct (triage_level p) as [l|]; cbn [negb].
  - destruct (String.eqb_spec l "CRITICAL") as [E | E]; cbn [negb].
    + subst l.
      destruct (query_health_center db (health_center_id p)) as [h|].
      * destruct (String.eqb_spec (center_type h) "Centre de Santé") as [T | T].
        -- split; [intros _ | reflexivity]. split; [reflexivity | ]. exists h. auto.
        -- split; [discriminate | ]. intros (_ & h' & Hh & Hty).
           injection Hh as <-. contradiction.
      * split; [discriminate | ]. intros (_ & h' & Hh & _). discriminate.
    + split; [discriminate | ]. intros (Hl & _). injection Hl as ->. contradiction.
  - split; [discriminate | ]. intros (Hl & _). discriminate.
Qed.

(** The three ways [auto_create_referral_for_critical_patient] ends for a
    stored patient. *)
Lemma auto_create_cases (db : Session) (pid uid : Z) (now : datetime) (p : Patient) :
  query_patient db pid = Some p ->
  NoDup (map hc_id (health_centers db)) ->
  (TriageService.should_create_referral p db = false
   /\ auto_create_referral_for_critical_patient db pid uid now = (Return None, db))
  \/ (TriageService.should_create_referral p db = true
      /\ query_center_of_type db "CHU" = None
      /\ auto_create_referral_for_critical_patient db pid uid now = (Return None, db))
  \/ (TriageService.should_create_referral p db = true
      /\ exists chu,
          query_center_of_type db "CHU" = Some chu
          /\ auto_create_referral_for_critical_patient db pid uid now
             = (Return (Some (auto_referral db p chu uid now)),
                insert_referral db (auto_referral db p chu uid now))).
Proof.
  intros Hp Hpk. unfold auto_create_referral_for_critical_patient. rewrite Hp.
  destruct (TriageService.should_create_referral p db) eqn:Hs; cbn [negb];
    [ | left; auto].
  right. destruct (query_center_of_type db "CHU") as [chu|] eqn:Hchu; [ | left; auto].
  right. split; [reflexivity | ]. exists chu. split; [reflexivity | ].
  destruct (query_center_of_type_by_id db "CHU" chu Hpk Hchu) as [Hid Hty].
  apply should_create_referral_spec in Hs. destruct Hs as (_ & f & Hf & _).
  rewrite (create_referral_ok db pid (hc_id chu) uid _ _ now p f chu Hp Hf Hid Hty).
  reflexivity.
Qed.

(** C3.  For a stored patient, in a session whose health centres have
    distinct keys: [should_create_referral] holds exactly when the
    patient's triage level is ["CRITICAL"] and the patient's centre is found
    and is a ["Centre de Santé"]; automatic creation appends a referral only
    if it holds; when it holds and no CHU is stored, the call returns [None]
    without raising and without writing; when it holds and a CHU is stored,
    the call returns a referral of status ["CREATED"] for this patient, from
    the patient's centre to the first CHU, and the table grows by exactly
    that row. *)
Theorem auto_creation_rule (db : Session) (pid uid : Z) (now : datetime) (p : Patient)
    (Hp : query_patient db pid = Some p)
    (Hpk : NoDup (map hc_id (health_centers db))) :
  (TriageService.should_create_referral p db = true
   <-> triage_level p = Some "CRITICAL"
       /\ exists h, query_health_center db (health_center_id p) = Some h
                    /\ center_type h = "Centre de Santé")
  /\ (TriageService.should_create_referral p db = false ->
        auto_create_referral_for_critical_patient db pid uid now = (Return None, db))
  /\ (TriageService.should_create_referral p db = true ->
      query_center_of_type db "CHU" = None ->
        auto_create_referral_for_critical_patient db pid uid now = (Return None, db))
  /\ (TriageService.should_create_referral p db = true ->
      forall chu, query_center_of_type db "CHU" = Some chu ->
        exists r,
          auto_create_referral_for_critical_patient db pid uid now
          = (Return (Some r), insert_referral db r)
          /\ referrals (insert_referral db r) = (referrals db ++ [r])%list
          /\ status r = "CREATED"
          /\ patient_id r = pid
          /\ from_center_id r = health_center_id p
          /\ to_center_id r = hc_id chu
          /\ center_type chu = "CHU"
          /\ priority r = "CRITICAL"
          /\ r_id r = next_id (referrals db))
  /\ ((exists r db', auto_create_referral_for_critical_patient db pid uid now
                     = (Return (Some r), db')) ->
        TriageService.should_create_referral p db = true
        /\ exists chu, query_center_of_type db "CHU" = Some chu)
  /\ (forall e db', auto_create_referral_for_critical_patient db pid uid now
                    <> (Raise e, db')).
Proof.
  pose proof (auto_create_cases db pid uid now p Hp Hpk) as Hcases.
  repeat match goal with |- _ /\ _ => split end.
  - apply should_create_referral_spec.
  - intro Hs. destruct Hcases as [[_ E] | [(Hs' & _) | (Hs' & _)]]; congruence.
  - intros Hs Hnone.
    destruct Hcases as [[Hs' _] | [(_ & _ & E) | (_ & chu & Hc & _)]]; congruence.
  - intros Hs chu Hchu.
    destruct Hcases as [[Hs' _] | [(_ & Hc & _) | (_ & chu' & Hc & E)]]; try congruence.
    rewrite Hchu in Hc. injection Hc as <-.
    exists (auto_referral db p chu uid now). split; [exact E | ].
    destruct (query_center_of_type_by_id db "CHU" chu Hpk Hchu) as [_ Hty].
    apply should_create_referral_spec in Hs. destruct Hs as (Hl & _).
    unfold auto_referral.
    cbn [fresh_referral insert_referral with_referrals referrals status patient_id
         from_center_id to_center_id priority r_id].
    rewrite Hl, (query_patient_id _ _ _ Hp). repeat split; auto.
  - intros (r & db' & E).
    destruct Hcases as [[_ E'] | [(_ & _ & E') | (Hs & chu & Hc & _)]];
      try (rewrite E' in E; discriminate).
    split; [exact Hs | exists chu; exact Hc].
  - intros e db' E.
    destruct Hcases as [[_ E'] | [(_ & _ & E') | (_ & chu & _ & E')]];
      rewrite E' in E; discriminate.
Qed.

(** On the sample data: an unknown patient, an unknown destination, and a
    destination that is a Centre de Santé. *)
Lemma create_referral_rejections_demo :
  create_referral Examples.demo 9 3 Examples.nurse None None 100
  = (Raise (ValueError "Patient with ID 9 not found"), Examples.demo)
  /\ create_referral Examples.demo 1 8 Examples.nurse None None 100
     = (Raise (ValueError "Invalid health center ID"), Examples.demo)
  /\ create_referral Examples.demo 1 2 Examples.nurse None None 100
     = (Raise (ValueError "Destination must be a CHU"), Examples.demo).
Proof.
  destruct (create_referral_rejections Examples.demo 9 3 Examples.nurse None None 100)
    as (H1 & _).
  destruct (create_referral_rejections Examples.demo 1 8 Examples.nurse None None 100)
    as (_ & H2 & _).
  destruct (create_referral_rejections Examples.demo 1 2 Examples.nurse None None 100)
    as (_ & _ & H3 & _).
  split; [exact (H1 eq_refl) | ].
  split; [exact (H2 Examples.patient_clinic eq_refl (or_intror eq_refl)) | ].
  apply (H3 Examples.patient_clinic Examples.centre_ibn_sina Examples.centre_al_kindi);
    try reflexivity.
  discriminate.
Defined.

(** On the sample data: the patient of the first Centre de Santé referred
    to the first CHU. *)
Lemma create_referral_origin_destination_demo :
  exists r,
    create_referral Examples.demo 1 3 Examples.nurse None None 100
    = (Return r, insert_referral Examples.demo r)
    /\ from_center_id r = 1 /\ to_center_id r = 3
    /\ from_center_id r <> to_center_id r.
Proof.
  destruct (create_referral_origin_destination Examples.demo 1 3 Examples.nurse
              None None 100 Examples.patient_clinic Examples.centre_ibn_sina
              Examples.chu_ibn_rochd eq_refl eq_refl eq_refl eq_refl)
    as (r & Hc & _ & _ & Hf & Ht & _ & Hne).
  exists r. repeat split; try assumption.
  apply Hne. discriminate.
Defined.

(** A patient registered at a CHU, referred to that same CHU: the three
    lookups succeed, the destination is a CHU, the call returns, and the
    stored row has the CHU as origin and as destination. *)
Lemma create_referral_same_origin_and_destination :
  query_patient Examples.demo 2 = Some Examples.patient_chu
  /\ query_health_center Examples.demo (health_center_id Examples.patient_chu)
     = Some Examples.chu_ibn_rochd
  /\ query_health_center Examples.demo 3 = Some Examples.chu_ibn_rochd
  /\ center_type Examples.chu_ibn_rochd = "CHU"
  /\ health_center_id Examples.patient_chu = 3
  /\ exists r,
       create_referral Examples.demo 2 3 Examples.doctor None None 100
       = (Return r, insert_referral Examples.demo r)
       /\ referrals (insert_referral Examples.demo r) = [r]
       /\ from_center_id r = 3
       /\ to_center_id r = 3.
Proof.
  repeat match goal with |- _ /\ _ => split end; try reflexivity.
  eexists. split; [vm_compute; reflexivity | ]. repeat split.
Qed.

(** On the sample data: the priority of a referral created for an assessed
    patient is the patient's level. *)
Lemma priority_fixed_at_creation_demo :
  priority Examples.first_referral = "CRITICAL"
  /\ map priority (referrals (snd (send_referral Examples.demo_created 1 160)))
     = ["CRITICAL"].
Proof.
  destruct priority_fixed_at_creation as (Hc & Ht & _).
  split.
  - destruct (Hc Examples.demo Examples.demo_created 1 3 Examples.nurse None None 100
                Examples.patient_clinic Examples.first_referral eq_refl eq_refl)
      as (Hl & _).
    apply Hl; [reflexivity | discriminate].
  - destruct (Ht Examples.demo_created 1 Examples.doctor 160) as (Hs & _).
    rewrite Hs. reflexivity.
Defined.

(** On the sample data: the critical patient of the Centre de Santé gets a
    referral to the first CHU; the critical patient of the CHU gets none. *)
Lemma auto_creation_rule_demo :
  (exists r,
     auto_create_referral_for_critical_patient Examples.demo 1 Examples.nurse 100
     = (Return (Some r), insert_referral Examples.demo r)
     /\ status r = "CREATED" /\ to_center_id r = 3)
  /\ auto_create_referral_for_critical_patient Examples.demo 2 Examples.doctor 100
     = (Return None, Examples.demo).
Proof.
  split.
  - destruct (auto_creation_rule Examples.demo 1 Examples.nurse 100
                Examples.patient_clinic eq_refl seeded_keys_distinct)
      as (_ & _ & _ & Hsome & _).
    destruct (Hsome eq_refl Examples.chu_ibn_rochd eq_refl)
      as (r & Hc & _ & Hs & _ & _ & Ht & _).
    exists r. repeat split; assumption.
  - destruct (auto_creation_rule Examples.demo 2 Examples.doctor 100
                Examples.patient_chu eq_refl seeded_keys_distinct)
      as (_ & Hnone & _).
    apply Hnone. reflexivity.
Defined.

End CreationFacts.

(** ** Transitions of the lifecycle *)

Module LifecycleFacts.
Import ReferralService LifecycleSpec.

Lemma send_referral_cases (db : Session) (id : Z) (r : Referral) (now : datetime) :
  query_referral db id = Some r ->
  (status r = "CREATED" /\ send_referral db id now = committed (set_sent r now) db)
  \/ (status r <> "CREATED" /\ send_referral db id now = refused "send" r db).
Proof.
  intro Hq. unfold send_referral. rewrite Hq.
  destruct (String.eqb_spec (status r) "CREATED") as [E | E]; cbn [negb].
  - left. split; [exact E | reflexivity].
  - right. split; [exact E | reflexivity].
Qed.

Lemma accept_referral_cases (db : Session) (id by_user : Z) (r : Referral)
    (now : datetime) :
  query_referral db id = Some r ->
  ((status r = "CREATED" \/ status r = "SENT")
   /\ accept_referral db id by_user now = committed (set_accepted r now by_user) db)
  \/ (status r <> "CREATED" /\ status r <> "SENT"
      /\ accept_referral db id by_user now = refused "accept" r db).
Proof.
  intro Hq. unfold accept_referral. rewrite Hq. cbn [existsb].
  destruct (String.eqb_spec (status r) "CREATED") as [E1 | E1];
    destruct (String.eqb_spec (status r) "SENT") as [E2 | E2]; cbn [orb negb].
  - left. split; [left; assumption | reflexivity].
  - left. split; [left; assumption | reflexivity].
  - left. split; [right; assumption | reflexivity].
  - right. repeat split; assumption.
Qed.

Lemma mark_transferred_cases (db : Session) (id : Z) (r : Referral) (now : datetime) :
  query_referral db id = Some r ->
  (status r = "ACCEPTED"
   /\ mark_transferred db id now = committed (set_transferred r now) db)
  \/ (status r <> "ACCEPTED" /\ mark_transferred db id now = refused "transfer" r db).
Proof.
  intro Hq. unfold mark_transferred. rewrite Hq.
  destruct (String.eqb_spec (status r) "ACCEPTED") as [E | E]; cbn [negb].
  - left. split; [exact E | reflexivity].
  - right. split; [exact E | reflexivity].
Qed.

(** C1.  For a referral [r] stored under [id]:
    - [send_referral] goes through exactly when the status is ["CREATED"],
      and then the row has status ["SENT"] and its sent timestamp;
    - [accept_referral] goes through exactly when the status is ["CREATED"]
      or ["SENT"], and then the row has status ["ACCEPTED"], its accepted
      timestamp and the accepter's identity;
    - [mark_transferred] goes through exactly when the status is
      ["ACCEPTED"], and then the row has status ["TRANSFERRED"] and its
      transferred timestamp;
    - from any other status the call raises the [ValueError] that names the
      operation and the status found, and the session (hence the stored
      row, its status and its four timestamps) is exactly what it was. *)
Theorem transitions_guarded (db : Session) (id by_user : Z) (r : Referral)
    (now : datetime) (Hq : query_referral db id = Some r) :
  (* send *)
  (status r = "CREATED" ->
     send_referral db id now = committed (set_sent r now) db
     /\ query_referral (snd (send_referral db id now)) id = Some (set_sent r now)
     /\ status (set_sent r now) = "SENT"
     /\ sent_at (set_sent r now) = Some now)
  /\ (status r <> "CREATED" ->
        send_referral db id now = refused "send" r db
        /\ snd (send_referral db id now) = db
        /\ query_referral (snd (send_referral db id now)) id = Some r)
  /\ ((exists r', fst (send_referral db id now) = Return r') <-> status r = "CREATED")
  (* accept *)
  /\ (status r = "CREATED" \/ status r = "SENT" ->
        accept_referral db id by_user now = committed (set_accepted r now by_user) db
        /\ query_referral (snd (accept_referral db id by_user now)) id
           = Some (set_accepted r now by_user)
        /\ status (set_accepted r now by_user) = "ACCEPTED"
        /\ accepted_at (set_accepted r now by_user) = Some now
        /\ accepted_by (set_accepted r now by_user) = Some by_user)
  /\ (status r <> "CREATED" -> status r <> "SENT" ->
        accept_referral db id by_user now = refused "accept" r db
        /\ snd (accept_referral db id by_user now) = db
        /\ query_referral (snd (accept_referral db id by_user now)) id = Some r)
  /\ ((exists r', fst (accept_referral db id by_user now) = Return r')
      <-> status r = "CREATED" \/ status r = "SENT")
  (* transfer *)
  /\ (status r = "ACCEPTED" ->
        mark_transferred db id now = committed (set_transferred r now) db
        /\ query_referral (snd (mark_transferred db id now)) id
           = Some (set_transferred r now)
        /\ status (set_transferred r now) = "TRANSFERRED"
        /\ transferred_at (set_transferred r now) = Some now)
  /\ (status r <> "ACCEPTED" ->
        mark_transferred db id now = refused "transfer" r db
        /\ snd (mark_transferred db id now) = db
        /\ query_referral (snd (mark_transferred db id now)) id = Some r)
  /\ ((exists r', fst (mark_transferred db id now) = Return r')
      <-> status r = "ACCEPTED").
Proof.
  pose proof (query_referral_id _ _ _ Hq) as Hid.
  pose proof (send_referral_cases db id r now Hq) as Hs.
  pose proof (accept_referral_cases db id by_user r now Hq) as Ha.
  pose proof (mark_transferred_cases db id r now Hq) as Ht.
  repeat match goal with |- _ /\ _ => split end.
  - intro H. destruct Hs as [[_ E] | [N _]]; [ | contradiction].
    rewrite E. repeat split. simpl. eapply query_after_commit; eauto.
  - intro H. destruct Hs as [[E _] | [_ E]]; [contradiction | ].
    rewrite E. simpl. auto.
  - split.
    + intros [r' E']. destruct Hs as [[E _] | [_ E]]; [exact E | ].
      rewrite E in E'. discriminate.
    + intro H. destruct Hs as [[_ E] | [N _]]; [ | contradiction].
      rewrite E. eexists. reflexivity.
  - intro H. destruct Ha as [[_ E] | (N1 & N2 & _)]; [ | destruct H; contradiction].
    rewrite E. repeat split. simpl. eapply query_after_commit; eauto.
  - intros N1 N2. destruct Ha as [[[E | E] _] | (_ & _ & E)]; try contradiction.
    rewrite E. simpl. auto.
  - split.
    + intros [r' E']. destruct Ha as [[E _] | (_ & _ & E)]; [exact E | ].
      rewrite E in E'. discriminate.
    + intro H. destruct Ha as [[_ E] | (N1 & N2 & _)]; [ | destruct H; contradiction].
      rewrite E. eexists. reflexivity.
  - intro H. destruct Ht as [[_ E] | [N _]]; [ | contradiction].
    rewrite E. repeat split. simpl. eapply query_after_commit; eauto.
  - intro H. destruct Ht as [[E _] | [_ E]]; [contradiction | ].
    rewrite E. simpl. auto.
  - split.
    + intros [r' E']. destruct Ht as [[E _] | [_ E]]; [exact E | ].
      rewrite E in E'. discriminate.
    + intro H. destruct Ht as [[_ E] | [N _]]; [ | contradiction].
      rewrite E. eexists. reflexivity.
Qed.

(** On the sample data: a referral just created can be sent, and a direct
    transfer is refused and leaves the session, so the row, as it was. *)
Lemma transitions_guarded_demo :
  send_referral Examples.demo_created 1 160
  = committed (set_sent Examples.first_referral 160) Examples.demo_created
  /\ mark_transferred Examples.demo_created 1 160
     = (Raise (ValueError "Cannot transfer referral with status CREATED"),
        Examples.demo_created)
  /\ query_referral (snd (mark_transferred Examples.demo_created 1 160)) 1
     = Some Examples.first_referral.
Proof.
  destruct (transitions_guarded Examples.demo_created 1 Examples.doctor
              Examples.first_referral 160 eq_refl)
    as (Hsend & _ & _ & _ & _ & _ & _ & Htransfer & _).
  destruct (Hsend eq_refl) as (Hs & _).
  destruct Htransfer as (Ht & _ & Hq); [discriminate | ].
  repeat split; assumption.
Defined.

End LifecycleFacts.

(** ** Repeated escalation *)

Module RepeatFacts.
Import ReferralService CreationSpec CreationFacts RepeatSpec.

Lemma max_id_nonneg (rs : list Referral) : 0 <= fold_right Z.max 0 (map r_id rs).
Proof. induction rs as [|r rest IH]; cbn [map fold_right]; lia. Qed.

Lemma next_id_above (rs : list Referral) (r : Referral) :
  In r rs -> r_id r < next_id rs.
Proof.
  unfold next_id. induction rs as [|x rest IH]; cbn [map fold_right In]; [tauto | ].
  intros [-> | Hin]; [lia | ]. specialize (IH Hin). lia.
Qed.

Lemma max_id_app (rs : list Referral) (r : Referral) :
  fold_right Z.max 0 (map r_id (rs ++ [r]))
  = Z.max (fold_right Z.max 0 (map r_id rs)) (Z.max (r_id r) 0).
Proof.
  induction rs as [|x rest IH]; cbn [app map fold_right]; [lia | ].
  rewrite IH. lia.
Qed.

Lemma next_id_insert (rs : list Referral) (r : Referral) :
  r_id r = next_id rs -> next_id (rs ++ [r]) = next_id rs + 1.
Proof.
  unfold next_id. intro Hr. rewrite max_id_app.
  pose proof (max_id_nonneg rs). lia.
Qed.

(** One more automatic creation for an eligible patient, whatever the
    table already holds. *)
Lemma auto_create_again (db : Session) (pid uid : Z) (now : datetime)
    (p : Patient) (chu : HealthCenter) :
  query_patient db pid = Some p ->
  TriageService.should_create_referral p db = true ->
  query_center_of_type db "CHU" = Some chu ->
  NoDup (map hc_id (health_centers db)) ->
  auto_create_referral_for_critical_patient db pid uid now
  = (Return (Some (auto_referral db p chu uid now)),
     insert_referral db (auto_referral db p chu uid now)).
Proof.
  intros Hp Hs Hchu Hpk.
  destruct (auto_create_cases db pid uid now p Hp Hpk)
    as [[Hs' _] | [(_ & Hc & _) | (_ & chu' & Hc & E)]]; congruence.
Qed.

Lemma new_created_for_cons (pid : Z) (old news : list Referral) (r : Referral) :
  patient_id r = pid -> status r = "CREATED" -> r_id r = next_id old ->
  Forall (fun x => patient_id x = pid /\ status x = "CREATED"
                   /\ next_id (old ++ [r]) <= r_id x) news ->
  NoDup (map r_id news) ->
  Forall (fun x => patient_id x = pid /\ status x = "CREATED"
                   /\ next_id old <= r_id x) (r :: news)
  /\ NoDup (map r_id (r :: news)).
Proof.
  intros Hpid Hst Hid Hall Hnd.
  pose proof (next_id_insert old r Hid) as Hnext.
  split.
  - constructor; [repeat split; auto; lia | ].
    eapply Forall_impl; [ | exact Hall]. cbv beta. intros x (A & B & C).
    repeat split; auto. lia.
  - cbn [map]. constructor; [ | exact Hnd].
    intro Hin. apply in_map_iff in Hin. destruct Hin as (x & Hx & Hxin).
    rewrite Forall_forall in Hall. destruct (Hall x Hxin) as (_ & _ & Hge). lia.
Qed.

Lemma auto_create_each_grows (nows : list datetime) :
  forall (db : Session) (pid uid : Z) (p : Patient) (chu : HealthCenter),
    query_patient db pid = Some p ->
    TriageService.should_create_referral p db = true ->
    query_center_of_type db "CHU" = Some chu ->
    NoDup (map hc_id (health_centers db)) ->
    exists news,
      referrals (auto_create_each db pid uid nows) = (referrals db ++ news)%list
      /\ List.length news = List.length nows
      /\ Forall (fun x => patient_id x = pid /\ status x = "CREATED"
                          /\ next_id (referrals db) <= r_id x) news
      /\ NoDup (map r_id news).
Proof.
  induction nows as [|now rest IH]; intros db pid uid p chu Hp Hs Hchu Hpk.
  - exists []. cbn [auto_create_each]. rewrite app_nil_r.
    repeat split; constructor.
  - cbn [auto_create_each].
    rewrite (auto_create_again db pid uid now p chu Hp Hs Hchu Hpk). cbn [snd].
    set (r := auto_referral db p chu uid now).
    destruct (IH (insert_referral db r) pid uid p chu Hp Hs Hchu Hpk)
      as (news & Hrefs & Hlen & Hall & Hnd).
    exists (r :: news).
    assert (Hpid : patient_id r = pid) by (apply (query_patient_id _ _ _ Hp)).
    destruct (new_created_for_cons pid (referrals db) news r Hpid eq_refl eq_refl
                Hall Hnd) as [Hall' Hnd'].
    repeat split; auto.
    + rewrite Hrefs. cbn [insert_referral with_referrals referrals].
      rewrite <- app_assoc. reflexivity.
    + cbn [List.length]. congruence.
Qed.

Lemma at_least_next_id_new (pid : Z) (old news : list Referral) :
  Forall (fun x => patient_id x = pid /\ status x = "CREATED"
                   /\ next_id old <= r_id x) news ->
  NoDup (map r_id news) ->
  new_created_for pid old news.
Proof.
  intros Hall Hnd. split; [ | exact Hnd].
  eapply Forall_impl; [ | exact Hall]. cbv beta. intros x (A & B & C).
  repeat split; auto. intro Hin. apply in_map_iff in Hin.
  destruct Hin as (y & Hy & Hyin). apply next_id_above in Hyin. lia.
Qed.

Lemma find_replace_patient (id : Z) (p p' : Patient) (ps : list Patient) :
  find (fun x => p_id x =? id) ps = Some p ->
  p_id p' = id ->
  find (fun x => p_id x =? id) (replace_patient id p' ps) = Some p'.
Proof.
  intros Hf Hid. induction ps as [|x rest IH]; simpl in *; [discriminate | ].
  destruct (p_id x =? id) eqn:E; simpl.
  - rewrite Hid, Z.eqb_refl. reflexivity.
  - rewrite E. apply IH, Hf.
Qed.

Lemma query_patient_after_commit (db : Session) (id : Z) (p p' : Patient) :
  query_patient db id = Some p ->
  p_id p' = id ->
  query_patient (commit_patient db p') id = Some p'.
Proof.
  intros Hq Hid. unfold query_patient, commit_patient; simpl.
  rewrite Hid. eapply find_replace_patient; eassumption.
Qed.

(** One assessment of a patient whose vitals are critical, at a Centre de
    Santé, with a CHU stored: the level is written, and a referral is
    appended. *)
Lemma assess_triage_step (send_fails : WebSocket -> Json -> option Exception)
    (app : App) (pid uid : Z) (now : datetime) (p : Patient) (chu : HealthCenter) :
  query_patient (session app) pid = Some p ->
  TriageService.assess_triage_level p = "CRITICAL" ->
  at_basic_clinic p (session app) ->
  query_center_of_type (session app) "CHU" = Some chu ->
  NoDup (map hc_id (health_centers (session app))) ->
  let p' := set_triage_level p "CRITICAL" in
  let db1 := commit_patient (session app) p' in
  exists m',
    TriageRoutes.assess_triage send_fails app pid uid now
    = (Return p',
       {| session := insert_referral db1 (auto_referral db1 p' chu uid now);
          manager := m' |}).
Proof.
  intros Hp Hcrit Hclinic Hchu Hpk p' db1.
  assert (Hp' : query_patient db1 (p_id p') = Some p').
  { unfold db1. cbn [p' set_triage_level p_id].
    rewrite (query_patient_id _ _ _ Hp).
    apply query_patient_after_commit with (p := p); [exact Hp | ].
    apply (query_patient_id _ _ _ Hp). }
  assert (Hs : TriageService.should_create_referral p' db1 = true).
  { apply should_create_referral_spec. split; [reflexivity | exact Hclinic]. }
  unfold TriageRoutes.assess_triage. rewrite Hp, Hcrit.
  fold p'. fold db1. rewrite Hs.
  rewrite (auto_create_again db1 (p_id p') uid now p' chu Hp' Hs Hchu Hpk).
  destruct (NotificationService.notify_new_referral _ _ _) as [res m'].
  exists m'. reflexivity.
Qed.

Lemma assess_each_grows (send_fails : WebSocket -> Json -> option Exception)
    (nows : list datetime) :
  forall (app : App) (pid uid : Z) (p : Patient) (chu : HealthCenter),
    query_patient (session app) pid = Some p ->
    TriageService.assess_triage_level p = "CRITICAL" ->
    at_basic_clinic p (session app) ->
    query_center_of_type (session app) "CHU" = Some chu ->
    NoDup (map hc_id (health_centers (session app))) ->
    exists news,
      referrals (session (assess_each send_fails app pid uid nows))
      = (referrals (session app) ++ news)%list
      /\ List.length news = List.length nows
      /\ Forall (fun x => patient_id x = pid /\ status x = "CREATED"
                          /\ next_id (referrals (session app)) <= r_id x) news
      /\ NoDup (map r_id news).
Proof.
  induction nows as [|now rest IH]; intros app pid uid p chu Hp Hcrit Hclinic Hchu Hpk.
  - exists []. cbn [assess_each]. rewrite app_nil_r.
    repeat split; constructor.
  - cbn [assess_each].
    destruct (assess_triage_step send_fails app pid uid now p chu
                Hp Hcrit Hclinic Hchu Hpk) as (m' & E).
    rewrite E. cbn [snd].
    set (p' := set_triage_level p "CRITICAL") in *.
    set (db1 := commit_patient (session app) p') in *.
    set (r := auto_referral db1 p' chu uid now) in *.
    assert (Hp' : query_patient db1 pid = Some p').
    { apply query_patient_after_commit with (p := p); [exact Hp | ].
      apply (query_patient_id _ _ _ Hp). }
    destruct (IH {| session := insert_referral db1 r; manager := m' |}
                 pid uid p' chu Hp' Hcrit Hclinic Hchu Hpk)
      as (news & Hrefs & Hlen & Hall & Hnd).
    cbn [session insert_referral with_referrals referrals] in Hrefs, Hall.
    change (referrals db1) with (referrals (session app)) in Hrefs, Hall.
    exists (r :: news).
    assert (Hpid : patient_id r = pid) by (apply (query_patient_id _ _ _ Hp)).
    destruct (new_created_for_cons pid (referrals (session app)) news r
                Hpid eq_refl eq_refl Hall Hnd) as [Hall' Hnd'].
    repeat split; auto.
    + rewrite Hrefs. rewrite <- app_assoc. reflexivity.
    + cbn [List.length]. congruence.
Qed.

(** C10.  Automatic creation never looks at the referral table.  For a
    stored patient who meets the rule (triage level CRITICAL, own centre a
    Centre de Santé), with a CHU stored and health centres of distinct
    keys, and for any content of the referral table:
    - a call to [auto_create_referral_for_critical_patient] returns a new
      referral and the table grows by exactly that row, also when the
      table already holds a CREATED referral for the same patient;
    - any number of calls in a row appends that number of referrals, each
      CREATED, each for this patient, with keys that are new and distinct;
    - the same holds for the route [assess_triage] called repeatedly on a
      patient whose vitals are critical. *)
Theorem auto_creation_never_deduplicates
    (send_fails : WebSocket -> Json -> option Exception)
    (db : Session) (pid uid : Z) (p : Patient) (chu : HealthCenter)
    (Hp : query_patient db pid = Some p)
    (Hclinic : at_basic_clinic p db)
    (Hchu : query_center_of_type db "CHU" = Some chu)
    (Hpk : NoDup (map hc_id (health_centers db))) :
  (triage_level p = Some "CRITICAL" ->
     (forall now, exists r,
        auto_create_referral_for_critical_patient db pid uid now
        = (Return (Some r), insert_referral db r)
        /\ referrals (insert_referral db r) = (referrals db ++ [r])%list
        /\ new_created_for pid (referrals db) [r])
     /\ (forall nows, exists news,
          referrals (auto_create_each db pid uid nows) = (referrals db ++ news)%list
          /\ List.length news = List.length nows
          /\ new_created_for pid (referrals db) news))
  /\ (TriageService.assess_triage_level p = "CRITICAL" ->
      forall m nows, exists news,
        referrals (session (assess_each send_fails {| session := db; manager := m |}
                              pid uid nows))
        = (referrals db ++ news)%list
        /\ List.length news = List.length nows
        /\ new_created_for pid (referrals db) news).
Proof.
  split.
  - intro Hl.
    assert (Hs : TriageService.should_create_referral p db = true)
      by (apply should_create_referral_spec; split; assumption).
    split.
    + intro now.
      destruct (auto_create_each_grows [now] db pid uid p chu Hp Hs Hchu Hpk)
        as (news & Hrefs & Hlen & Hall & Hnd).
      cbn [auto_create_each] in Hrefs.
      rewrite (auto_create_again db pid uid now p chu Hp Hs Hchu Hpk) in Hrefs |- *.
      cbn [snd insert_referral with_referrals referrals] in Hrefs.
      apply app_inv_head in Hrefs. subst news.
      eexists. split; [reflexivity | ]. split; [reflexivity | ].
      apply at_least_next_id_new; assumption.
    + intro nows.
      destruct (auto_create_each_grows nows db pid uid p chu Hp Hs Hchu Hpk)
        as (news & Hrefs & Hlen & Hall & Hnd).
      exists news. repeat split; auto; apply at_least_next_id_new; assumption.
  - intros Hcrit m nows.
    destruct (assess_each_grows send_fails nows {| session := db; manager := m |}
                pid uid p chu Hp Hcrit Hclinic Hchu Hpk)
      as (news & Hrefs & Hlen & Hall & Hnd).
    exists news. repeat split; auto; apply at_least_next_id_new; assumption.
Qed.

(** On the sample data, with a CREATED referral already stored for the
    patient: two more calls store two more. *)
Lemma auto_creation_never_deduplicates_demo :
  (exists r0, referrals Examples.demo_created = [r0]
              /\ patient_id r0 = 1 /\ status r0 = "CREATED")
  /\ exists news,
       referrals (auto_create_each Examples.demo_created 1 Examples.nurse [200; 300])
       = (referrals Examples.demo_created ++ news)%list
       /\ List.length news = 2%nat
       /\ new_created_for 1 (referrals Examples.demo_created) news.
Proof.
  split; [eexists; repeat split | ].
  destruct (auto_creation_never_deduplicates BroadcastSpec.second_closed
              Examples.demo_created 1 Examples.nurse Examples.patient_clinic
              Examples.chu_ibn_rochd eq_refl
              (ex_intro _ Examples.centre_ibn_sina (conj eq_refl eq_refl))
              eq_refl seeded_keys_distinct)
    as (Hservice & _).
  destruct (Hservice eq_refl) as (_ & Hmany).
  exact (Hmany [200; 300]).
Defined.

End RepeatFacts.

(** ** Timestamps along a history *)

Module HistoryFacts.
Import ReferralService LifecycleSpec CreationSpec CreationFacts HistorySpec.
Import LifecycleFacts.

Lemma not_after_None_r (a : option datetime) : not_after a None.
Proof. destruct a; exact I. Qed.

Lemma not_after_None_l (b : option datetime) : not_after None b.
Proof. exact I. Qed.

Create HintDb stamps.
#[local] Hint Resolve not_after_None_r not_after_None_l : stamps.

Lemma shape_later (t t' : datetime) (r : Referral) :
  t <= t' -> lifecycle_shape t r -> lifecycle_shape t' r.
Proof.
  intros Hle [(Hs & c & Hc & Hb & R) | [(Hs & c & s & Hc & Hsn & Hb & R)
    | [(Hs & c & a & Hc & Ha & Hb & R) | (Hs & c & a & x & Hc & Ha & Hx & Hb & Hb' & R)]]].
  - left. split; [exact Hs | ]. exists c. repeat split; try tauto; lia.
  - right; left. split; [exact Hs | ]. exists c, s. repeat split; try tauto; lia.
  - right; right; left. split; [exact Hs | ]. exists c, a.
    repeat split; try tauto; lia.
  - right; right; right. split; [exact Hs | ]. exists c, a, x.
    repeat split; try tauto; lia.
Qed.

Lemma shape_fresh (db : Session) (p : Patient) (to_id uid : Z)
    (why notes : option string) (now : datetime) :
  lifecycle_shape now (fresh_referral db p to_id uid why notes now).
Proof.
  left. split; [reflexivity | ]. exists now. cbn. repeat split; try reflexivity; lia.
Qed.

(** A row in a given status has the shape of that status. *)
Lemma shape_created (t : datetime) (r : Referral) :
  lifecycle_shape t r -> status r = "CREATED" ->
  exists c, created_at r = Some c /\ c <= t
    /\ sent_at r = None /\ accepted_at r = None /\ transferred_at r = None.
Proof.
  intros [(_ & H) | [(Hs & _) | [(Hs & _) | (Hs & _)]]] Hst;
    [exact H | congruence ..].
Qed.

Lemma shape_sent (t : datetime) (r : Referral) :
  lifecycle_shape t r -> status r = "SENT" ->
  exists c s, created_at r = Some c /\ sent_at r = Some s /\ c <= s <= t
    /\ accepted_at r = None /\ transferred_at r = None.
Proof.
  intros [(Hs & _) | [(_ & H) | [(Hs & _) | (Hs & _)]]] Hst;
    [congruence | exact H | congruence ..].
Qed.

Lemma shape_accepted (t : datetime) (r : Referral) :
  lifecycle_shape t r -> status r = "ACCEPTED" ->
  exists c a, created_at r = Some c /\ accepted_at r = Some a /\ c <= a <= t
    /\ not_after (created_at r) (sent_at r)
    /\ not_after (sent_at r) (accepted_at r)
    /\ transferred_at r = None.
Proof.
  intros [(Hs & _) | [(Hs & _) | [(_ & H) | (Hs & _)]]] Hst;
    [congruence | congruence | exact H | congruence].
Qed.

Lemma shape_after_send (t t' : datetime) (r : Referral) :
  t <= t' -> lifecycle_shape t r -> status r = "CREATED" ->
  lifecycle_shape t' (set_sent r t').
Proof.
  intros Hle Hsh Hst. destruct (shape_created t r Hsh Hst) as (c & Hc & Hb & Hn & Ha & Hx).
  right; left. split; [reflexivity | ]. exists c, t'. cbn.
  repeat split; auto; lia.
Qed.

Lemma shape_after_accept (t t' : datetime) (r : Referral) (by_user : Z) :
  t <= t' -> lifecycle_shape t r -> status r = "CREATED" \/ status r = "SENT" ->
  lifecycle_shape t' (set_accepted r t' by_user).
Proof.
  intros Hle Hsh [Hst | Hst].
  - destruct (shape_created t r Hsh Hst) as (c & Hc & Hb & Hn & Ha & Hx).
    right; right; left. split; [reflexivity | ]. exists c, t'. cbn.
    rewrite Hn. repeat split; auto with stamps; lia.
  - destruct (shape_sent t r Hsh Hst) as (c & s & Hc & Hn & Hb & Ha & Hx).
    right; right; left. split; [reflexivity | ]. exists c, t'. cbn.
    rewrite Hc, Hn. cbn. repeat split; auto; lia.
Qed.

Lemma shape_after_transfer (t t' : datetime) (r : Referral) :
  t <= t' -> lifecycle_shape t r -> status r = "ACCEPTED" ->
  lifecycle_shape t' (set_transferred r t').
Proof.
  intros Hle Hsh Hst.
  destruct (shape_accepted t r Hsh Hst) as (c & a & Hc & Ha & Hb & Hcs & Hsa & Hx).
  right; right; right. split; [reflexivity | ]. exists c, a, t'. cbn.
  repeat split; auto; lia.
Qed.

Lemma create_effect (db : Session) (pid to_id uid : Z) (why notes : option string)
    (now : datetime) :
  effect db now (referrals (snd (create_referral db pid to_id uid why notes now))).
Proof.
  destruct (create_referral db pid to_id uid why notes now) as [[r|e] db'] eqn:E.
  - apply create_referral_returns in E.
    destruct E as (p & f & t & _ & _ & _ & _ & -> & ->). apply eff_new.
  - apply create_referral_raise_unchanged in E. subst db'. apply eff_none.
Qed.

Lemma auto_create_effect (db : Session) (pid uid : Z) (now : datetime) :
  effect db now
    (referrals (snd (auto_create_referral_for_critical_patient db pid uid now))).
Proof.
  unfold auto_create_referral_for_critical_patient.
  destruct (query_patient db pid) as [p|]; [ | apply eff_none].
  destruct (negb (TriageService.should_create_referral p db)); [apply eff_none | ].
  destruct (query_center_of_type db "CHU") as [chu|]; [ | apply eff_none].
  pose proof (create_effect db pid (hc_id chu) uid
                (Some "Auto-referral: Critical case from Centre de Santé")
                (Some ("Patient triage level: " ++ str_opt (triage_level p))) now) as H.
  destruct (create_referral db pid (hc_id chu) uid _ _ now) as [[r|e] db']; exact H.
Qed.

Lemma serve_effect (db : Session) (now : datetime) (rq : Request) :
  effect db now (referrals (serve db now rq)).
Proof.
  destruct rq as [pid to_id uid why notes | pid uid | id | id uid | id | ps hcs];
    cbn [serve].
  - apply create_effect.
  - apply auto_create_effect.
  - destruct (query_referral db id) as [r|] eqn:Hq.
    + destruct (send_referral_cases db id r now Hq) as [[Hs E] | [_ E]]; rewrite E.
      * cbn [committed snd commit_referral with_referrals referrals set_sent r_id].
        rewrite (query_referral_id _ _ _ Hq). eapply eff_sent; eassumption.
      * apply eff_none.
    + unfold send_referral. rewrite Hq. apply eff_none.
  - destruct (query_referral db id) as [r|] eqn:Hq.
    + destruct (accept_referral_cases db id uid r now Hq) as [[Hs E] | (_ & _ & E)];
        rewrite E.
      * cbn [committed snd commit_referral with_referrals referrals set_accepted r_id].
        rewrite (query_referral_id _ _ _ Hq). eapply eff_accepted; eassumption.
      * apply eff_none.
    + unfold accept_referral. rewrite Hq. apply eff_none.
  - destruct (query_referral db id) as [r|] eqn:Hq.
    + destruct (mark_transferred_cases db id r now Hq) as [[Hs E] | [_ E]]; rewrite E.
      * cbn [committed snd commit_referral with_referrals referrals set_transferred r_id].
        rewrite (query_referral_id _ _ _ Hq). eapply eff_transferred; eassumption.
      * apply eff_none.
    + unfold mark_transferred. rewrite Hq. apply eff_none.
  - exact (eff_none db now).
Qed.

Lemma Forall_shape_later (t t' : datetime) (rs : list Referral) :
  t <= t' -> Forall (lifecycle_shape t) rs -> Forall (lifecycle_shape t') rs.
Proof.
  intros Hle H. eapply Forall_impl; [ | exact H]. intros r. apply shape_later, Hle.
Qed.

(** Every request served at a later clock reading keeps the shape. *)
Lemma serve_shape (db : Session) (t now : datetime) (rq : Request) :
  t <= now ->
  Forall (lifecycle_shape t) (referrals db) ->
  Forall (lifecycle_shape now) (referrals (serve db now rq)).
Proof.
  intros Hle Hall.
  pose proof (Forall_shape_later t now _ Hle Hall) as Hall'.
  destruct (serve_effect db now rq) as [ | p to_id uid why notes
    | id r Hq Hs | id by_user r Hq Hs | id r Hq Hs].
  - exact Hall'.
  - apply Forall_app. split; [exact Hall' | ].
    constructor; [apply shape_fresh | constructor].
  - apply Forall_replace_row; [exact Hall' | ].
    apply (shape_after_send t); [exact Hle | | exact Hs].
    rewrite Forall_forall in Hall. apply Hall. eapply query_referral_In, Hq.
  - apply Forall_replace_row; [exact Hall' | ].
    apply (shape_after_accept t); [exact Hle | | exact Hs].
    rewrite Forall_forall in Hall. apply Hall. eapply query_referral_In, Hq.
  - apply Forall_replace_row; [exact Hall' | ].
    apply (shape_after_transfer t); [exact Hle | | exact Hs].
    rewrite Forall_forall in Hall. apply Hall. eapply query_referral_In, Hq.
Qed.

Lemma reached_of_status (r : Referral) (s stage : string) (i j : nat) :
  status r = s -> stage_index s = Some i -> stage_index stage = Some j ->
  (j <= i)%nat -> reached r stage.
Proof.
  intros Hs Hi Hj Hle. exists i, j. rewrite Hs. auto.
Qed.

Lemma not_reached_of_status (r : Referral) (s stage : string) (i j : nat) :
  status r = s -> stage_index s = Some i -> stage_index stage = Some j ->
  (i < j)%nat -> ~ reached r stage.
Proof.
  intros Hs Hi Hj Hlt (i' & j' & Hi' & Hj' & Hle).
  rewrite Hs, Hi in Hi'. rewrite Hj in Hj'.
  injection Hi' as <-. injection Hj' as <-. lia.
Qed.

Ltac reached_yes Hs :=
  eapply (reached_of_status _ _ _ _ _ Hs); [reflexivity | reflexivity | lia].

Ltac reached_no Hs H :=
  exfalso; revert H;
  eapply (not_reached_of_status _ _ _ _ _ Hs); [reflexivity | reflexivity | lia].

(** The shape gives the relation between status and timestamps, and their
    order. *)
Lemma shape_stamped (t : datetime) (r : Referral) :
  lifecycle_shape t r -> stamped r /\ ordered r.
Proof.
  intros [(Hs & c & Hc & Hb & Hn & Ha & Hx) | [(Hs & c & s & Hc & Hn & Hb & Ha & Hx)
    | [(Hs & c & a & Hc & Ha & Hb & Hcs & Hsa & Hx)
    | (Hs & c & a & x & Hc & Ha & Hx & Hb & Hb' & Hcs & Hsa)]]].
  - split.
    + unfold stamped. rewrite Hc, Hn, Ha, Hx.
      repeat match goal with |- _ /\ _ => split end.
      * rewrite Hs. left. reflexivity.
      * split; [intros _; reached_yes Hs | discriminate].
      * congruence.
      * congruence.
      * split; [congruence | intro H; reached_no Hs H].
      * split; [congruence | intro H; reached_no Hs H].
    + unfold ordered. rewrite Hc, Hn, Ha, Hx. cbn. tauto.
  - split.
    + unfold stamped. rewrite Hc, Hn, Ha, Hx.
      repeat match goal with |- _ /\ _ => split end.
      * rewrite Hs. right; left. reflexivity.
      * split; [intros _; reached_yes Hs | discriminate].
      * intros _; reached_yes Hs.
      * discriminate.
      * split; [congruence | intro H; reached_no Hs H].
      * split; [congruence | intro H; reached_no Hs H].
    + unfold ordered. rewrite Hc, Hn, Ha, Hx. cbn. repeat split; auto; lia.
  - split.
    + unfold stamped. rewrite Hc, Ha, Hx.
      repeat match goal with |- _ /\ _ => split end.
      * rewrite Hs. right; right; left. reflexivity.
      * split; [intros _; reached_yes Hs | discriminate].
      * intros _; reached_yes Hs.
      * congruence.
      * split; [intros _; reached_yes Hs | discriminate].
      * split; [congruence | intro H; reached_no Hs H].
    + unfold ordered. rewrite Hc, Ha, Hx in *.
      destruct (sent_at r); cbn in *; repeat split; auto; lia.
  - split.
    + unfold stamped. rewrite Hc, Ha, Hx.
      repeat match goal with |- _ /\ _ => split end.
      * rewrite Hs. right; right; right; left. reflexivity.
      * split; [intros _; reached_yes Hs | discriminate].
      * intros _; reached_yes Hs.
      * congruence.
      * split; [intros _; reached_yes Hs | discriminate].
      * split; [intros _; reached_yes Hs | discriminate].
    + unfold ordered. rewrite Hc, Ha, Hx in *.
      destruct (sent_at r); cbn in *; repeat split; auto; lia.
Qed.

(** Along a history with a clock that never goes back, the shape holds at
    the last reading. *)
Lemma run_shape (history : list (datetime * Request)) :
  forall (db : Session) (t : datetime),
    Forall (lifecycle_shape t) (referrals db) ->
    nondecreasing (t :: map fst history) = true ->
    exists t', Forall (lifecycle_shape t') (referrals (run db history)).
Proof.
  induction history as [|[now rq] rest IH]; intros db t Hall Hclock.
  - exists t. exact Hall.
  - cbn [run]. cbn [map fst nondecreasing] in Hclock.
    apply andb_true_iff in Hclock. destruct Hclock as [Hle Hrest].
    apply Z.leb_le in Hle.
    apply (IH (serve db now rq) now); [ | exact Hrest].
    apply (serve_shape db t now rq Hle Hall).
Qed.

Lemma nondecreasing_head (t : datetime) (ts : list datetime) :
  nondecreasing (t :: ts) = true -> nondecreasing (t :: t :: ts) = true.
Proof.
  intro H. cbn [nondecreasing]. rewrite Z.leb_refl. exact H.
Qed.

(** *** Without any assumption on the clock *)

Lemma stamps_created (r : Referral) :
  stamps_of_status r -> status r = "CREATED" ->
  created_at r <> None
  /\ sent_at r = None /\ accepted_at r = None /\ transferred_at r = None.
Proof.
  intros [(_ & H) | [(Hs & _) | [(Hs & _) | (Hs & _)]]] Hst;
    [exact H | congruence ..].
Qed.

Lemma stamps_sent (r : Referral) :
  stamps_of_status r -> status r = "SENT" ->
  created_at r <> None /\ sent_at r <> None
  /\ accepted_at r = None /\ transferred_at r = None.
Proof.
  intros [(Hs & _) | [(_ & H) | [(Hs & _) | (Hs & _)]]] Hst;
    [congruence | exact H | congruence ..].
Qed.

Lemma stamps_accepted (r : Referral) :
  stamps_of_status r -> status r = "ACCEPTED" ->
  created_at r <> None /\ accepted_at r <> None /\ transferred_at r = None.
Proof.
  intros [(Hs & _) | [(Hs & _) | [(_ & H) | (Hs & _)]]] Hst;
    [congruence | congruence | exact H | congruence].
Qed.

Lemma stamps_fresh (db : Session) (p : Patient) (to_id uid : Z)
    (why notes : option string) (now : datetime) :
  stamps_of_status (fresh_referral db p to_id uid why notes now).
Proof.
  left. cbn. repeat split; try reflexivity. discriminate.
Qed.

Lemma stamps_after_send (r : Referral) (now : datetime) :
  stamps_of_status r -> status r = "CREATED" -> stamps_of_status (set_sent r now).
Proof.
  intros H Hs. destruct (stamps_created r H Hs) as (Hc & _ & Ha & Hx).
  right; left. cbn. repeat split; auto; discriminate.
Qed.

Lemma stamps_after_accept (r : Referral) (now : datetime) (by_user : Z) :
  stamps_of_status r -> status r = "CREATED" \/ status r = "SENT" ->
  stamps_of_status (set_accepted r now by_user).
Proof.
  intros H [Hs | Hs].
  - destruct (stamps_created r H Hs) as (Hc & _ & _ & Hx).
    right; right; left. cbn. repeat split; auto; discriminate.
  - destruct (stamps_sent r H Hs) as (Hc & _ & _ & Hx).
    right; right; left. cbn. repeat split; auto; discriminate.
Qed.

Lemma stamps_after_transfer (r : Referral) (now : datetime) :
  stamps_of_status r -> status r = "ACCEPTED" ->
  stamps_of_status (set_transferred r now).
Proof.
  intros H Hs. destruct (stamps_accepted r H Hs) as (Hc & Ha & _).
  right; right; right. cbn. repeat split; auto; discriminate.
Qed.

(** Every request, at any clock reading, keeps the pattern. *)
Lemma serve_stamps (db : Session) (now : datetime) (rq : Request) :
  Forall stamps_of_status (referrals db) ->
  Forall stamps_of_status (referrals (serve db now rq)).
Proof.
  intro Hall.
  assert (Hrow : forall id r, query_referral db id = Some r -> stamps_of_status r).
  { intros id r Hq. rewrite Forall_forall in Hall. apply Hall.
    eapply query_referral_In, Hq. }
  destruct (serve_effect db now rq) as [ | p to_id uid why notes
    | id r Hq Hs | id by_user r Hq Hs | id r Hq Hs].
  - exact Hall.
  - apply Forall_app. split; [exact Hall | ].
    constructor; [apply stamps_fresh | constructor].
  - apply Forall_replace_row; [exact Hall | ].
    apply stamps_after_send; [eapply Hrow, Hq | exact Hs].
  - apply Forall_replace_row; [exact Hall | ].
    apply stamps_after_accept; [eapply Hrow, Hq | exact Hs].
  - apply Forall_replace_row; [exact Hall | ].
    apply stamps_after_transfer; [eapply Hrow, Hq | exact Hs].
Qed.

Lemma run_stamps (history : list (datetime * Request)) :
  forall db, Forall stamps_of_status (referrals db) ->
             Forall stamps_of_status (referrals (run db history)).
Proof.
  induction history as [|[now rq] rest IH]; intros db Hall; [exact Hall | ].
  cbn [run]. apply IH, serve_stamps, Hall.
Qed.

Lemma stamps_stamped (r : Referral) : stamps_of_status r -> stamped r.
Proof.
  intros [(Hs & Hc & Hn & Ha & Hx) | [(Hs & Hc & Hn & Ha & Hx)
    | [(Hs & Hc & Ha & Hx) | (Hs & Hc & Ha & Hx)]]]; unfold stamped.
  - rewrite Hn, Ha, Hx.
    repeat match goal with |- _ /\ _ => split end.
    + rewrite Hs. left. reflexivity.
    + split; [intros _; reached_yes Hs | intros _; exact Hc].
    + congruence.
    + congruence.
    + split; [congruence | intro H; reached_no Hs H].
    + split; [congruence | intro H; reached_no Hs H].
  - rewrite Ha, Hx.
    repeat match goal with |- _ /\ _ => split end.
    + rewrite Hs. right; left. reflexivity.
    + split; [intros _; reached_yes Hs | intros _; exact Hc].
    + intros _; reached_yes Hs.
    + intros _; exact Hn.
    + split; [congruence | intro H; reached_no Hs H].
    + split; [congruence | intro H; reached_no Hs H].
  - rewrite Hx.
    repeat match goal with |- _ /\ _ => split end.
    + rewrite Hs. right; right; left. reflexivity.
    + split; [intros _; reached_yes Hs | intros _; exact Hc].
    + intros _; reached_yes Hs.
    + congruence.
    + split; [intros _; reached_yes Hs | intros _; exact Ha].
    + split; [congruence | intro H; reached_no Hs H].
  - repeat match goal with |- _ /\ _ => split end.
    + rewrite Hs. right; right; right; left. reflexivity.
    + split; [intros _; reached_yes Hs | intros _; exact Hc].
    + intros _; reached_yes Hs.
    + congruence.
    + split; [intros _; reached_yes Hs | intros _; exact Ha].
    + split; [intros _; reached_yes Hs | intros _; exact Hx].
Qed.

Lemma own_stamp_refl (now : datetime) (r : Referral) : sets_own_stamp now r r.
Proof. split; [reflexivity | ]. intros stage _. left. reflexivity. Qed.

Ltac each_stage H :=
  destruct H as [<- | [<- | [<- | [<- | []]]]].

Lemma own_stamp_send (now : datetime) (r : Referral) :
  status r = "CREATED" -> sent_at r = None -> sets_own_stamp now r (set_sent r now).
Proof.
  intros Hs Hn. split; [reflexivity | ]. intros stage Hin. each_stage Hin.
  - left. reflexivity.
  - right. cbn. repeat split; auto. congruence.
  - left. reflexivity.
  - left. reflexivity.
Qed.

Lemma own_stamp_accept (now : datetime) (r : Referral) (by_user : Z) :
  status r = "CREATED" \/ status r = "SENT" -> accepted_at r = None ->
  sets_own_stamp now r (set_accepted r now by_user).
Proof.
  intros Hs Hn. split; [reflexivity | ]. intros stage Hin. each_stage Hin.
  - left. reflexivity.
  - left. reflexivity.
  - right. cbn. repeat split; auto. destruct Hs; congruence.
  - left. reflexivity.
Qed.

Lemma own_stamp_transfer (now : datetime) (r : Referral) :
  status r = "ACCEPTED" -> transferred_at r = None ->
  sets_own_stamp now r (set_transferred r now).
Proof.
  intros Hs Hn. split; [reflexivity | ]. intros stage Hin. each_stage Hin.
  - left. reflexivity.
  - left. reflexivity.
  - left. reflexivity.
  - right. cbn. repeat split; auto. congruence.
Qed.

Lemma Forall2_replaced (R : Referral -> Referral -> Prop) (id : Z)
    (r r' : Referral) (rs : list Referral) :
  (forall x, R x x) ->
  find (fun x => r_id x =? id) rs = Some r ->
  R r r' ->
  Forall2 R rs (replace_row id r' rs).
Proof.
  intros Hrefl Hf Hr.
  assert (Hall : forall l, Forall2 R l l) by (induction l; constructor; auto).
  induction rs as [|x rest IH]; simpl in *; [constructor | ].
  destruct (r_id x =? id).
  - injection Hf as ->. constructor; [exact Hr | apply Hall].
  - constructor; [apply Hrefl | apply IH, Hf].
Qed.

(** A request sets no timestamp but the one of the stage a row enters. *)
Lemma serve_own_stamps (db : Session) (now : datetime) (rq : Request) :
  Forall stamps_of_status (referrals db) ->
  table_sets_own_stamps now (referrals db) (referrals (serve db now rq)).
Proof.
  intro Hall.
  assert (Hrow : forall id r, query_referral db id = Some r -> stamps_of_status r).
  { intros id r Hq. rewrite Forall_forall in Hall. apply Hall.
    eapply query_referral_In, Hq. }
  assert (Hsame : forall l, Forall2 (sets_own_stamp now) l l)
    by (induction l; constructor; auto using own_stamp_refl).
  destruct (serve_effect db now rq) as [ | p to_id uid why notes
    | id r Hq Hs | id by_user r Hq Hs | id r Hq Hs].
  - exists (referrals db), []. rewrite app_nil_r. repeat split; auto.
  - eexists (referrals db), _. split; [reflexivity | ]. split; [apply Hsame | ].
    constructor; [cbn; repeat split | constructor].
  - eexists _, []. rewrite app_nil_r. split; [reflexivity | ]. split; [ | constructor].
    apply (Forall2_replaced _ id r); auto using own_stamp_refl.
    apply own_stamp_send; [exact Hs | ].
    destruct (stamps_created r (Hrow id r Hq) Hs) as (_ & Hn & _). exact Hn.
  - eexists _, []. rewrite app_nil_r. split; [reflexivity | ]. split; [ | constructor].
    apply (Forall2_replaced _ id r); auto using own_stamp_refl.
    apply own_stamp_accept; [exact Hs | ]. destruct Hs as [Hs | Hs].
    + destruct (stamps_created r (Hrow id r Hq) Hs) as (_ & _ & Ha & _). exact Ha.
    + destruct (stamps_sent r (Hrow id r Hq) Hs) as (_ & _ & Ha & _). exact Ha.
  - eexists _, []. rewrite app_nil_r. split; [reflexivity | ]. split; [ | constructor].
    apply (Forall2_replaced _ id r); auto using own_stamp_refl.
    apply own_stamp_transfer; [exact Hs | ].
    destruct (stamps_accepted r (Hrow id r Hq) Hs) as (_ & _ & Hx). exact Hx.
Qed.

Lemma stamp_stage (r : Referral) (stage : string) (t : datetime) :
  stamp r stage = Some t -> In stage stages.
Proof.
  unfold stamp, stages.
  destruct (String.eqb_spec stage "CREATED") as [-> | _]; [cbn; tauto | ].
  destruct (String.eqb_spec stage "SENT") as [-> | _]; [cbn; tauto | ].
  destruct (String.eqb_spec stage "ACCEPTED") as [-> | _]; [cbn; tauto | ].
  destruct (String.eqb_spec stage "TRANSFERRED") as [-> | _]; [cbn; tauto | ].
  discriminate.
Qed.

Lemma own_stamp_keeps (now : datetime) (r r' : Referral) :
  sets_own_stamp now r r' -> keeps_stamps r r'.
Proof.
  intros [Hid Hst]. split; [exact Hid | ]. intros stage t Ht.
  destruct (Hst stage (stamp_stage r stage t Ht)) as [E | (E & _)]; congruence.
Qed.

Lemma table_own_stamps_keeps (now : datetime) (old new : list Referral) :
  table_sets_own_stamps now old new -> table_keeps_stamps old new.
Proof.
  intros (kept & added & Heq & Hk & _). exists kept, added. split; [exact Heq | ].
  clear Heq. induction Hk as [|x y l l' Hxy _ IH]; [constructor | ].
  constructor; [exact (own_stamp_keeps now x y Hxy) | exact IH].
Qed.

(** What [accept_referral] leaves of the sent timestamp. *)
Lemma accept_keeps_sent_stamp (db : Session) (id by_user : Z) (now : datetime)
    (r r' : Referral) :
  query_referral db id = Some r ->
  fst (accept_referral db id by_user now) = Return r' ->
  sent_at r' = sent_at r /\ status r' = "ACCEPTED"
  /\ query_referral (snd (accept_referral db id by_user now)) id = Some r'.
Proof.
  intros Hq Hret.
  destruct (accept_referral_cases db id by_user r now Hq) as [[_ E] | (_ & _ & E)];
    rewrite E in Hret |- *; [ | discriminate].
  injection Hret as <-. repeat split.
  apply query_after_commit with (r := r); [exact Hq | ].
  apply (query_referral_id _ _ _ Hq).
Qed.

(** C5 (as amended).  Start from a session without referrals and serve any
    history of requests (creations, automatic creations, send, accept,
    transfer, and rewrites of the other tables), at any clock readings.
    Then every stored referral has one of the four statuses; its created,
    accepted and transferred timestamps are set exactly when its status
    has reached that stage; its sent timestamp is set when the status is
    SENT and only when the status has reached SENT.  Any further request
    changes no timestamp that is set, and sets no timestamp but the one of
    the stage a referral enters with that request, to the clock reading of
    the request; in particular a referral accepted straight from CREATED
    is stored with its sent timestamp still unset, and no later request
    sets it.  When the clock readings of the history never go back, the
    timestamps that are set are in the order created, sent, accepted,
    transferred. *)
Theorem timestamps_follow_lifecycle (ps : list Patient) (hcs : list HealthCenter)
    (history : list (datetime * Request)) :
  Forall stamped (referrals (run (start ps hcs) history))
  /\ (forall now rq,
        table_keeps_stamps
          (referrals (run (start ps hcs) history))
          (referrals (serve (run (start ps hcs) history) now rq)))
  /\ (forall now rq,
        table_sets_own_stamps now
          (referrals (run (start ps hcs) history))
          (referrals (serve (run (start ps hcs) history) now rq)))
  /\ (forall id by_user now r r',
        query_referral (run (start ps hcs) history) id = Some r ->
        status r = "CREATED" ->
        fst (accept_referral (run (start ps hcs) history) id by_user now) = Return r' ->
        status r' = "ACCEPTED" /\ sent_at r' = None
        /\ query_referral
             (snd (accept_referral (run (start ps hcs) history) id by_user now)) id
           = Some r'
        /\ forall t, fst (mark_transferred
                            (snd (accept_referral (run (start ps hcs) history)
                                    id by_user now)) id t)
                     = Return (set_transferred r' t)
                     /\ sent_at (set_transferred r' t) = None)
  /\ (nondecreasing (map fst history) = true ->
        Forall ordered (referrals (run (start ps hcs) history))).
Proof.
  assert (Hstamps : Forall stamps_of_status (referrals (run (start ps hcs) history)))
    by (apply run_stamps; constructor).
  repeat match goal with |- _ /\ _ => split end.
  - eapply Forall_impl; [ | exact Hstamps]. intro r. apply stamps_stamped.
  - intros now rq. apply (table_own_stamps_keeps now), serve_own_stamps, Hstamps.
  - intros now rq. apply serve_own_stamps, Hstamps.
  - intros id by_user now r r' Hq Hs Hret.
    destruct (accept_keeps_sent_stamp _ id by_user now r r' Hq Hret) as (Hsent & Hst & Hq').
    assert (Hnone : sent_at r = None).
    { rewrite Forall_forall in Hstamps.
      destruct (stamps_created r (Hstamps r (query_referral_In _ _ _ Hq)) Hs)
        as (_ & Hn & _). exact Hn. }
    split; [exact Hst | ]. split; [congruence | ]. split; [exact Hq' | ].
    intro t.
    destruct (mark_transferred_cases _ id r' t Hq') as [[_ E] | [N _]];
      [ | contradiction].
    rewrite E. split; [reflexivity | ]. cbn. congruence.
  - intro Hclock.
    assert (Hshape : exists t,
               Forall (lifecycle_shape t) (referrals (run (start ps hcs) history))).
    { destruct history as [|[t0 rq0] rest].
      - exists 0. constructor.
      - apply (run_shape ((t0, rq0) :: rest) (start ps hcs) t0); [constructor | ].
        cbn [map fst]. apply nondecreasing_head. exact Hclock. }
    destruct Hshape as [t Hshape].
    eapply Forall_impl; [ | exact Hshape]. intro r. apply shape_stamped.
Qed.

(** The whole chain, served on the sample data. *)
Lemma timestamps_follow_lifecycle_full_chain :
  Forall stamped (referrals (run Examples.demo Examples.history_full))
  /\ Forall ordered (referrals (run Examples.demo Examples.history_full))
  /\ (forall now rq,
        table_sets_own_stamps now
          (referrals (run Examples.demo Examples.history_full))
          (referrals (serve (run Examples.demo Examples.history_full) now rq))).
Proof.
  destruct (timestamps_follow_lifecycle
              [Examples.patient_clinic; Examples.patient_chu] Examples.seeded_centers
              Examples.history_full)
    as (Hstamped & _ & Hown & _ & Hordered).
  split; [exact Hstamped | ]. split; [exact (Hordered eq_refl) | exact Hown].
Defined.

(** Where the property as first stated fails.  A referral accepted
    straight from CREATED: its status has passed the SENT stage and its
    sent timestamp is unset, so "set exactly when the stage is reached"
    fails for the sent timestamp.  A referral created at clock reading 100
    and sent at clock reading 50: both timestamps are set and the created
    one is the later, so the order fails when the clock goes back. *)
Lemma accepted_without_sent_stamp :
  nondecreasing (map fst Examples.history_skipping_send) = true
  /\ nondecreasing (map fst Examples.history_clock_set_back) = false
  /\ (exists r,
     referrals (run Examples.demo Examples.history_skipping_send) = [r]
     /\ status r = "ACCEPTED"
     /\ reached r "SENT"
     /\ sent_at r = None
     /\ ~ stamped_iff_reached r)
  /\ (exists r,
        referrals (run Examples.demo Examples.history_clock_set_back) = [r]
        /\ status r = "SENT"
        /\ created_at r = Some 100
        /\ sent_at r = Some 50
        /\ ~ ordered r).
Proof.
  split; [reflexivity | ]. split; [reflexivity | ]. split.
  - eexists. split; [vm_compute; reflexivity | ].
    split; [reflexivity | ].
    assert (Hr : forall r, status r = "ACCEPTED" -> reached r "SENT").
    { intros r Hs. reached_yes Hs. }
    split; [apply Hr; reflexivity | ].
    split; [reflexivity | ].
    intro Hclaim.
    destruct (Hclaim "SENT") as [_ Hback]; [right; left; reflexivity | ].
    apply Hback; [apply Hr; reflexivity | reflexivity].
  - eexists. split; [vm_compute; reflexivity | ].
    repeat split. intros (Hcs & _). cbn in Hcs. lia.
Qed.

End HistoryFacts.

(** ** The connection registry *)

Module RegistryFacts.
Import ConnectionManager BroadcastSpec.

Lemma list_contains_In (x : WebSocket) (xs : list WebSocket) :
  list_contains x xs = true <-> In x xs.
Proof.
  unfold list_contains. rewrite existsb_exists. split.
  - intros (y & Hy & E). apply Z.eqb_eq in E. subst. exact Hy.
  - intro H. exists x. split; [exact H | apply Z.eqb_refl].
Qed.

Lemma list_remove_absent (x : WebSocket) (xs : list WebSocket) :
  ~ In x xs -> list_remove x xs = xs.
Proof.
  induction xs as [|y rest IH]; cbn [list_remove In]; intro H; [reflexivity | ].
  destruct (Z.eqb_spec x y) as [E | E]; [exfalso; apply H; left; auto | ].
  f_equal. apply IH. tauto.
Qed.

Lemma list_remove_length (x : WebSocket) (xs : list WebSocket) :
  In x xs -> S (List.length (list_remove x xs)) = List.length xs.
Proof.
  induction xs as [|y rest IH]; cbn [list_remove In List.length]; [tauto | ].
  intro H. destruct (Z.eqb_spec x y) as [E | E]; [reflexivity | ].
  cbn [List.length]. f_equal. apply IH. destruct H; [congruence | assumption].
Qed.

Lemma list_remove_count (x : WebSocket) (xs : list WebSocket) :
  count_occ Z.eq_dec (list_remove x xs) x = pred (count_occ Z.eq_dec xs x).
Proof.
  induction xs as [|y rest IH]; cbn [list_remove count_occ]; [reflexivity | ].
  destruct (Z.eqb_spec x y) as [E | E].
  - subst. destruct (Z.eq_dec y y); [reflexivity | contradiction].
  - cbn [count_occ]. destruct (Z.eq_dec y x); [congruence | exact IH].
Qed.

(** [disconnect] always returns, and leaves the list with the first
    occurrence of the connection removed. *)
Lemma disconnect_spec (w : WebSocket) (s : Manager) :
  disconnect w s
  = (Return tt,
     {| active_connections := list_remove w (active_connections s);
        wire := wire s |}).
Proof.
  unfold disconnect.
  destruct (list_contains w (active_connections s)) eqn:E; [reflexivity | ].
  rewrite list_remove_absent; [destruct s; reflexivity | ].
  intro H. apply list_contains_In in H. congruence.
Qed.

Lemma list_remove_In (x c : WebSocket) (xs : list WebSocket) :
  In c (list_remove x xs) -> In c xs.
Proof.
  induction xs as [|y rest IH]; cbn [list_remove In]; [tauto | ].
  destruct (x =? y); cbn [In]; tauto.
Qed.

Lemma list_remove_NoDup (x : WebSocket) (xs : list WebSocket) :
  NoDup xs -> NoDup (list_remove x xs).
Proof.
  induction 1 as [|y rest Hy Hnd IH]; cbn [list_remove]; [constructor | ].
  destruct (x =? y); [exact Hnd | ].
  constructor; [ | exact IH]. intro H. apply Hy. eapply list_remove_In, H.
Qed.

Lemma removed_twice_iff (w : WebSocket) (xs : list WebSocket) :
  list_remove w (list_remove w xs) = list_remove w xs
  <-> (count_occ Z.eq_dec xs w <= 1)%nat.
Proof.
  split.
  - intro Heq.
    destruct (le_gt_dec (count_occ Z.eq_dec xs w) 1) as [Hle | Hgt]; [exact Hle | ].
    exfalso.
    assert (Hin : In w (list_remove w xs)).
    { apply (count_occ_In Z.eq_dec). rewrite list_remove_count. lia. }
    apply list_remove_length in Hin. rewrite Heq in Hin. lia.
  - intro Hle. apply list_remove_absent.
    apply (count_occ_not_In Z.eq_dec). rewrite list_remove_count. lia.
Qed.

(** [disconnect] never raises; with a connection that is not in the list
    it changes nothing; and a second call with the same connection leaves
    the registry as the first call left it exactly when the connection was
    in the list at most once. *)
Lemma disconnect_twice (s : Manager) (w : WebSocket) :
  fst (disconnect w s) = Return tt
  /\ fst (disconnect w (unsubscribed_once s w)) = Return tt
  /\ (~ In w (active_connections s) -> disconnect w s = (Return tt, s))
  /\ (unsubscribed_twice s w = unsubscribed_once s w
      <-> (count_occ Z.eq_dec (active_connections s) w <= 1)%nat).
Proof.
  unfold unsubscribed_twice, unsubscribed_once.
  rewrite !disconnect_spec. cbn [fst snd active_connections wire].
  repeat match goal with |- _ /\ _ => split end; try reflexivity.
  - intro Hnot. rewrite list_remove_absent by exact Hnot. destruct s; reflexivity.
  - split.
    + intro H. apply removed_twice_iff. congruence.
    + intro H. apply removed_twice_iff in H. rewrite H. reflexivity.
Qed.

(** C9.  The registry holds each live connection once: [connect] is
    called once per WebSocket object and appends it only after [accept]
    returned, and [disconnect], [send_personal_message] and [broadcast]
    only remove entries.  On every such registry and for every
    connection, [disconnect] never raises, a second call leaves the
    registry exactly as the first call left it, a call with a connection
    that is not registered leaves the registry (and the wire) exactly as
    it was, and after a call the connection is not registered and the
    registry still holds each connection once. *)
Theorem disconnect_idempotent (s : Manager) (w : WebSocket)
    (Hreg : NoDup (active_connections s)) :
  fst (disconnect w s) = Return tt
  /\ fst (disconnect w (unsubscribed_once s w)) = Return tt
  /\ unsubscribed_twice s w = unsubscribed_once s w
  /\ (~ In w (active_connections s) -> disconnect w s = (Return tt, s))
  /\ (~ In w (active_connections s) -> unsubscribed_once s w = s)
  /\ ~ In w (active_connections (unsubscribed_once s w))
  /\ NoDup (active_connections (unsubscribed_once s w)).
Proof.
  destruct (disconnect_twice s w) as (Hr1 & Hr2 & Habsent & Hiff).
  assert (Hle : (count_occ Z.eq_dec (active_connections s) w <= 1)%nat)
    by (apply NoDup_count_occ; exact Hreg).
  repeat match goal with |- _ /\ _ => split end; auto.
  - apply Hiff, Hle.
  - intro Hnot. unfold unsubscribed_once. rewrite (Habsent Hnot). reflexivity.
  - unfold unsubscribed_once. rewrite disconnect_spec. cbn [snd active_connections].
    apply (count_occ_not_In Z.eq_dec). rewrite list_remove_count. lia.
  - unfold unsubscribed_once. rewrite disconnect_spec. cbn [snd active_connections].
    apply list_remove_NoDup, Hreg.
Qed.

(** On three subscribers: the second is removed by the first call, and a
    second call changes nothing; a connection that never subscribed is
    ignored. *)
Lemma disconnect_idempotent_three_subscribers :
  unsubscribed_twice three_subscribers 12 = unsubscribed_once three_subscribers 12
  /\ active_connections (unsubscribed_once three_subscribers 12) = [11; 13]
  /\ disconnect 99 three_subscribers = (Return tt, three_subscribers).
Proof.
  assert (Hreg : NoDup (active_connections three_subscribers))
    by (repeat constructor; cbn; intuition discriminate).
  destruct (disconnect_idempotent three_subscribers 12 Hreg) as (_ & _ & Htwice & _).
  destruct (disconnect_idempotent three_subscribers 99 Hreg) as (_ & _ & _ & Habsent & _).
  split; [exact Htwice | ]. split; [reflexivity | ].
  apply Habsent. cbn. intuition discriminate.
Defined.

Section Broadcast.

Variable send_fails : WebSocket -> Json -> option Exception.
Variable message : Json.

(** The first loop of [broadcast]: every connection is tried, in order,
    whatever happened to the ones before; those whose [send_json] raised
    are collected. *)
Lemma send_loop (conns : list WebSocket) :
  forall (acc : list WebSocket) (s : Manager),
    for_in conns
      (fun connection disconnected =>
         try_except (send_json send_fails connection message ;;; ret disconnected)
                    (fun _ => ret (disconnected ++ [connection])%list))
      acc s
    = (Return (acc ++ filter (fun c => negb (delivers send_fails message c)) conns)%list,
       {| active_connections := active_connections s;
          wire := (wire s ++ map (attempt_on send_fails message) conns)%list |}).
Proof.
  induction conns as [|c rest IH]; intros acc s.
  - cbn [for_in filter map]. unfold ret. rewrite !app_nil_r. destruct s; reflexivity.
  - cbn [for_in filter map]. unfold bind at 1.
    unfold try_except, bind, send_json, ret, attempt_on, delivers.
    destruct (send_fails c message) as [e|] eqn:E; cbn [negb].
    + fold (attempt_on send_fails message). rewrite IH.
      cbn [active_connections wire]. rewrite <- !app_assoc. reflexivity.
    + fold (attempt_on send_fails message). rewrite IH.
      cbn [active_connections wire]. rewrite <- !app_assoc. reflexivity.
Qed.

(** The second loop of [broadcast]: one [disconnect] per collected
    connection. *)
Lemma disconnect_loop (disconnected : list WebSocket) :
  forall (s : Manager),
    for_in disconnected (fun connection _ => disconnect connection) tt s
    = (Return tt,
       {| active_connections :=
            fold_left (fun l c => list_remove c l) disconnected (active_connections s);
          wire := wire s |}).
Proof.
  induction disconnected as [|c rest IH]; intro s.
  - cbn [for_in fold_left]. unfold ret. destruct s; reflexivity.
  - cbn [for_in fold_left]. unfold bind. rewrite disconnect_spec.
    rewrite IH. reflexivity.
Qed.

Lemma remove_others_cons (x : WebSocket) (ds : list WebSocket) :
  forall l, Forall (fun c => c <> x) ds ->
    fold_left (fun l c => list_remove c l) ds (x :: l)
    = x :: fold_left (fun l c => list_remove c l) ds l.
Proof.
  induction ds as [|d rest IH]; intros l Hall; cbn [fold_left]; [reflexivity | ].
  inversion Hall as [|? ? Hd Hrest]; subst.
  cbn [list_remove]. destruct (Z.eqb_spec d x) as [E | E]; [contradiction | ].
  apply IH, Hrest.
Qed.

(** Removing, one by one, the connections that failed leaves those that
    did not, in their order. *)
Lemma remove_failed (conns : list WebSocket) :
  fold_left (fun l c => list_remove c l)
    (filter (fun c => negb (delivers send_fails message c)) conns) conns
  = filter (delivers send_fails message) conns.
Proof.
  induction conns as [|x rest IH]; cbn [filter]; [reflexivity | ].
  destruct (delivers send_fails message x) eqn:E; cbn [negb].
  - rewrite remove_others_cons; [rewrite IH; reflexivity | ].
    apply Forall_forall. intros c Hc. apply filter_In in Hc.
    destruct Hc as [_ Hc]. intro Heq. subst c. rewrite E in Hc. discriminate.
  - cbn [fold_left list_remove]. rewrite Z.eqb_refl. exact IH.
Qed.

Lemma broadcast_spec (self : Manager) :
  broadcast send_fails message self
  = (Return tt,
     {| active_connections :=
          filter (delivers send_fails message) (active_connections self);
        wire :=
          (wire self
           ++ map (attempt_on send_fails message) (active_connections self))%list |}).
Proof.
  unfold broadcast, bind. rewrite send_loop. cbn [app].
  rewrite disconnect_loop. cbn [active_connections wire].
  rewrite remove_failed. reflexivity.
Qed.

End Broadcast.

(** A registry without repetition stays so: under [connect] of a
    connection that is not registered yet, under [disconnect], and under
    [broadcast]. *)
Lemma registry_without_repetition
    (accept_fails : WebSocket -> option Exception)
    (send_fails : WebSocket -> Json -> option Exception) (s : Manager) :
  NoDup (active_connections s) ->
  (forall w, ~ In w (active_connections s) ->
     NoDup (active_connections (snd (connect accept_fails w s))))
  /\ (forall w, NoDup (active_connections (snd (disconnect w s))))
  /\ (forall message,
        NoDup (active_connections (snd (broadcast send_fails message s)))).
Proof.
  intro Hnd. repeat split.
  - intros w Hw. unfold connect, bind, accept, ret, raise.
    destruct (accept_fails w); cbn [snd active_connections]; [exact Hnd | ].
    apply NoDup_app; [exact Hnd | repeat constructor; intros [] | ].
    intros a Ha [<- | []]. contradiction.
  - intro w. rewrite disconnect_spec. apply list_remove_NoDup, Hnd.
  - intro message. rewrite broadcast_spec. apply NoDup_filter, Hnd.
Qed.

(** Every state the manager goes through holds each connection once. *)
Lemma live_without_repetition
    (accept_fails : WebSocket -> option Exception)
    (send_fails : WebSocket -> Json -> option Exception) (s : Manager) :
  live accept_fails send_fails s -> NoDup (active_connections s).
Proof.
  induction 1 as [ | s w _ IH Hnot | s w _ IH | s message w _ IH | s message _ IH].
  - constructor.
  - apply (registry_without_repetition accept_fails send_fails s IH), Hnot.
  - apply (registry_without_repetition accept_fails send_fails s IH).
  - unfold send_personal_message, try_except, send_json, bind, raise.
    destruct (send_fails w message); [ | exact IH].
    rewrite disconnect_spec. cbn [snd active_connections].
    apply list_remove_NoDup, IH.
  - apply (registry_without_repetition accept_fails send_fails s IH).
Qed.


(** C8.  For every payload, every registry and every behaviour of the far
    ends, one call of [broadcast], run without interruption:
    - returns without raising;
    - calls [send_json] once for each entry of the registry, in order,
      whether or not the calls before it raised (the wire shows one
      attempt per entry);
    - leaves in the registry exactly the connections whose [send_json]
      went through, in their order: every connection whose [send_json]
      raised is gone, every one whose [send_json] went through is still
      there, and nothing else was added. *)
Theorem broadcast_isolates_failures
    (send_fails : WebSocket -> Json -> option Exception)
    (message : Json) (self : Manager) :
  fst (broadcast send_fails message self) = Return tt
  /\ wire (snd (broadcast send_fails message self))
     = (wire self ++ map (attempt_on send_fails message) (active_connections self))%list
  /\ map att_conn (map (attempt_on send_fails message) (active_connections self))
     = active_connections self
  /\ active_connections (snd (broadcast send_fails message self))
     = filter (delivers send_fails message) (active_connections self)
  /\ (forall c, In c (active_connections self) ->
        delivers send_fails message c = false ->
        ~ In c (active_connections (snd (broadcast send_fails message self))))
  /\ (forall c, In c (active_connections self) ->
        delivers send_fails message c = true ->
        In c (active_connections (snd (broadcast send_fails message self))))
  /\ (forall c, In c (active_connections (snd (broadcast send_fails message self))) ->
        In c (active_connections self)).
Proof.
  rewrite broadcast_spec. cbn [fst snd active_connections wire].
  repeat match goal with |- _ /\ _ => split end; try reflexivity.
  - rewrite map_map. cbn [attempt_on att_conn]. apply map_id.
  - intros c _ Hf Hin. apply filter_In in Hin. destruct Hin as [_ Hd]. congruence.
  - intros c Hin Hd. apply filter_In. auto.
  - intros c Hin. apply filter_In in Hin. tauto.
Qed.

(** Three subscribers, the second one closed: the first and the third
    receive the payload, the second is dropped. *)
Example broadcast_three_subscribers :
  broadcast second_closed (JStr "event") three_subscribers
  = (Return tt,
     {| active_connections := [11; 13];
        wire := [mkAttempt 11 (JStr "event") true;
                 mkAttempt 12 (JStr "event") false;
                 mkAttempt 13 (JStr "event") true] |}).
Proof. reflexivity. Qed.

(** The same, read off the general statement. *)
Lemma broadcast_isolates_failures_three_subscribers :
  fst (broadcast second_closed (JStr "event") three_subscribers) = Return tt
  /\ active_connections (snd (broadcast second_closed (JStr "event") three_subscribers))
     = [11; 13]
  /\ map att_conn (wire (snd (broadcast second_closed (JStr "event") three_subscribers)))
     = [11; 12; 13].
Proof.
  destruct (broadcast_isolates_failures second_closed (JStr "event") three_subscribers)
    as (Hret & Hwire & _ & Hreg & _).
  split; [exact Hret | ]. split.
  - rewrite Hreg. reflexivity.
  - rewrite Hwire. reflexivity.
Defined.

End RegistryFacts.

(** ** Writing the triage level *)

Module TriageWriteFacts.
Import TriageService TriageWrites RepeatFacts.

Lemma replace_patient_again (id : Z) (p' : Patient) (ps : list Patient) :
  p_id p' = id ->
  replace_patient id p' (replace_patient id p' ps) = replace_patient id p' ps.
Proof.
  intro Hid. induction ps as [|x rest IH]; cbn [replace_patient]; [reflexivity | ].
  destruct (p_id x =? id) eqn:E; cbn [replace_patient].
  - rewrite Hid, Z.eqb_refl. reflexivity.
  - rewrite E, IH. reflexivity.
Qed.

Lemma find_replace_patient_other (id id' : Z) (p' : Patient) (ps : list Patient) :
  p_id p' = id -> id' <> id ->
  find (fun x => p_id x =? id') (replace_patient id p' ps)
  = find (fun x => p_id x =? id') ps.
Proof.
  intros Hid Hne. induction ps as [|x rest IH]; cbn [replace_patient find];
    [reflexivity | ].
  destruct (p_id x =? id) eqn:E; cbn [find].
  - apply Z.eqb_eq in E.
    replace (p_id p' =? id') with false by (symmetry; apply Z.eqb_neq; lia).
    replace (p_id x =? id') with false by (symmetry; apply Z.eqb_neq; lia).
    reflexivity.
  - rewrite IH. reflexivity.
Qed.

(** The assessment reads the vitals only. *)
Lemma assess_after_set (p : Patient) (l : string) :
  assess_triage_level (set_triage_level p l) = assess_triage_level p.
Proof. reflexivity. Qed.

(** X1.  [update_patient_triage] raises the not-found [ValueError] and
    writes nothing when the patient is not stored.  Otherwise it returns
    the patient with the assessed level, stores that row under the same
    key, leaves every other patient, the health centres and the referrals
    as they were (it never creates a referral), and a second call changes
    nothing more: it returns the same patient and the same session. *)
Theorem update_patient_triage_stores_level (db : Session) (pid : Z) :
  (query_patient db pid = None ->
     update_patient_triage db pid
     = (Raise (ValueError ("Patient with ID " ++ str_int pid ++ " not found")), db))
  /\ (forall p, query_patient db pid = Some p ->
        fst (update_patient_triage db pid)
        = Return (set_triage_level p (assess_triage_level p))
        /\ query_patient (snd (update_patient_triage db pid)) pid
           = Some (set_triage_level p (assess_triage_level p)))
  /\ (forall id, id <> pid ->
        query_patient (snd (update_patient_triage db pid)) id = query_patient db id)
  /\ health_centers (snd (update_patient_triage db pid)) = health_centers db
  /\ referrals (snd (update_patient_triage db pid)) = referrals db
  /\ update_patient_triage (snd (update_patient_triage db pid)) pid
     = update_patient_triage db pid.
Proof.
  unfold update_patient_triage.
  destruct (query_patient db pid) as [p|] eqn:Hp.
  - pose proof (query_patient_id _ _ _ Hp) as Hid.
    set (p' := set_triage_level p (assess_triage_level p)).
    assert (Hid' : p_id p' = pid) by exact Hid.
    assert (Hq' : query_patient (commit_patient db p') pid = Some p')
      by (apply query_patient_after_commit with (p := p); assumption).
    cbn [fst snd]. repeat match goal with |- _ /\ _ => split end.
    + discriminate.
    + intros p0 Hp0. injection Hp0 as <-. split; [reflexivity | exact Hq'].
    + intros id Hne. unfold query_patient, commit_patient. cbn [patients].
      rewrite Hid'. apply find_replace_patient_other; assumption.
    + reflexivity.
    + reflexivity.
    + rewrite Hq'.
      change (set_triage_level p' (assess_triage_level p')) with p'.
      f_equal. unfold commit_patient. cbn [patients health_centers referrals].
      rewrite Hid'. rewrite replace_patient_again by exact Hid'. reflexivity.
  - cbn [fst snd]. rewrite Hp.
    repeat match goal with |- _ /\ _ => split end; try reflexivity.
    intros p Hp'. discriminate.
Qed.

(** On the sample data: the patient whose only reading is an oxygen
    saturation of 90.0 is stored as URGENT. *)
Lemma update_patient_triage_demo :
  let db := {| patients := [Examples.patient_borderline];
               health_centers := Examples.seeded_centers; referrals := [] |} in
  map triage_level (patients (snd (update_patient_triage db 3))) = [Some "URGENT"]
  /\ fst (update_patient_triage db 9)
     = Raise (ValueError "Patient with ID 9 not found").
Proof.
  intro db.
  destruct (update_patient_triage_stores_level db 3) as (_ & Hs & _).
  destruct (update_patient_triage_stores_level db 9) as (Hn & _).
  split.
  - destruct (Hs Examples.patient_borderline eq_refl) as (_ & Hq).
    reflexivity.
  - rewrite (Hn eq_refl). reflexivity.
Defined.

End TriageWriteFacts.

(** ** Case files *)

Module CaseFacts.
Import ReferralService LifecycleSpec LifecycleFacts CreationSpec CreationFacts.
Import HistorySpec HistoryFacts CaseSpec RepeatFacts.

Lemma find_replace_row_other (id id' : Z) (r' : Referral) (rs : list Referral) :
  r_id r' = id -> id' <> id ->
  find (fun x => r_id x =? id') (replace_row id r' rs)
  = find (fun x => r_id x =? id') rs.
Proof.
  intros Hid Hne. induction rs as [|x rest IH]; cbn [replace_row find];
    [reflexivity | ].
  destruct (r_id x =? id) eqn:E; cbn [find].
  - apply Z.eqb_eq in E.
    replace (r_id r' =? id') with false by (symmetry; apply Z.eqb_neq; lia).
    replace (r_id x =? id') with false by (symmetry; apply Z.eqb_neq; lia).
    reflexivity.
  - rewrite IH. reflexivity.
Qed.

Lemma Forall2_replace_row (R : Referral -> Referral -> Prop) (id : Z)
    (r r' : Referral) (rs : list Referral) :
  (forall x, R x x) ->
  find (fun x => r_id x =? id) rs = Some r ->
  R r r' ->
  Forall2 R rs (replace_row id r' rs).
Proof.
  intros Hrefl Hf Hr.
  assert (Hall : forall l, Forall2 R l l) by (induction l; constructor; auto).
  induction rs as [|x rest IH]; simpl in *; [constructor | ].
  destruct (r_id x =? id).
  - injection Hf as ->. constructor; [exact Hr | apply Hall].
  - constructor; [apply Hrefl | apply IH, Hf].
Qed.

(** The three transitions, run one after the other on a referral that is
    CREATED. *)
Lemma chain_runs (db : Session) (id by_user : Z) (r : Referral) (t1 t2 t3 : datetime) :
  query_referral db id = Some r ->
  status r = "CREATED" ->
  let db1 := commit_referral db (set_sent r t1) in
  let db2 := commit_referral db1 (set_accepted (set_sent r t1) t2 by_user) in
  let r3 := set_transferred (set_accepted (set_sent r t1) t2 by_user) t3 in
  send_referral db id t1 = (Return (set_sent r t1), db1)
  /\ accept_referral db1 id by_user t2
     = (Return (set_accepted (set_sent r t1) t2 by_user), db2)
  /\ mark_transferred db2 id t3 = (Return r3, commit_referral db2 r3)
  /\ query_referral (commit_referral db2 r3) id = Some r3.
Proof.
  intros Hq Hs db1 db2 r3.
  pose proof (query_referral_id _ _ _ Hq) as Hid.
  assert (Hq1 : query_referral db1 id = Some (set_sent r t1))
    by (apply query_after_commit with (r := r); assumption).
  assert (Hq2 : query_referral db2 id = Some (set_accepted (set_sent r t1) t2 by_user))
    by (apply query_after_commit with (r := set_sent r t1); assumption).
  repeat match goal with |- _ /\ _ => split end.
  - destruct (send_referral_cases db id r t1 Hq) as [[_ E] | [N _]];
      [exact E | contradiction].
  - destruct (accept_referral_cases db1 id by_user _ t2 Hq1)
      as [[_ E] | (_ & N & _)]; [exact E | exfalso; apply N; reflexivity].
  - destruct (mark_transferred_cases db2 id _ t3 Hq2) as [[_ E] | [N _]];
      [exact E | exfalso; apply N; reflexivity].
  - apply query_after_commit with (r := set_accepted (set_sent r t1) t2 by_user);
      assumption.
Qed.

(** X2.  On a stored referral that is CREATED, [send_referral], then
    [accept_referral], then [mark_transferred], each called on the session
    the one before left, all go through; the row read back at the end is
    TRANSFERRED, carries the three clock readings and the accepter, and has
    every other column as it was before the first call. *)
Theorem send_accept_transfer_chain (db : Session) (id by_user : Z) (r : Referral)
    (t1 t2 t3 : datetime)
    (Hq : query_referral db id = Some r) (Hs : status r = "CREATED") :
  exists db1 db2 db3 r1 r2,
    send_referral db id t1 = (Return r1, db1)
    /\ accept_referral db1 id by_user t2 = (Return r2, db2)
    /\ mark_transferred db2 id t3
       = (Return
            {| r_id := r_id r; patient_id := patient_id r;
               from_center_id := from_center_id r; to_center_id := to_center_id r;
               status := "TRANSFERRED"; priority := priority r; reason := reason r;
               clinical_notes := clinical_notes r; created_at := created_at r;
               sent_at := Some t1; accepted_at := Some t2;
               transferred_at := Some t3; created_by := created_by r;
               accepted_by := Some by_user |}, db3)
    /\ query_referral db3 id
       = Some
           {| r_id := r_id r; patient_id := patient_id r;
              from_center_id := from_center_id r; to_center_id := to_center_id r;
              status := "TRANSFERRED"; priority := priority r; reason := reason r;
              clinical_notes := clinical_notes r; created_at := created_at r;
              sent_at := Some t1; accepted_at := Some t2;
              transferred_at := Some t3; created_by := created_by r;
              accepted_by := Some by_user |}
    /\ List.length (referrals db3) = List.length (referrals db).
Proof.
  destruct (chain_runs db id by_user r t1 t2 t3 Hq Hs) as (E1 & E2 & E3 & E4).
  do 5 eexists. split; [exact E1 | ]. split; [exact E2 | ]. split; [exact E3 | ].
  split; [exact E4 | ].
  unfold commit_referral. cbn [referrals with_referrals].
  assert (Hlen : forall i x l, List.length (replace_row i x l) = List.length l).
  { intros i x l. induction l as [|y rest IH]; cbn [replace_row List.length];
      [reflexivity | ].
    destruct (r_id y =? i); cbn [List.length]; congruence. }
  rewrite !Hlen. reflexivity.
Qed.

(** On the sample data. *)
Lemma send_accept_transfer_chain_demo :
  exists db3,
    map status (referrals db3) = ["TRANSFERRED"]
    /\ map sent_at (referrals db3) = [Some 160]
    /\ query_referral db3 1
       = Some (set_transferred
                 (set_accepted (set_sent Examples.first_referral 160) 250 Examples.doctor)
                 900).
Proof.
  destruct (send_accept_transfer_chain Examples.demo_created 1 Examples.doctor
              Examples.first_referral 160 250 900 eq_refl eq_refl)
    as (db1 & db2 & db3 & r1 & r2 & E1 & E2 & E3 & E4 & _).
  exists db3.
  vm_compute in E1. injection E1 as <- <-.
  vm_compute in E2. injection E2 as <- <-.
  vm_compute in E3. injection E3 as <-.
  repeat split.
Defined.

Lemma forward_refl (s : string) : forward s s.
Proof. left. reflexivity. Qed.

Lemma same_case_refl (r : Referral) : same_case r r.
Proof. unfold same_case. repeat split; try reflexivity. apply forward_refl. Qed.

Lemma forward_step (s s' : string) (i j : nat) :
  stage_index s = Some i -> stage_index s' = Some j -> (i < j)%nat -> forward s s'.
Proof. intros Hi Hj Hlt. right. exists i, j. auto. Qed.

Lemma same_case_sent (r : Referral) (now : datetime) :
  status r = "CREATED" -> same_case r (set_sent r now).
Proof.
  intro Hs. unfold same_case. cbn. repeat split; try reflexivity.
  rewrite Hs. apply (forward_step _ _ 0 1); [reflexivity | reflexivity | lia].
Qed.

Lemma same_case_accepted (r : Referral) (now : datetime) (by_user : Z) :
  status r = "CREATED" \/ status r = "SENT" -> same_case r (set_accepted r now by_user).
Proof.
  intro Hs. unfold same_case. cbn. repeat split; try reflexivity.
  destruct Hs as [Hs | Hs]; rewrite Hs.
  - apply (forward_step _ _ 0 2); [reflexivity | reflexivity | lia].
  - apply (forward_step _ _ 1 2); [reflexivity | reflexivity | lia].
Qed.

Lemma same_case_transferred (r : Referral) (now : datetime) :
  status r = "ACCEPTED" -> same_case r (set_transferred r now).
Proof.
  intro Hs. unfold same_case. cbn. repeat split; try reflexivity.
  rewrite Hs. apply (forward_step _ _ 2 3); [reflexivity | reflexivity | lia].
Qed.

Lemma Forall2_same_case_keys (old kept : list Referral) :
  Forall2 same_case old kept -> map r_id kept = map r_id old.
Proof.
  induction 1 as [|x y l l' Hxy _ IH]; cbn [map]; [reflexivity | ].
  destruct Hxy as (Hid & _). rewrite Hid, IH. reflexivity.
Qed.

(** X3.  No request to the referral service removes a row, rewrites what
    was fixed at creation, or moves a status back.  After any one request
    (a creation, an automatic creation, a send, an accept, a transfer, or
    a rewrite of the other tables), served at any clock reading, the table
    holds the rows it held, in place, each with its key, patient, origin,
    destination, priority, reason, notes, creation time and creator as
    they were and with its status unchanged or moved forward along
    CREATED, SENT, ACCEPTED, TRANSFERRED, followed by at most one new row;
    and keys that were distinct stay distinct. *)
Theorem requests_keep_case_files (db : Session) (now : datetime) (rq : Request) :
  exists kept added,
    referrals (serve db now rq) = (kept ++ added)%list
    /\ Forall2 same_case (referrals db) kept
    /\ (List.length added <= 1)%nat
    /\ Forall (fun r => status r = "CREATED" /\ r_id r = next_id (referrals db)) added
    /\ (NoDup (map r_id (referrals db)) ->
        NoDup (map r_id (referrals (serve db now rq)))).
Proof.
  assert (Hsame : forall l, Forall2 same_case l l)
    by (induction l; constructor; auto using same_case_refl).
  assert (Hstay : forall kept,
             Forall2 same_case (referrals db) kept ->
             NoDup (map r_id (referrals db)) -> NoDup (map r_id (kept ++ []))).
  { intros kept Hk Hnd. rewrite app_nil_r, (Forall2_same_case_keys _ _ Hk). exact Hnd. }
  destruct (serve_effect db now rq) as [ | p to_id uid why notes
    | id r Hq Hs | id by_user r Hq Hs | id r Hq Hs].
  - exists (referrals db), []. rewrite app_nil_r.
    repeat split; auto.
  - exists (referrals db), [fresh_referral db p to_id uid why notes now].
    repeat split; auto.
    intro Hnd. rewrite map_app. cbn [map fresh_referral r_id].
    apply NoDup_app; [exact Hnd | repeat constructor; intros [] | ].
    intros a Ha [<- | []]. apply in_map_iff in Ha. destruct Ha as (x & Hx & Hin).
    apply next_id_above in Hin. lia.
  - assert (Hk : Forall2 same_case (referrals db)
                   (replace_row id (set_sent r now) (referrals db))).
    { apply (Forall2_replace_row same_case id r); auto using same_case_refl.
      apply same_case_sent, Hs. }
    eexists _, []. rewrite app_nil_r. repeat split; auto.
    rewrite <- (app_nil_r (replace_row _ _ _)). apply Hstay, Hk.
  - assert (Hk : Forall2 same_case (referrals db)
                   (replace_row id (set_accepted r now by_user) (referrals db))).
    { apply (Forall2_replace_row same_case id r); auto using same_case_refl.
      apply same_case_accepted, Hs. }
    eexists _, []. rewrite app_nil_r. repeat split; auto.
    rewrite <- (app_nil_r (replace_row _ _ _)). apply Hstay, Hk.
  - assert (Hk : Forall2 same_case (referrals db)
                   (replace_row id (set_transferred r now) (referrals db))).
    { apply (Forall2_replace_row same_case id r); auto using same_case_refl.
      apply same_case_transferred, Hs. }
    eexists _, []. rewrite app_nil_r. repeat split; auto.
    rewrite <- (app_nil_r (replace_row _ _ _)). apply Hstay, Hk.
Qed.

(** X4.  A transition on a key that is not stored raises the not-found
    [ValueError] and writes nothing; a transition on a stored key, whether
    it goes through or is refused, leaves the row stored under every other
    key exactly as it was. *)
Theorem transitions_touch_one_row (db : Session) (id by_user : Z) (now : datetime) :
  (query_referral db id = None ->
     send_referral db id now
     = (Raise (ValueError ("Referral with ID " ++ str_int id ++ " not found")), db)
     /\ accept_referral db id by_user now
        = (Raise (ValueError ("Referral with ID " ++ str_int id ++ " not found")), db)
     /\ mark_transferred db id now
        = (Raise (ValueError ("Referral with ID " ++ str_int id ++ " not found")), db))
  /\ (forall id', id' <> id ->
        query_referral (snd (send_referral db id now)) id' = query_referral db id'
        /\ query_referral (snd (accept_referral db id by_user now)) id'
           = query_referral db id'
        /\ query_referral (snd (mark_transferred db id now)) id'
           = query_referral db id').
Proof.
  split.
  - intro Hq. unfold send_referral, accept_referral, mark_transferred.
    rewrite Hq. auto.
  - intros id' Hne.
    destruct (query_referral db id) as [r|] eqn:Hq.
    + pose proof (query_referral_id _ _ _ Hq) as Hid.
      assert (Hother : forall r', r_id r' = id ->
                query_referral (commit_referral db r') id' = query_referral db id').
      { intros r' Hr'. unfold query_referral, commit_referral.
        cbn [referrals with_referrals]. rewrite Hr'.
        apply find_replace_row_other; assumption. }
      repeat split.
      * destruct (send_referral_cases db id r now Hq) as [[_ E] | [_ E]]; rewrite E;
          [apply Hother; exact Hid | reflexivity].
      * destruct (accept_referral_cases db id by_user r now Hq)
          as [[_ E] | (_ & _ & E)]; rewrite E;
          [apply Hother; exact Hid | reflexivity].
      * destruct (mark_transferred_cases db id r now Hq) as [[_ E] | [_ E]]; rewrite E;
          [apply Hother; exact Hid | reflexivity].
    + unfold send_referral, accept_referral, mark_transferred. rewrite Hq. auto.
Qed.

Lemma find_app_fresh (id : Z) (rs : list Referral) (r : Referral) :
  ~ In id (map r_id rs) -> r_id r = id ->
  find (fun x => r_id x =? id) (rs ++ [r]) = Some r.
Proof.
  intros Hnot Hid. induction rs as [|x rest IH]; cbn [app find].
  - rewrite Hid, Z.eqb_refl. reflexivity.
  - cbn [map In] in Hnot.
    replace (r_id x =? id) with false by (symmetry; apply Z.eqb_neq; tauto).
    apply IH. tauto.
Qed.

Lemma find_app_found (id : Z) (rs extra : list Referral) (x : Referral) :
  find (fun y => r_id y =? id) rs = Some x ->
  find (fun y => r_id y =? id) (rs ++ extra) = Some x.
Proof.
  induction rs as [|y rest IH]; cbn [app find]; [discriminate | ].
  destruct (r_id y =? id); auto.
Qed.

(** X5.  A referral that [create_referral] returns is stored under a key
    no row had before, reads back under that key as returned, hides no row
    that could be read before, and leaves the patients and the health
    centres as they were. *)
Theorem created_referral_reads_back (db db' : Session) (pid to_id uid : Z)
    (why notes : option string) (now : datetime) (r : Referral)
    (Hc : create_referral db pid to_id uid why notes now = (Return r, db')) :
  query_referral db' (r_id r) = Some r
  /\ ~ In (r_id r) (map r_id (referrals db))
  /\ query_referral db (r_id r) = None
  /\ (forall id x, query_referral db id = Some x -> query_referral db' id = Some x)
  /\ patients db' = patients db
  /\ health_centers db' = health_centers db.
Proof.
  apply create_referral_returns in Hc.
  destruct Hc as (p & f & t & _ & _ & _ & _ & -> & ->).
  set (r := fresh_referral db p to_id uid why notes now).
  assert (Hfresh : ~ In (r_id r) (map r_id (referrals db))).
  { intro Hin. apply in_map_iff in Hin. destruct Hin as (x & Hx & Hin).
    apply next_id_above in Hin. cbn [r fresh_referral r_id] in Hx. lia. }
  repeat match goal with |- _ /\ _ => split end; try reflexivity.
  - unfold query_referral, insert_referral. cbn [referrals with_referrals].
    apply find_app_fresh; [exact Hfresh | reflexivity].
  - exact Hfresh.
  - unfold query_referral.
    destruct (find (fun x => r_id x =? r_id r) (referrals db)) as [x|] eqn:E;
      [ | reflexivity].
    exfalso. apply Hfresh. apply find_some in E. destruct E as [Hin Hid].
    apply Z.eqb_eq in Hid. rewrite <- Hid. apply in_map, Hin.
  - intros id x Hx. unfold query_referral, insert_referral.
    cbn [referrals with_referrals]. apply find_app_found, Hx.
Qed.

(** On the sample data: the second referral gets key 2 and both read
    back. *)
Lemma created_referral_reads_back_demo :
  exists r,
    r_id r = 2
    /\ query_referral Examples.demo_two 2 = Some r
    /\ query_referral Examples.demo_two 1 = Some Examples.first_referral.
Proof.
  destruct (create_referral Examples.demo_created 2 4 Examples.doctor None None 180)
    as [[r|e] db'] eqn:E; [ | vm_compute in E; discriminate].
  destruct (created_referral_reads_back _ _ _ _ _ _ _ _ _ E) as (Hr & _ & _ & Hold & _).
  assert (Hdb : db' = Examples.demo_two)
    by (unfold Examples.demo_two; rewrite E; reflexivity).
  subst db'. exists r. split; [ | split].
  - vm_compute in E. injection E as <-. reflexivity.
  - replace 2 with (r_id r) by (vm_compute in E; injection E as <-; reflexivity).
    exact Hr.
  - apply Hold. reflexivity.
Defined.

Lemma shape_rerouted (t : datetime) (r : Referral) (chu_id : Z) :
  lifecycle_shape t r -> lifecycle_shape t (AssignmentService.set_to_center r chu_id).
Proof. intro H. exact H. Qed.

(** The three ways [assign_referral_to_chu] ends on a stored referral. *)
Lemma assign_cases (db : Session) (id chu_id : Z) (r : Referral) :
  query_referral db id = Some r ->
  ((exists chu, query_health_center db chu_id = Some chu /\ center_type chu = "CHU")
   /\ AssignmentService.assign_referral_to_chu db id chu_id
      = (Return (AssignmentService.set_to_center r chu_id),
         commit_referral db (AssignmentService.set_to_center r chu_id)))
  \/ ((query_health_center db chu_id = None
       \/ exists h, query_health_center db chu_id = Some h /\ center_type h <> "CHU")
      /\ AssignmentService.assign_referral_to_chu db id chu_id
         = (Raise (ValueError "Destination must be a CHU"), db)).
Proof.
  intro Hq. unfold AssignmentService.assign_referral_to_chu. rewrite Hq.
  destruct (query_health_center db chu_id) as [chu|].
  - destruct (String.eqb_spec (center_type chu) "CHU") as [E | E]; cbn [negb].
    + left. split; [exists chu; auto | reflexivity].
    + right. split; [right; exists chu; auto | reflexivity].
  - right. split; [left; reflexivity | reflexivity].
Qed.

(** X6.  [assign_referral_to_chu] looks up the referral first (not found:
    the not-found [ValueError]), then the centre: a centre that is not
    stored or is not a CHU gives the [ValueError] "Destination must be a
    CHU"; in both cases nothing is written.  Otherwise it goes through in
    whatever status the referral is: the stored row changes in its
    destination only (status, priority, origin, patient and the four
    timestamps are as they were, so the relation between status and
    timestamps is kept), it reads back as returned, and every other row is
    untouched. *)
Theorem assignment_changes_destination_only (db : Session) (id chu_id : Z) :
  (query_referral db id = None ->
     AssignmentService.assign_referral_to_chu db id chu_id
     = (Raise (ValueError ("Referral with ID " ++ str_int id ++ " not found")), db))
  /\ (forall r, query_referral db id = Some r ->
        (query_health_center db chu_id = None
         \/ exists h, query_health_center db chu_id = Some h /\ center_type h <> "CHU") ->
        AssignmentService.assign_referral_to_chu db id chu_id
        = (Raise (ValueError "Destination must be a CHU"), db))
  /\ (forall r chu, query_referral db id = Some r ->
        query_health_center db chu_id = Some chu -> center_type chu = "CHU" ->
        exists r',
          AssignmentService.assign_referral_to_chu db id chu_id
          = (Return r', commit_referral db r')
          /\ rerouted r r' chu_id
          /\ query_referral (commit_referral db r') id = Some r'
          /\ (forall t, lifecycle_shape t r -> lifecycle_shape t r')
          /\ (forall id', id' <> id ->
                query_referral (commit_referral db r') id' = query_referral db id')
          /\ map status (referrals (commit_referral db r')) = map status (referrals db)).
Proof.
  repeat match goal with |- _ /\ _ => split end.
  - intro Hq. unfold AssignmentService.assign_referral_to_chu. rewrite Hq. reflexivity.
  - intros r Hq Hbad.
    destruct (assign_cases db id chu_id r Hq) as [[(chu & Hc & Hty) _] | [_ E]];
      [ | exact E].
    destruct Hbad as [Hn | (h & Hh & Hne)]; congruence.
  - intros r chu Hq Hc Hty.
    pose proof (query_referral_id _ _ _ Hq) as Hid.
    exists (AssignmentService.set_to_center r chu_id).
    repeat match goal with |- _ /\ _ => split end; try reflexivity.
    + destruct (assign_cases db id chu_id r Hq)
        as [[_ E] | [[Hn | (h & Hh & Hne)] _]]; [exact E | congruence | congruence].
    + unfold rerouted. repeat split.
    + apply query_after_commit with (r := r); assumption.
    + intros t Hsh. apply shape_rerouted, Hsh.
    + intros id' Hne. unfold query_referral, commit_referral.
      cbn [referrals with_referrals AssignmentService.set_to_center r_id].
      rewrite Hid. apply find_replace_row_other; [exact Hid | exact Hne].
    + unfold commit_referral.
      cbn [referrals with_referrals AssignmentService.set_to_center r_id].
      rewrite Hid. apply map_replace_row with (r := r); [exact Hq | reflexivity].
Qed.

(** On the sample data: the first referral, sent to the first CHU, is
    rerouted to the second one; a Centre de Santé is refused. *)
Lemma assignment_changes_destination_only_demo :
  (exists r',
     AssignmentService.assign_referral_to_chu Examples.demo_created 1 4
     = (Return r', commit_referral Examples.demo_created r')
     /\ to_center_id r' = 4 /\ status r' = "CREATED")
  /\ AssignmentService.assign_referral_to_chu Examples.demo_created 1 2
     = (Raise (ValueError "Destination must be a CHU"), Examples.demo_created).
Proof.
  destruct (assignment_changes_destination_only Examples.demo_created 1 4)
    as (_ & _ & Hok).
  destruct (assignment_changes_destination_only Examples.demo_created 1 2)
    as (_ & Hbad & _).
  split.
  - destruct (Hok Examples.first_referral Examples.chu_mohammed_vi
                eq_refl eq_refl eq_refl) as (r' & E & Hr & _).
    exists r'. split; [exact E | ].
    destruct Hr as (-> & _). split; reflexivity.
  - apply (Hbad Examples.first_referral eq_refl).
    right. exists Examples.centre_al_kindi. split; [reflexivity | discriminate].
Defined.

(** X16.  TRANSFERRED is final: no request to the referral service
    (creation, automatic creation, send, accept, transfer, rewrite of the
    other tables) changes any column of a stored referral whose status is
    TRANSFERRED. *)
Theorem transferred_is_final (db : Session) (now : datetime) (rq : Request) :
  exists kept added,
    referrals (serve db now rq) = (kept ++ added)%list
    /\ Forall2 closed_case_kept (referrals db) kept.
Proof.
  assert (Hrefl : forall x, closed_case_kept x x) by (intros x _; reflexivity).
  assert (Hsame : forall l, Forall2 closed_case_kept l l)
    by (induction l; constructor; auto).
  destruct (serve_effect db now rq) as [ | p to_id uid why notes
    | id r Hq Hs | id by_user r Hq Hs | id r Hq Hs].
  - exists (referrals db), []. rewrite app_nil_r. auto.
  - eexists (referrals db), _. auto.
  - eexists _, []. rewrite app_nil_r. split; [reflexivity | ].
    apply (Forall2_replace_row closed_case_kept id r); auto.
    intro Hfinal. rewrite Hs in Hfinal. discriminate.
  - eexists _, []. rewrite app_nil_r. split; [reflexivity | ].
    apply (Forall2_replace_row closed_case_kept id r); auto.
    intro Hfinal. destruct Hs as [Hs | Hs]; rewrite Hs in Hfinal; discriminate.
  - eexists _, []. rewrite app_nil_r. split; [reflexivity | ].
    apply (Forall2_replace_row closed_case_kept id r); auto.
    intro Hfinal. rewrite Hs in Hfinal. discriminate.
Qed.

Lemma find_first {A : Type} (f : A -> bool) (l : list A) (x : A) :
  find f l = Some x ->
  exists before after,
    l = (before ++ x :: after)%list /\ Forall (fun y => f y = false) before.
Proof.
  induction l as [|y rest IH]; cbn [find]; [discriminate | ].
  destruct (f y) eqn:E.
  - intro H. injection H as ->. exists [], rest. split; [reflexivity | constructor].
  - intro H. destruct (IH H) as (before & after & -> & Hall).
    exists (y :: before), after. split; [reflexivity | constructor; assumption].
Qed.

(** X18.  [find_available_chu] returns no centre exactly when no stored
    centre is a CHU; otherwise it returns the first CHU in storage order.
    Every referral that automatic creation returns goes to the centre
    [find_available_chu] returns. *)
Theorem find_available_chu_is_first (db : Session) :
  (AssignmentService.find_available_chu db = None
   <-> forall h, In h (health_centers db) -> center_type h <> "CHU")
  /\ (forall chu, AssignmentService.find_available_chu db = Some chu ->
        center_type chu = "CHU"
        /\ exists before after,
             health_centers db = (before ++ chu :: after)%list
             /\ Forall (fun h => center_type h <> "CHU") before)
  /\ (forall pid uid now r db',
        auto_create_referral_for_critical_patient db pid uid now
        = (Return (Some r), db') ->
        exists chu, AssignmentService.find_available_chu db = Some chu
                    /\ to_center_id r = hc_id chu).
Proof.
  unfold AssignmentService.find_available_chu, query_center_of_type.
  repeat match goal with |- _ /\ _ => split end.
  - split.
    + intros Hnone h Hin Hty.
      apply (find_none _ _ Hnone) in Hin. cbv beta in Hin.
      rewrite Hty in Hin. discriminate.
    + intro Hall.
      destruct (find _ (health_centers db)) as [h|] eqn:E; [ | reflexivity].
      apply find_some in E. destruct E as [Hin Hty].
      apply String.eqb_eq in Hty. exfalso. exact (Hall h Hin Hty).
  - intros chu Hfind. split.
    + apply find_some in Hfind. apply String.eqb_eq. tauto.
    + destruct (find_first _ _ _ Hfind) as (before & after & Heq & Hall).
      exists before, after. split; [exact Heq | ].
      eapply Forall_impl; [ | exact Hall]. cbv beta. intros h Hh.
      apply String.eqb_neq. exact Hh.
  - intros pid uid now r db' Hauto.
    unfold auto_create_referral_for_critical_patient in Hauto.
    destruct (query_patient db pid) as [p|]; [ | discriminate].
    destruct (negb (TriageService.should_create_referral p db)); [discriminate | ].
    unfold query_center_of_type in Hauto.
    destruct (find _ (health_centers db)) as [chu|]; [ | discriminate].
    exists chu. split; [reflexivity | ].
    destruct (create_referral db pid (hc_id chu) uid _ _ now) as [[r0|e] db0] eqn:E;
      [ | discriminate].
    injection Hauto as <- <-.
    apply create_referral_returns in E.
    destruct E as (p' & f & t & _ & _ & _ & _ & -> & _). reflexivity.
Qed.

End CaseFacts.

(** ** Listings *)

Module ListingFacts.
Import ReferralQueries ListingSpec.

Lemma not_smaller_total (a b : option datetime) :
  not_smaller a b = false -> not_smaller b a = true.
Proof.
  destruct a as [x|], b as [y|]; cbn; intro H; try reflexivity; try discriminate.
  apply Z.leb_le. apply Z.leb_gt in H. lia.
Qed.

Lemma not_smaller_trans (a b c : option datetime) :
  not_smaller a b = true -> not_smaller b c = true -> not_smaller a c = true.
Proof.
  destruct a as [x|], b as [y|], c as [z|]; cbn; intros H1 H2;
    try reflexivity; try discriminate.
  apply Z.leb_le. apply Z.leb_le in H1. apply Z.leb_le in H2. lia.
Qed.

Lemma insert_desc_perm (r : Referral) (rs : list Referral) :
  Permutation (insert_desc r rs) (r :: rs).
Proof.
  induction rs as [|x rest IH]; cbn [insert_desc]; [apply Permutation_refl | ].
  destruct (not_smaller (created_at r) (created_at x)); [apply Permutation_refl | ].
  eapply perm_trans; [apply perm_skip, IH | apply perm_swap].
Qed.

Lemma order_by_perm (rs : list Referral) :
  Permutation (order_by_created_at_desc rs) rs.
Proof.
  unfold order_by_created_at_desc.
  induction rs as [|x rest IH]; cbn [fold_right]; [constructor | ].
  eapply perm_trans; [apply insert_desc_perm | apply perm_skip, IH].
Qed.

Lemma insert_desc_sorted (r : Referral) (rs : list Referral) :
  StronglySorted newest_first rs -> StronglySorted newest_first (insert_desc r rs).
Proof.
  induction 1 as [|x rest Hs IH Hall]; cbn [insert_desc].
  - constructor; constructor.
  - destruct (not_smaller (created_at r) (created_at x)) eqn:E.
    + constructor; [constructor; assumption | ].
      constructor; [exact E | ].
      eapply Forall_impl; [ | exact Hall]. intros y Hy.
      unfold newest_first in *. eapply not_smaller_trans; eassumption.
    + constructor; [exact IH | ].
      apply (Permutation_Forall (Permutation_sym (insert_desc_perm r rest))).
      constructor; [ | exact Hall].
      unfold newest_first. apply not_smaller_total, E.
Qed.

Lemma order_by_sorted (rs : list Referral) :
  StronglySorted newest_first (order_by_created_at_desc rs).
Proof.
  unfold order_by_created_at_desc.
  induction rs as [|x rest IH]; cbn [fold_right]; [constructor | ].
  apply insert_desc_sorted, IH.
Qed.

Lemma order_by_In (rs : list Referral) (r : Referral) :
  In r (order_by_created_at_desc rs) <-> In r rs.
Proof.
  split; apply Permutation_in;
    [apply order_by_perm | apply Permutation_sym, order_by_perm].
Qed.

Lemma truthy_string_value (sf : option string) :
  truthy_string sf = true -> sf = Some (str_opt sf).
Proof.
  destruct sf as [[|a s]|]; cbn; intro H; try discriminate. reflexivity.
Qed.

(** X7.  [get_referrals_by_status] returns, newest first, exactly the
    stored referrals whose status is the one asked for, each as many times
    as it is stored; asked with no status, or with the empty string, it
    returns all of them. *)
Theorem referrals_by_status_listing (db : Session) (status_filter : option string) :
  StronglySorted newest_first (get_referrals_by_status db status_filter)
  /\ (forall s, status_filter = Some s -> s <> "" ->
        Permutation (get_referrals_by_status db status_filter)
          (filter (fun r => String.eqb (status r) s) (referrals db))
        /\ forall r, In r (get_referrals_by_status db status_filter)
                     <-> In r (referrals db) /\ status r = s)
  /\ (status_filter = None \/ status_filter = Some "" ->
        Permutation (get_referrals_by_status db status_filter) (referrals db)).
Proof.
  unfold get_referrals_by_status. split; [apply order_by_sorted | ]. split.
  - intros s -> Hne. destruct s as [|a s]; [contradiction | ].
    cbn [truthy_string str_opt]. split; [apply order_by_perm | ].
    intro r. rewrite order_by_In, filter_In, String.eqb_eq. reflexivity.
  - intros [-> | ->]; cbn [truthy_string]; apply order_by_perm.
Qed.

(** X8.  [get_referrals_for_center] with direction ["to"] returns, newest
    first, exactly the stored referrals whose destination is the centre;
    with any other direction (["from"] or not), exactly those whose origin
    is the centre. *)
Theorem referrals_for_center_listing (db : Session) (center_id : Z)
    (direction : string) :
  StronglySorted newest_first (get_referrals_for_center db center_id direction)
  /\ (direction = "to" ->
        Permutation (get_referrals_for_center db center_id direction)
          (filter (fun r => to_center_id r =? center_id) (referrals db))
        /\ forall r, In r (get_referrals_for_center db center_id direction)
                     <-> In r (referrals db) /\ to_center_id r = center_id)
  /\ (direction <> "to" ->
        Permutation (get_referrals_for_center db center_id direction)
          (filter (fun r => from_center_id r =? center_id) (referrals db))
        /\ forall r, In r (get_referrals_for_center db center_id direction)
                     <-> In r (referrals db) /\ from_center_id r = center_id).
Proof.
  unfold get_referrals_for_center. split; [apply order_by_sorted | ]. split.
  - intros ->. change (String.eqb "to" "to") with true. cbv iota zeta.
    split; [apply order_by_perm | ].
    intro r. rewrite order_by_In, filter_In, Z.eqb_eq. reflexivity.
  - intro Hne. apply String.eqb_neq in Hne. rewrite Hne.
    split; [apply order_by_perm | ].
    intro r. rewrite order_by_In, filter_In, Z.eqb_eq. reflexivity.
Qed.

Lemma skipn_In_inv {A : Type} (n : nat) (l : list A) (x : A) :
  In x (skipn n l) -> In x l.
Proof.
  revert l. induction n as [|n IH]; intros l H; [exact H | ].
  destruct l as [|y rest]; [exact H | ]. right. apply IH, H.
Qed.

Lemma firstn_In_inv {A : Type} (n : nat) (l : list A) (x : A) :
  In x (firstn n l) -> In x l.
Proof.
  revert l. induction n as [|n IH]; intros l H; [destruct H | ].
  destruct l as [|y rest]; [exact H | ].
  destruct H as [H | H]; [left; exact H | right; apply IH, H].
Qed.

Lemma offset_limit_In {A : Type} (skip limit : Z) (rows : list A) (x : A) :
  In x (offset_limit skip limit rows) -> In x rows.
Proof.
  unfold offset_limit. intro H.
  destruct (limit <? 0).
  - eapply skipn_In_inv. exact H.
  - eapply skipn_In_inv. eapply firstn_In_inv. exact H.
Qed.

Lemma offset_limit_length {A : Type} (skip limit : Z) (rows : list A) :
  0 <= limit -> Z.of_nat (List.length (offset_limit skip limit rows)) <= limit.
Proof.
  intro Hl. unfold offset_limit.
  replace (limit <? 0) with false by (symmetry; apply Z.ltb_ge; lia).
  pose proof (firstn_le_length (Z.to_nat limit) (skipn (Z.to_nat skip) rows)). lia.
Qed.

Lemma offset_limit_all {A : Type} (skip limit : Z) (rows : list A) :
  skip <= 0 -> limit < 0 \/ Z.of_nat (List.length rows) <= limit ->
  offset_limit skip limit rows = rows.
Proof.
  intros Hs Hl. unfold offset_limit.
  replace (Z.to_nat skip) with 0%nat by lia. cbn [skipn].
  destruct (Z.ltb_spec limit 0) as [E | E]; [reflexivity | ].
  apply firstn_all2. lia.
Qed.

Lemma StronglySorted_skipn {A : Type} (R : A -> A -> Prop) (n : nat) (l : list A) :
  StronglySorted R l -> StronglySorted R (skipn n l).
Proof.
  revert l. induction n as [|n IH]; intros l H; [exact H | ].
  destruct l as [|x rest]; [exact H | ]. cbn [skipn]. apply IH.
  inversion H; assumption.
Qed.

Lemma StronglySorted_firstn {A : Type} (R : A -> A -> Prop) (n : nat) (l : list A) :
  StronglySorted R l -> StronglySorted R (firstn n l).
Proof.
  revert l. induction n as [|n IH]; intros l H; [constructor | ].
  destruct l as [|x rest]; [constructor | ]. cbn [firstn].
  inversion H as [|? ? Hs Hall]; subst. constructor; [apply IH, Hs | ].
  rewrite Forall_forall in *. intros y Hy. apply Hall. eapply firstn_In_inv, Hy.
Qed.

Lemma offset_limit_sorted {A : Type} (R : A -> A -> Prop) (skip limit : Z)
    (rows : list A) :
  StronglySorted R rows -> StronglySorted R (offset_limit skip limit rows).
Proof.
  intro H. unfold offset_limit. destruct (limit <? 0).
  - apply StronglySorted_skipn, H.
  - apply StronglySorted_firstn, StronglySorted_skipn, H.
Qed.

(** The filter by role of the two reading routes. *)
Lemma role_filter_visible (u : User) (rs : list Referral) (r : Referral) :
  In r (if String.eqb (role u) "nurse" && truthy_int (u_health_center_id u)
        then filter (fun r => eq_centre (from_center_id r) (u_health_center_id u)) rs
        else if String.eqb (role u) "doctor" && truthy_int (u_health_center_id u)
        then filter (fun r => eq_centre (to_center_id r) (u_health_center_id u)) rs
        else rs)
  <-> In r rs /\ visible_to u r.
Proof.
  unfold visible_to, truthy_int, eq_centre.
  destruct (u_health_center_id u) as [k|].
  - destruct (k =? 0); cbn [negb].
    + rewrite !andb_false_r. tauto.
    + rewrite !andb_true_r.
      destruct (String.eqb (role u) "nurse").
      * rewrite filter_In, Z.eqb_eq. tauto.
      * destruct (String.eqb (role u) "doctor").
        -- rewrite filter_In, Z.eqb_eq. tauto.
        -- tauto.
  - rewrite !andb_false_r. tauto.
Qed.

Lemma status_filter_In (sf : option string) (rs : list Referral) (r : Referral) :
  In r (if truthy_string sf
        then filter (fun r => String.eqb (status r) (str_opt sf)) rs
        else rs)
  <-> In r rs /\ (truthy_string sf = true -> status r = str_opt sf).
Proof.
  destruct (truthy_string sf).
  - rewrite filter_In, String.eqb_eq. tauto.
  - split; [intro H; split; [exact H | discriminate] | tauto].
Qed.

(** X9.  GET /referrals shows a user attached to a centre nothing but that
    centre's referrals: a nurse only referrals that leave the centre, a
    doctor only referrals that arrive there; a user without a centre, or
    with another role, is shown any referral.  What is listed is stored,
    has the status asked for when one is asked for, comes newest first,
    and is at most [limit] rows when [limit] is not negative; with no
    offset and no effective limit, every stored referral the user may see
    is listed. *)
Theorem list_referrals_visibility (app : App) (status_filter : option string)
    (skip limit : Z) (u : User) :
  (forall r, In r (ReferralRoutes.list_referrals app status_filter skip limit u) ->
     In r (referrals (session app))
     /\ visible_to u r
     /\ (truthy_string status_filter = true -> status r = str_opt status_filter))
  /\ StronglySorted newest_first
       (ReferralRoutes.list_referrals app status_filter skip limit u)
  /\ (0 <= limit ->
        Z.of_nat (List.length (ReferralRoutes.list_referrals app status_filter skip limit u))
        <= limit)
  /\ (skip <= 0 ->
      limit < 0 \/ Z.of_nat (List.length (referrals (session app))) <= limit ->
      forall r, In r (referrals (session app)) -> visible_to u r ->
        (truthy_string status_filter = true -> status r = str_opt status_filter) ->
        In r (ReferralRoutes.list_referrals app status_filter skip limit u)).
Proof.
  unfold ReferralRoutes.list_referrals. cbv zeta.
  repeat match goal with |- _ /\ _ => split end.
  - intros r Hin. apply offset_limit_In in Hin.
    apply (proj1 (order_by_In _ _)) in Hin. apply (proj1 (status_filter_In _ _ _)) in Hin.
    destruct Hin as [Hin Hst]. apply (proj1 (role_filter_visible _ _ _)) in Hin. tauto.
  - apply offset_limit_sorted, order_by_sorted.
  - apply offset_limit_length.
  - intros Hskip Hlimit r Hin Hvis Hst.
    rewrite offset_limit_all; [ | exact Hskip | ].
    + apply (proj2 (order_by_In _ _)). apply (proj2 (status_filter_In _ _ _)).
      split; [ | exact Hst].
      apply (proj2 (role_filter_visible _ _ _)). tauto.
    + destruct Hlimit as [Hl | Hl]; [left; exact Hl | right].
      rewrite (Permutation_length (order_by_perm _)).
      match goal with
      | |- Z.of_nat (List.length (if ?c then filter ?f ?l else ?l)) <= _ =>
          assert (Hle : (List.length (if c then filter f l else l) <= List.length l)%nat)
            by (destruct c; [apply filter_length_le | lia])
      end.
      match type of Hle with
      | (_ <= List.length ?l)%nat =>
          assert (Hle' : (List.length l <= List.length (referrals (session app)))%nat)
      end.
      { repeat match goal with
               | |- context [if ?c then _ else _] => destruct c
               end; try apply filter_length_le; lia. }
      lia.
Qed.

Lemma find_by_key (rs : list Referral) (r : Referral) :
  NoDup (map r_id rs) -> In r rs ->
  find (fun x => r_id x =? r_id r) rs = Some r.
Proof.
  induction rs as [|x rest IH]; cbn [map In find]; [tauto | ].
  intros Hnd Hin. inversion Hnd as [|? ? Hnot Hnd']; subst.
  destruct Hin as [-> | Hin].
  - rewrite Z.eqb_refl. reflexivity.
  - destruct (Z.eqb_spec (r_id x) (r_id r)) as [E | E]; [ | apply IH; assumption].
    exfalso. apply Hnot. rewrite E. apply in_map, Hin.
Qed.

Lemma get_referral_cases (app : App) (id : Z) (u : User) (r : Referral) :
  query_referral (session app) id = Some r ->
  (visible_to u r /\ ReferralRoutes.get_referral app id u = Return r)
  \/ (~ visible_to u r
      /\ exists detail,
           ReferralRoutes.get_referral app id u = Raise (HTTPException 403 detail)).
Proof.
  intro Hq. unfold ReferralRoutes.get_referral. rewrite Hq. cbv zeta.
  unfold visible_to, truthy_int, eq_centre.
  destruct (u_health_center_id u) as [k|]; [ | rewrite !andb_false_r; left; auto].
  destruct (k =? 0); cbn [negb]; [rewrite !andb_false_r; left; auto | ].
  rewrite !andb_true_r.
  destruct (String.eqb (role u) "nurse").
  - destruct (Z.eqb_spec (from_center_id r) k) as [E | E]; cbn [negb];
      [left; auto | right; split; [exact E | eexists; reflexivity]].
  - destruct (String.eqb (role u) "doctor"); [ | left; auto].
    destruct (Z.eqb_spec (to_center_id r) k) as [E | E]; cbn [negb];
      [left; auto | right; split; [exact E | eexists; reflexivity]].
Qed.

(** X10.  GET /referrals/{id} answers 404 for a key that is not stored,
    403 for a stored referral the user may not see (a nurse attached to a
    centre the referral does not leave, a doctor attached to a centre it
    does not arrive at), and the stored referral otherwise; it never
    returns a referral the user may not see.  With distinct keys, every
    referral that GET /referrals lists for a user opens for that user. *)
Theorem get_referral_access (app : App) (id : Z) (u : User) :
  (query_referral (session app) id = None ->
     ReferralRoutes.get_referral app id u
     = Raise (HTTPException 404 ("Referral with ID " ++ str_int id ++ " not found")))
  /\ (forall r, query_referral (session app) id = Some r -> visible_to u r ->
        ReferralRoutes.get_referral app id u = Return r)
  /\ (forall r, query_referral (session app) id = Some r -> ~ visible_to u r ->
        exists detail,
          ReferralRoutes.get_referral app id u = Raise (HTTPException 403 detail))
  /\ (forall r, ReferralRoutes.get_referral app id u = Return r ->
        query_referral (session app) id = Some r /\ visible_to u r)
  /\ (NoDup (map r_id (referrals (session app))) ->
      forall status_filter skip limit r,
        In r (ReferralRoutes.list_referrals app status_filter skip limit u) ->
        ReferralRoutes.get_referral app (r_id r) u = Return r).
Proof.
  repeat match goal with |- _ /\ _ => split end.
  - intro Hq. unfold ReferralRoutes.get_referral. rewrite Hq. reflexivity.
  - intros r Hq Hv.
    destruct (get_referral_cases app id u r Hq) as [[_ E] | [N _]];
      [exact E | contradiction].
  - intros r Hq Hv.
    destruct (get_referral_cases app id u r Hq) as [[V _] | [_ E]];
      [contradiction | exact E].
  - intros r E.
    destruct (query_referral (session app) id) as [r0|] eqn:Hq.
    + destruct (get_referral_cases app id u r0 Hq) as [[V E'] | [_ (d & E')]];
        rewrite E' in E; [ | discriminate].
      injection E as <-. auto.
    + unfold ReferralRoutes.get_referral in E. rewrite Hq in E. discriminate.
  - intros Hnd sf skip limit r Hin.
    assert (Hin' : In r (referrals (session app)) /\ visible_to u r).
    { unfold ReferralRoutes.list_referrals in Hin. cbv zeta in Hin.
      apply offset_limit_In in Hin. apply (proj1 (order_by_In _ _)) in Hin.
      apply (proj1 (status_filter_In _ _ _)) in Hin. destruct Hin as [Hin _].
      apply (proj1 (role_filter_visible _ _ _)) in Hin. exact Hin. }
    destruct Hin' as [Hstored Hv].
    assert (Hq : query_referral (session app) (r_id r) = Some r)
      by (apply find_by_key; assumption).
    destruct (get_referral_cases app (r_id r) u r Hq) as [[_ E] | [N _]];
      [exact E | contradiction].
Qed.

(** On the sample data, with one referral from the first Centre de Santé
    to the first CHU and one from that CHU to the second CHU: the nurse of
    the first centre is shown the first only. *)
Lemma list_referrals_visibility_demo :
  let app := {| session := Examples.demo_two; manager := ConnectionManager.init |} in
  map r_id (ReferralRoutes.list_referrals app None 0 100 Examples.nurse1) = [1]
  /\ map r_id (ReferralRoutes.list_referrals app None 0 100 Examples.doctor1) = [1]
  /\ (forall r, In r (ReferralRoutes.list_referrals app None 0 100 Examples.nurse1) ->
        from_center_id r = 1).
Proof.
  intro app.
  destruct (list_referrals_visibility app None 0 100 Examples.nurse1) as (Hvis & _).
  split; [reflexivity | ]. split; [reflexivity | ].
  intros r Hin. destruct (Hvis r Hin) as (_ & Hv & _). exact Hv.
Defined.

(** On the same data: the nurse of the first centre opens the first
    referral, a nurse of another centre may not, and an unknown key is a
    404. *)
Lemma get_referral_access_demo :
  let app := {| session := Examples.demo_two; manager := ConnectionManager.init |} in
  ReferralRoutes.get_referral app 1 Examples.nurse1 = Return Examples.first_referral
  /\ (exists detail,
        ReferralRoutes.get_referral app 1 Examples.nurse2
        = Raise (HTTPException 403 detail))
  /\ ReferralRoutes.get_referral app 7 Examples.nurse1
     = Raise (HTTPException 404 "Referral with ID 7 not found").
Proof.
  intro app.
  destruct (get_referral_access app 1 Examples.nurse1) as (_ & Hok & _).
  destruct (get_referral_access app 1 Examples.nurse2) as (_ & _ & Hno & _).
  destruct (get_referral_access app 7 Examples.nurse1) as (Hmiss & _).
  split; [apply Hok; reflexivity | ]. split.
  - apply (Hno Examples.first_referral); [reflexivity | ].
    cbn. discriminate.
  - apply Hmiss. reflexivity.
Defined.

(** On the same data: the listing by status. *)
Lemma referrals_by_status_demo :
  map r_id (get_referrals_by_status Examples.demo_two (Some "CREATED")) = [2; 1]
  /\ (forall r, In r (get_referrals_by_status Examples.demo_two (Some "SENT")) -> False).
Proof.
  destruct (referrals_by_status_listing Examples.demo_two (Some "SENT"))
    as (_ & Hsent & _).
  split; [reflexivity | ].
  intros r Hin.
  destruct (Hsent "SENT" eq_refl) as (_ & Hin'); [discriminate | ].
  apply Hin' in Hin. destruct Hin as [Hin Hs].
  destruct Hin as [<- | [<- | []]]; discriminate.
Defined.

(** On the same data: the listings of the first CHU. *)
Lemma referrals_for_center_demo :
  map r_id (get_referrals_for_center Examples.demo_two 3 "to") = [1]
  /\ map r_id (get_referrals_for_center Examples.demo_two 3 "from") = [2]
  /\ (forall r, In r (get_referrals_for_center Examples.demo_two 3 "outgoing") ->
        from_center_id r = 3).
Proof.
  destruct (referrals_for_center_listing Examples.demo_two 3 "outgoing")
    as (_ & _ & Hfrom).
  split; [reflexivity | ]. split; [reflexivity | ].
  intros r Hin. destruct Hfrom as (_ & Hin'); [discriminate | ].
  apply Hin' in Hin. tauto.
Defined.

End ListingFacts.

(** ** Subscribers *)

Module SubscriberFacts.
Import ConnectionManager BroadcastSpec RegistryFacts.

Lemma list_remove_last (w : WebSocket) (l : list WebSocket) :
  ~ In w l -> list_remove w (l ++ [w]) = l.
Proof.
  induction l as [|y rest IH]; cbn [app list_remove In]; intro H.
  - rewrite Z.eqb_refl. reflexivity.
  - destruct (Z.eqb_spec w y) as [E | E]; [exfalso; apply H; left; auto | ].
    f_equal. apply IH. tauto.
Qed.

(** X11.  [connect] registers nothing and lets the exception through when
    [accept] raises.  When [accept] returns, the connection is appended at
    the end of the registry and nothing is put on the wire; for a
    connection that was not registered, a registry without repetition
    stays without repetition, and a [disconnect] after the [connect]
    gives back the manager exactly as it was before. *)
Theorem connect_then_disconnect (accept_fails : WebSocket -> option Exception)
    (s : Manager) (w : WebSocket) :
  (forall e, accept_fails w = Some e -> connect accept_fails w s = (Raise e, s))
  /\ (accept_fails w = None ->
        connect accept_fails w s
        = (Return tt,
           {| active_connections := (active_connections s ++ [w])%list;
              wire := wire s |})
        /\ In w (active_connections (snd (connect accept_fails w s))))
  /\ (accept_fails w = None -> ~ In w (active_connections s) ->
        snd (disconnect w (snd (connect accept_fails w s))) = s
        /\ (NoDup (active_connections s) ->
            NoDup (active_connections (snd (connect accept_fails w s))))).
Proof.
  unfold connect, bind, accept, ret, raise. split; [ | split].
  - intros e He. rewrite He. reflexivity.
  - intro Hok. rewrite Hok. split; [reflexivity | ]. cbn [snd active_connections].
    apply in_or_app. right. left. reflexivity.
  - intros Hok Hnot. rewrite Hok. cbn [snd]. split.
    + rewrite disconnect_spec. cbn [snd active_connections wire].
      rewrite list_remove_last by exact Hnot. destruct s; reflexivity.
    + intro Hnd. cbn [active_connections].
      apply NoDup_app; [exact Hnd | repeat constructor; intros [] | ].
      intros a Ha [<- | []]. contradiction.
Qed.

(** X12.  [send_personal_message] returns when [send_json] goes through,
    and the registry is as it was.  When [send_json] raises, the same
    exception reaches the caller and one entry of that connection has left
    the registry: every other connection is registered as often as
    before, and a connection that was registered once is registered no
    more. *)
Theorem personal_message_failure_unregisters
    (send_fails : WebSocket -> Json -> option Exception)
    (message : Json) (w : WebSocket) (s : Manager) :
  (send_fails w message = None ->
     send_personal_message send_fails message w s
     = (Return tt,
        {| active_connections := active_connections s;
           wire := (wire s ++ [mkAttempt w message true])%list |}))
  /\ (forall e, send_fails w message = Some e ->
        fst (send_personal_message send_fails message w s) = Raise e
        /\ wire (snd (send_personal_message send_fails message w s))
           = (wire s ++ [mkAttempt w message false])%list
        /\ active_connections (snd (send_personal_message send_fails message w s))
           = list_remove w (active_connections s)
        /\ count_occ Z.eq_dec
             (active_connections (snd (send_personal_message send_fails message w s))) w
           = pred (count_occ Z.eq_dec (active_connections s) w)
        /\ (forall c, c <> w ->
              count_occ Z.eq_dec
                (active_connections (snd (send_personal_message send_fails message w s))) c
              = count_occ Z.eq_dec (active_connections s) c)
        /\ (NoDup (active_connections s) ->
              ~ In w (active_connections
                        (snd (send_personal_message send_fails message w s))))).
Proof.
  unfold send_personal_message, try_except, send_json. split.
  - intro Hok. rewrite Hok. reflexivity.
  - intros e He. rewrite He. unfold bind, raise. rewrite disconnect_spec.
    cbn [fst snd active_connections wire].
    repeat match goal with |- _ /\ _ => split end; try reflexivity.
    + apply list_remove_count.
    + intros c Hne. induction (active_connections s) as [|y rest IH];
        cbn [list_remove count_occ]; [reflexivity | ].
      destruct (Z.eqb_spec w y) as [E | E].
      * subst. destruct (Z.eq_dec y c); [congruence | reflexivity].
      * cbn [count_occ]. destruct (Z.eq_dec y c); rewrite IH; reflexivity.
    + intro Hnd. apply (count_occ_not_In Z.eq_dec). rewrite list_remove_count.
      assert (count_occ Z.eq_dec (active_connections s) w <= 1)%nat
        by (apply NoDup_count_occ; exact Hnd).
      lia.
Qed.

Lemma attempt_in_the_middle (send_fails : WebSocket -> Json -> option Exception)
    (message : Json) (c : WebSocket) (l : list WebSocket) :
  In c l ->
  exists before after,
    map (attempt_on send_fails message) l
    = (before ++ attempt_on send_fails message c :: after)%list.
Proof.
  intro Hin. apply in_split in Hin. destruct Hin as (l1 & l2 & ->).
  exists (map (attempt_on send_fails message) l1),
         (map (attempt_on send_fails message) l2).
  rewrite map_app. reflexivity.
Qed.

(** X13.  Two calls of [broadcast] in a row: the wire shows all attempts
    of the first payload before any attempt of the second; the second is
    tried only on the connections the first went through to; the registry
    holds at the end the connections both went through to; and each of
    these was handed the first payload before the second. *)
Theorem broadcasts_keep_order (send_fails : WebSocket -> Json -> option Exception)
    (m1 m2 : Json) (s : Manager) :
  let s1 := snd (broadcast send_fails m1 s) in
  let s2 := snd (broadcast send_fails m2 s1) in
  wire s2
  = (wire s
     ++ map (attempt_on send_fails m1) (active_connections s)
     ++ map (attempt_on send_fails m2)
          (filter (delivers send_fails m1) (active_connections s)))%list
  /\ active_connections s2
     = filter (fun c => delivers send_fails m1 c && delivers send_fails m2 c)
         (active_connections s)
  /\ (forall c, In c (active_connections s2) ->
        exists before between after,
          wire s2
          = (wire s ++ before ++ mkAttempt c m1 true :: between
             ++ mkAttempt c m2 true :: after)%list).
Proof.
  intros s1 s2. unfold s2, s1. rewrite !broadcast_spec.
  cbn [snd active_connections wire].
  assert (Hreg : filter (delivers send_fails m2)
                   (filter (delivers send_fails m1) (active_connections s))
                 = filter (fun c => delivers send_fails m1 c && delivers send_fails m2 c)
                     (active_connections s)).
  { induction (active_connections s) as [|x rest IH]; cbn [filter]; [reflexivity | ].
    destruct (delivers send_fails m1 x); cbn [filter andb]; [ | exact IH].
    destruct (delivers send_fails m2 x); rewrite IH; reflexivity. }
  split; [rewrite <- app_assoc; reflexivity | ]. split; [exact Hreg | ].
  intros c Hin. rewrite Hreg in Hin. apply filter_In in Hin.
  destruct Hin as [Hin Hd]. apply andb_true_iff in Hd. destruct Hd as [Hd1 Hd2].
  destruct (attempt_in_the_middle send_fails m1 c (active_connections s) Hin)
    as (b1 & a1 & E1).
  assert (Hin2 : In c (filter (delivers send_fails m1) (active_connections s)))
    by (apply filter_In; auto).
  destruct (attempt_in_the_middle send_fails m2 c _ Hin2) as (b2 & a2 & E2).
  exists b1, (a1 ++ b2)%list, a2.
  rewrite E1, E2. unfold attempt_on. rewrite Hd1, Hd2.
  rewrite <- !app_assoc. cbn [app]. rewrite <- ?app_assoc. reflexivity.
Qed.

End SubscriberFacts.

(** ** Routes *)

Module RouteFacts.
Import ReferralService CreationSpec CreationFacts RepeatFacts RegistryFacts RouteSpec.

Lemma send_referral_form (db : Session) (id : Z) (now : datetime) :
  returns_or_value_error db (send_referral db id now).
Proof.
  unfold returns_or_value_error, send_referral.
  destruct (query_referral db id) as [r|]; [ | right; eexists; reflexivity].
  destruct (negb _); [right; eexists; reflexivity | left; do 2 eexists; reflexivity].
Qed.

Lemma accept_referral_form (db : Session) (id by_user : Z) (now : datetime) :
  returns_or_value_error db (accept_referral db id by_user now).
Proof.
  unfold returns_or_value_error, accept_referral.
  destruct (query_referral db id) as [r|]; [ | right; eexists; reflexivity].
  destruct (negb _); [right; eexists; reflexivity | left; do 2 eexists; reflexivity].
Qed.

Lemma mark_transferred_form (db : Session) (id : Z) (now : datetime) :
  returns_or_value_error db (mark_transferred db id now).
Proof.
  unfold returns_or_value_error, mark_transferred.
  destruct (query_referral db id) as [r|]; [ | right; eexists; reflexivity].
  destruct (negb _); [right; eexists; reflexivity | left; do 2 eexists; reflexivity].
Qed.

Lemma create_referral_form (db : Session) (pid to_id uid : Z)
    (why notes : option string) (now : datetime) :
  returns_or_value_error db (create_referral db pid to_id uid why notes now).
Proof.
  unfold returns_or_value_error, create_referral.
  destruct (query_patient db pid) as [p|]; [ | right; eexists; reflexivity].
  destruct (query_health_center db (health_center_id p)) as [f|];
    [ | right; eexists; reflexivity].
  destruct (query_health_center db to_id) as [t|]; [ | right; eexists; reflexivity].
  destruct (negb _); [right; eexists; reflexivity | left; do 2 eexists; reflexivity].
Qed.

Lemma publish_broadcast (send_fails : WebSocket -> Json -> option Exception)
    (payload : Json) (referral : Referral) (db' : Session) (app : App) :
  ReferralRoutes.publish_and_return
    (ConnectionManager.broadcast send_fails payload) referral db' app
  = (Return referral,
     {| session := db';
        manager := snd (ConnectionManager.broadcast send_fails payload (manager app)) |}).
Proof.
  unfold ReferralRoutes.publish_and_return. rewrite broadcast_spec. reflexivity.
Qed.

(** How a route built as "service call, then one broadcast" reports. *)
Lemma route_reports (app : App) (service : call Referral)
    (payload : Referral -> Json)
    (route : (WebSocket -> Json -> option Exception) -> result Referral * App) :
  returns_or_value_error (session app) service ->
  (forall send_fails,
      route send_fails
      = match service with
        | (Return referral, db') =>
            ReferralRoutes.publish_and_return
              (ConnectionManager.broadcast send_fails (payload referral))
              referral db' app
        | (Raise e, db') =>
            ReferralRoutes.bad_request e {| session := db'; manager := manager app |}
        end) ->
  reports service route app.
Proof.
  intros [(r' & db' & ->) | (msg & ->)] Hroute; unfold reports.
  - intro send_fails. rewrite Hroute, publish_broadcast. cbn [fst snd session manager].
    repeat split. eexists. reflexivity.
  - intro send_fails. rewrite Hroute. unfold ReferralRoutes.bad_request.
    destruct app; reflexivity.
Qed.

(** X14.  The four writing routes of /referrals report their service call
    faithfully.  When the service returns a referral, the route returns
    it, the session is the one the service left, and exactly one broadcast
    was made, whichever subscribers fail: a committed creation or
    transition is never reported as failed for want of a subscriber.  When
    the service raises its [ValueError], the route raises a 400 with the
    same text, nothing is broadcast and the process is as it was. *)
Theorem writing_routes_report (app : App) (id : Z) (data : ReferralCreate)
    (u : User) (now : datetime) :
  reports (ReferralService.create_referral (session app) (rc_patient_id data)
             (rc_to_center_id data) (u_id u) (rc_reason data)
             (rc_clinical_notes data) now)
          (fun send_fails => ReferralRoutes.create_referral send_fails app data u now)
          app
  /\ reports (ReferralService.send_referral (session app) id now)
             (fun send_fails => ReferralRoutes.send_referral send_fails app id u now)
             app
  /\ reports (ReferralService.accept_referral (session app) id (u_id u) now)
             (fun send_fails => ReferralRoutes.accept_referral send_fails app id u now)
             app
  /\ reports (ReferralService.mark_transferred (session app) id now)
             (fun send_fails => ReferralRoutes.mark_transferred send_fails app id u now)
             app.
Proof.
  repeat match goal with |- _ /\ _ => split end.
  - eapply route_reports with
      (payload := fun referral =>
         JObj [("event", JStr "new_referral");
               ("data", JObj [("referral_id", JInt (r_id referral));
                              ("patient_id", JInt (patient_id referral));
                              ("status", JStr (status referral));
                              ("priority", JStr (priority referral))])]).
    + apply create_referral_form.
    + intro send_fails. unfold ReferralRoutes.create_referral.
      destruct (create_referral _ _ _ _ _ _ _) as [[r|e] db']; reflexivity.
  - eapply route_reports with
      (payload := fun referral =>
         JObj [("event", JStr "referral_status_changed");
               ("data",
                JObj (dict_update
                        [("referral_id", JInt (r_id referral));
                         ("status", JStr (status referral))]
                        [("referral_id", JInt (r_id referral));
                         ("patient_id", JInt (patient_id referral));
                         ("status", JStr (status referral))]))]).
    + apply send_referral_form.
    + intro send_fails. unfold ReferralRoutes.send_referral.
      destruct (send_referral _ _ _) as [[r|e] db']; reflexivity.
  - eapply route_reports with
      (payload := fun referral =>
         JObj [("event", JStr "referral_accepted");
               ("data", JObj [("referral_id", JInt (r_id referral));
                              ("patient_id", JInt (patient_id referral));
                              ("accepted_by", JStr (full_name u));
                              ("status", JStr (status referral))])]).
    + apply accept_referral_form.
    + intro send_fails. unfold ReferralRoutes.accept_referral.
      destruct (accept_referral _ _ _ _) as [[r|e] db']; reflexivity.
  - eapply route_reports with
      (payload := fun referral =>
         JObj [("event", JStr "referral_status_changed");
               ("data",
                JObj (dict_update
                        [("referral_id", JInt (r_id referral));
                         ("status", JStr (status referral))]
                        [("referral_id", JInt (r_id referral));
                         ("patient_id", JInt (patient_id referral));
                         ("status", JStr (status referral))]))]).
    + apply mark_transferred_form.
    + intro send_fails. unfold ReferralRoutes.mark_transferred.
      destruct (mark_transferred _ _ _) as [[r|e] db']; reflexivity.
Qed.

(** On the sample process, with the second subscriber closed: the send
    goes through and is reported, the closed subscriber is dropped; a
    transfer out of order is a 400 and changes nothing. *)
Lemma writing_routes_report_demo :
  fst (ReferralRoutes.send_referral BroadcastSpec.second_closed
         RouteExamples.demo_app 1 Examples.nurse1 160)
  = Return (set_sent Examples.first_referral 160)
  /\ active_connections
       (manager (snd (ReferralRoutes.send_referral BroadcastSpec.second_closed
                        RouteExamples.demo_app 1 Examples.nurse1 160)))
     = [11; 13]
  /\ ReferralRoutes.mark_transferred BroadcastSpec.second_closed
       RouteExamples.demo_app 1 Examples.nurse1 160
     = (Raise (HTTPException 400 "Cannot transfer referral with status CREATED"),
        RouteExamples.demo_app).
Proof.
  destruct (writing_routes_report RouteExamples.demo_app 1
              (mkReferralCreate 1 3 None None) Examples.nurse1 160)
    as (_ & Hsend & _ & Htransfer).
  split; [exact (proj1 (Hsend BroadcastSpec.second_closed)) | ].
  split; [reflexivity | ].
  exact (Htransfer BroadcastSpec.second_closed).
Defined.

(** The ways [auto_create_referral_for_critical_patient] ends. *)
Lemma auto_create_forms (db : Session) (pid uid : Z) (now : datetime) :
  auto_create_referral_for_critical_patient db pid uid now = (Return None, db)
  \/ (exists e, auto_create_referral_for_critical_patient db pid uid now = (Raise e, db))
  \/ (exists p to_id why notes,
        query_patient db pid = Some p
        /\ auto_create_referral_for_critical_patient db pid uid now
           = (Return (Some (fresh_referral db p to_id uid why notes now)),
              insert_referral db (fresh_referral db p to_id uid why notes now))).
Proof.
  unfold auto_create_referral_for_critical_patient.
  destruct (query_patient db pid) as [p|] eqn:Hp; [ | left; reflexivity].
  destruct (negb (TriageService.should_create_referral p db)); [left; reflexivity | ].
  destruct (query_center_of_type db "CHU") as [chu|]; [ | left; reflexivity].
  destruct (create_referral db pid (hc_id chu) uid _ _ now) as [[r|e] db'] eqn:E.
  - apply create_referral_returns in E.
    destruct E as (p' & f & t & Hp' & _ & _ & _ & -> & ->).
    rewrite Hp in Hp'. injection Hp' as <-.
    right; right. do 4 eexists. split; reflexivity.
  - apply create_referral_raise_unchanged in E. subst db'.
    right; left. eexists. reflexivity.
Qed.

(** X15.  POST /triage/{id}/assess answers 404 and changes nothing for a
    patient who is not stored.  For a stored patient it never raises: it
    returns the patient with the assessed level, which is also the row
    then stored, and leaves the health centres as they were.  Either the
    referral table and the subscribers are untouched, or exactly one
    referral was appended (CREATED, for this patient, priority CRITICAL,
    created by the caller) and exactly one broadcast was made; the first
    is the case whenever the assessed level is not CRITICAL, or the
    patient's centre is not stored or is not a Centre de Santé. *)
Theorem assess_triage_outcomes (send_fails : WebSocket -> Json -> option Exception)
    (app : App) (pid uid : Z) (now : datetime) :
  (query_patient (session app) pid = None ->
     TriageRoutes.assess_triage send_fails app pid uid now
     = (Raise (HTTPException 404 ("Patient with ID " ++ str_int pid ++ " not found")),
        app))
  /\ (forall p, query_patient (session app) pid = Some p ->
        let p' := set_triage_level p (TriageService.assess_triage_level p) in
        let app' := snd (TriageRoutes.assess_triage send_fails app pid uid now) in
        fst (TriageRoutes.assess_triage send_fails app pid uid now) = Return p'
        /\ query_patient (session app') pid = Some p'
        /\ health_centers (session app') = health_centers (session app)
        /\ ((referrals (session app') = referrals (session app)
             /\ manager app' = manager app)
            \/ (exists r payload,
                  referrals (session app') = (referrals (session app) ++ [r])%list
                  /\ status r = "CREATED" /\ patient_id r = pid
                  /\ priority r = "CRITICAL" /\ created_by r = uid
                  /\ manager app'
                     = snd (ConnectionManager.broadcast send_fails payload
                              (manager app))))
        /\ (TriageService.assess_triage_level p <> "CRITICAL"
            \/ query_health_center (session app) (health_center_id p) = None
            \/ (exists h, query_health_center (session app) (health_center_id p) = Some h
                          /\ center_type h <> "Centre de Santé") ->
            referrals (session app') = referrals (session app)
            /\ manager app' = manager app)).
Proof.
  split.
  - intro Hq. unfold TriageRoutes.assess_triage. rewrite Hq. reflexivity.
  - intros p Hp p' app'.
    pose proof (query_patient_id _ _ _ Hp) as Hid.
    set (db1 := commit_patient (session app) p').
    assert (Hp1 : query_patient db1 pid = Some p')
      by (apply query_patient_after_commit with (p := p); assumption).
    assert (Hroute : TriageRoutes.assess_triage send_fails app pid uid now
              = if TriageService.should_create_referral p' db1
                then match auto_create_referral_for_critical_patient db1 (p_id p') uid now
                     with
                     | (Return (Some referral), db') =>
                         let (_, manager') :=
                           NotificationService.notify_new_referral send_fails
                             [("referral_id", JInt (r_id referral));
                              ("patient_id", JInt (p_id p'));
                              ("patient_name",
                               JStr (first_name p' ++ " " ++ last_name p'));
                              ("priority", JStr (priority referral));
                              ("status", JStr (status referral))]
                             (manager app) in
                         (Return p', {| session := db'; manager := manager' |})
                     | (Return None, db') =>
                         (Return p', {| session := db'; manager := manager app |})
                     | (Raise _, db') =>
                         (Return p', {| session := db'; manager := manager app |})
                     end
                else (Return p', {| session := db1; manager := manager app |})).
    { unfold TriageRoutes.assess_triage. rewrite Hp. reflexivity. }
    change (p_id p') with (p_id p) in Hroute. rewrite Hid in Hroute.
    assert (Hquiet : forall db', db' = db1 ->
              fst (Return p', {| session := db'; manager := manager app |}) = Return p'
              /\ query_patient db' pid = Some p'
              /\ health_centers db' = health_centers (session app)
              /\ referrals db' = referrals (session app)).
    { intros db' ->. repeat split. exact Hp1. }
    destruct (TriageService.should_create_referral p' db1) eqn:Hs.
    + apply should_create_referral_spec in Hs.
      destruct Hs as (Hlevel & h & Hh & Hty).
      assert (Hcrit : TriageService.assess_triage_level p = "CRITICAL")
        by (cbn in Hlevel; congruence).
      assert (Hexcl : ~ (TriageService.assess_triage_level p <> "CRITICAL"
                \/ query_health_center (session app) (health_center_id p) = None
                \/ (exists h0, query_health_center (session app) (health_center_id p)
                               = Some h0 /\ center_type h0 <> "Centre de Santé"))).
      { intros [N | [N | (h0 & Hh0 & N)]]; [contradiction | | ].
        - change (query_health_center db1 (health_center_id p') = None) in N. congruence.
        - change (query_health_center db1 (health_center_id p') = Some h0) in Hh0.
          congruence. }
      destruct (auto_create_forms db1 pid uid now)
        as [E | [(e & E) | (p0 & to_id & why & notes & Hp0 & E)]].
      * unfold app'. rewrite Hroute, E. cbn [fst snd session manager].
        destruct (Hquiet db1 eq_refl) as (_ & A & B & C).
        repeat match goal with |- _ /\ _ => split end; auto;
          try (intro N; contradiction).
      * unfold app'. rewrite Hroute, E. cbn [fst snd session manager].
        destruct (Hquiet db1 eq_refl) as (_ & A & B & C).
        repeat match goal with |- _ /\ _ => split end; auto;
          try (intro N; contradiction).
      * rewrite Hp1 in Hp0. injection Hp0 as <-.
        unfold app'. rewrite Hroute, E.
        unfold NotificationService.notify_new_referral.
        destruct (ConnectionManager.broadcast send_fails _ (manager app))
          as [res manager'] eqn:Eb.
        cbn [fst snd session manager].
        repeat match goal with |- _ /\ _ => split end.
        -- reflexivity.
        -- exact Hp1.
        -- reflexivity.
        -- right. eexists.
           match type of Eb with
           | ConnectionManager.broadcast _ ?payload _ = _ => exists payload
           end.
           rewrite Eb. split; [reflexivity | ].
           cbn [fresh_referral status patient_id priority created_by].
           rewrite Hlevel. repeat split; auto.
        -- intro N. contradiction.
    + unfold app'. rewrite Hroute. cbn [fst snd session manager].
      destruct (Hquiet db1 eq_refl) as (_ & A & B & C).
      repeat match goal with |- _ /\ _ => split end; auto.
Qed.

(** On the sample process: assessing the critical patient of the CHU
    stores no referral and tells no one; assessing an unknown patient is a
    404. *)
Lemma assess_triage_outcomes_demo :
  referrals (session (snd (TriageRoutes.assess_triage BroadcastSpec.second_closed
                             RouteExamples.demo_app 2 Examples.doctor 300)))
  = referrals Examples.demo_created
  /\ manager (snd (TriageRoutes.assess_triage BroadcastSpec.second_closed
                     RouteExamples.demo_app 2 Examples.doctor 300))
     = BroadcastSpec.three_subscribers
  /\ fst (TriageRoutes.assess_triage BroadcastSpec.second_closed
            RouteExamples.demo_app 9 Examples.doctor 300)
     = Raise (HTTPException 404 "Patient with ID 9 not found").
Proof.
  destruct (assess_triage_outcomes BroadcastSpec.second_closed
              RouteExamples.demo_app 2 Examples.doctor 300) as (_ & Hfound).
  destruct (assess_triage_outcomes BroadcastSpec.second_closed
              RouteExamples.demo_app 9 Examples.doctor 300) as (Hmiss & _).
  destruct (Hfound Examples.patient_chu eq_refl) as (_ & _ & _ & _ & Hquiet).
  split; [ | split].
  - apply Hquiet. right; right. exists Examples.chu_ibn_rochd.
    split; [reflexivity | discriminate].
  - apply Hquiet. right; right. exists Examples.chu_ibn_rochd.
    split; [reflexivity | discriminate].
  - rewrite (Hmiss eq_refl). reflexivity.
Defined.

(** X17.  POST /assignments/{id}/assign never tells the subscribers: the
    registry and the wire are as they were in every case.  It answers 400
    with the service's text when the referral is not stored, or the centre
    is not stored or is not a CHU, and then the process is as it was;
    otherwise it returns the referral with its new destination and the
    session holds that row. *)
Theorem assignment_route_is_silent (app : App) (id chu_id : Z) (u : User) :
  manager (snd (AssignmentRoutes.assign_referral app id chu_id u)) = manager app
  /\ (query_referral (session app) id = None ->
        AssignmentRoutes.assign_referral app id chu_id u
        = (Raise (HTTPException 400
                    ("Referral with ID " ++ str_int id ++ " not found")), app))
  /\ (forall r, query_referral (session app) id = Some r ->
        (query_health_center (session app) chu_id = None
         \/ exists h, query_health_center (session app) chu_id = Some h
                      /\ center_type h <> "CHU") ->
        AssignmentRoutes.assign_referral app id chu_id u
        = (Raise (HTTPException 400 "Destination must be a CHU"), app))
  /\ (forall r chu, query_referral (session app) id = Some r ->
        query_health_center (session app) chu_id = Some chu ->
        center_type chu = "CHU" ->
        AssignmentRoutes.assign_referral app id chu_id u
        = (Return (AssignmentService.set_to_center r chu_id),
           {| session :=
                commit_referral (session app) (AssignmentService.set_to_center r chu_id);
              manager := manager app |})).
Proof.
  assert (Hmissing : query_referral (session app) id = None ->
            AssignmentService.assign_referral_to_chu (session app) id chu_id
            = (Raise (ValueError ("Referral with ID " ++ str_int id ++ " not found")),
               session app)).
  { intro Hq. unfold AssignmentService.assign_referral_to_chu. rewrite Hq. reflexivity. }
  unfold AssignmentRoutes.assign_referral.
  repeat match goal with |- _ /\ _ => split end.
  - destruct (AssignmentService.assign_referral_to_chu (session app) id chu_id)
      as [[r'|[msg|code detail|msg]] db']; reflexivity.
  - intro Hq. rewrite (Hmissing Hq). destruct app; reflexivity.
  - intros r Hq Hbad.
    destruct (CaseFacts.assign_cases (session app) id chu_id r Hq)
      as [[(chu & Hc & Hty) _] | [_ E]].
    + destruct Hbad as [Hn | (h & Hh & Hne)]; congruence.
    + rewrite E. destruct app; reflexivity.
  - intros r chu Hq Hc Hty.
    destruct (CaseFacts.assign_cases (session app) id chu_id r Hq)
      as [[_ E] | [[Hn | (h & Hh & Hne)] _]]; [ | congruence | congruence].
    rewrite E. reflexivity.
Qed.

End RouteFacts.
